(** * Liver segmentation service: metrics engine and inference pipeline

    A shallow embedding of [liver_segmentation/metrics.py],
    [liver_segmentation/inference.py] and the loader of
    [liver_segmentation/preprocessing.py].

    - NumPy arrays are a shape together with the elements in storage
      (C) order.  Integer-valued arrays ([uint8] masks) hold the numbers
      0 and 1 of the same element type.
    - Floating-point numbers are abstract: every function is written once
      over an interface [FloatOps] of the operations the Python code uses.
      The instance [xfloat] interprets it with exact rationals and one
      non-finite value (what NumPy returns for a division by zero).
    - Python dictionaries whose key set matters are [gmap string _].
    - Exceptions are a sum type; the file system, clock, UUID source and
      the network are part of an explicit environment and state.  The
      file system is a tree of directories and regular files named by
      their components, compared byte by byte, on a POSIX system
      without symbolic links; access rights, device errors and limits
      on the length of a path are left out.
    - Rounding to decimals is exact in [xfloat]; where a decimal tie
      is not a tie in binary, the two differ in the last digit.
    - Elementwise operations are given for arrays of one shape, the only
      case the metrics are specified for; console output is left out. *)

From Stdlib Require Import ZArith QArith Qcanon Qround Lia Ascii String.
From stdpp Require Import base numbers list strings gmap sorting.

(** ** Exceptions and fallible results *)

Inductive exn : Type :=
  | FileNotFoundError
  | ValueError
  | ImportError
  | InvalidDicomError
  | AttributeError
  | IndexError
  | KeyError
  | TypeError
  | ZeroDivisionError
  | OSError
  | FileExistsError
  | NotADirectoryError
  | IsADirectoryError.

Inductive result (A : Type) : Type :=
  | Ok (a : A)
  | Raise (e : exn).
Arguments Ok {A} a.
Arguments Raise {A} e.

Definition rbind {A B} (r : result A) (k : A -> result B) : result B :=
  match r with
  | Ok a => k a
  | Raise e => Raise e
  end.

Definition is_ok {A} (r : result A) : bool :=
  match r with Ok _ => true | Raise _ => false end.

(** ** The numeric interface *)

Class FloatOps (F : Type) : Type := {
  of_Z : Z -> F;                 (* an integer used as a number *)
  lit : Q -> F;                  (* a decimal literal such as 1e-7 *)
  fadd : F -> F -> F;
  fsub : F -> F -> F;
  fmul : F -> F -> F;
  fdiv : F -> F -> F;
  fltb : F -> F -> bool;         (* x < y *)
  fleb : F -> F -> bool;         (* x <= y *)
  feqb : F -> F -> bool;         (* x == y *)
  fround : nat -> F -> F;        (* round(x, ndigits) *)
  ftrunc : F -> Z                (* int(x) *)
}.

Declare Scope float_scope.
Delimit Scope float_scope with fl.
Infix "+!" := fadd (at level 50, left associativity) : float_scope.
Infix "-!" := fsub (at level 50, left associativity) : float_scope.
Infix "*!" := fmul (at level 40, left associativity) : float_scope.
Infix "/!" := fdiv (at level 40, left associativity) : float_scope.
Infix ">=?" := (fun x y => fleb y x) (at level 70, no associativity) : float_scope.
Infix ">?" := (fun x y => fltb y x) (at level 70, no associativity) : float_scope.

(** ** Arrays *)

Record ndarray (F : Type) : Type := NdArray {
  shape : list nat;
  data : list F
}.
Arguments NdArray {F} shape data.
Arguments shape {F} n.
Arguments data {F} n.

Definition size {F} (a : ndarray F) : nat := length (data a).

(** The number of elements a shape announces. *)
Definition shape_size (sh : list nat) : nat := foldr Nat.mul 1%nat sh.

Definition wf_array {F} (a : ndarray F) : Prop :=
  length (data a) = shape_size (shape a).

Definition same_shape {F} (a b : ndarray F) : Prop :=
  shape a = shape b /\ length (data a) = length (data b).

Section Metrics.
Context {F : Type} {ops : FloatOps F}.
Local Open Scope float_scope.

(** [np.sum] of a numeric array. *)
Definition np_sum (l : list F) : F := foldl fadd (of_Z 0) l.

(** [np.prod] of a tuple of numbers. *)
Definition np_prod (l : list F) : F := foldl fmul (of_Z 1) l.

(** [np.sum] of a boolean array: the number of [True] entries. *)
Definition count_true (l : list bool) : Z := Z.of_nat (length (filter Is_true l)).

(** [(a > 0).astype(np.float32)] *)
Definition binarize (l : list F) : list F :=
  map (fun x => if x >? of_Z 0 then of_Z 1 else of_Z 0) l.

(** Elementwise product and comparison of two same-shape arrays. *)
Definition ew_mul (a b : list F) : list F := zip_with fmul a b.
Definition ew_eq (a b : list F) : list bool := zip_with feqb a b.
(** [1 - a] *)
Definition one_minus (a : list F) : list F := map (fun x => of_Z 1 -! x) a.

Definition smooth_default : F := lit (1 # 10000000).

Definition calculate_dice_s (ground_truth prediction : ndarray F) (smooth : F) : F :=
  let gt := binarize (data ground_truth) in
  let pred := binarize (data prediction) in
  let intersection := np_sum (ew_mul gt pred) in
  let gt_size := np_sum gt in
  let pred_size := np_sum pred in
  (lit 2 *! intersection +! smooth) /! (gt_size +! pred_size +! smooth).

Definition calculate_dice (ground_truth prediction : ndarray F) : F :=
  calculate_dice_s ground_truth prediction smooth_default.

Definition calculate_iou_s (ground_truth prediction : ndarray F) (smooth : F) : F :=
  let gt := binarize (data ground_truth) in
  let pred := binarize (data prediction) in
  let intersection := np_sum (ew_mul gt pred) in
  let union := np_sum gt +! np_sum pred -! intersection in
  (intersection +! smooth) /! (union +! smooth).

Definition calculate_iou (ground_truth prediction : ndarray F) : F :=
  calculate_iou_s ground_truth prediction smooth_default.

Definition calculate_sensitivity_s (ground_truth prediction : ndarray F) (smooth : F) : F :=
  let gt := binarize (data ground_truth) in
  let pred := binarize (data prediction) in
  let true_positive := np_sum (ew_mul gt pred) in
  let false_negative := np_sum (ew_mul gt (one_minus pred)) in
  (true_positive +! smooth) /! (true_positive +! false_negative +! smooth).

Definition calculate_sensitivity (ground_truth prediction : ndarray F) : F :=
  calculate_sensitivity_s ground_truth prediction smooth_default.

Definition calculate_specificity_s (ground_truth prediction : ndarray F) (smooth : F) : F :=
  let gt := binarize (data ground_truth) in
  let pred := binarize (data prediction) in
  let true_negative := np_sum (ew_mul (one_minus gt) (one_minus pred)) in
  let false_positive := np_sum (ew_mul (one_minus gt) pred) in
  (true_negative +! smooth) /! (true_negative +! false_positive +! smooth).

Definition calculate_specificity (ground_truth prediction : ndarray F) : F :=
  calculate_specificity_s ground_truth prediction smooth_default.

Definition calculate_pixel_accuracy (ground_truth prediction : ndarray F) : F :=
  let gt := binarize (data ground_truth) in
  let pred := binarize (data prediction) in
  let correct := count_true (ew_eq gt pred) in
  let total := Z.of_nat (length gt) in
  of_Z correct /! of_Z total.

(** Values stored in the metrics and metadata dictionaries. *)
Inductive pyval : Type :=
  | PFloat (x : F)
  | PInt (z : Z)
  | PBool (b : bool)
  | PStr (s : string)
  | PTuple (xs : list F).

Definition default_spacing : list F := [lit 1; lit 1; lit 1].

Definition calculate_volume (mask : ndarray F) (spacing : list F) : gmap string pyval :=
  let voxel_volume := np_prod spacing in
  let voxel_count := count_true (map (fun x => x >? of_Z 0) (data mask)) in
  let volume_mm3 := of_Z voxel_count *! voxel_volume in
  let volume_ml := volume_mm3 /! lit 1000 in
  <["voxel_count" := PInt voxel_count]>
    (<["volume_mm3" := PFloat (fround 2 volume_mm3)]>
      (<["volume_ml" := PFloat (fround 2 volume_ml)]> ∅)).

(** [d[k]] for a key holding a number; used for the comparisons on the
    metrics already stored. *)
Definition get_float (m : gmap string pyval) (k : string) : result F :=
  match m !! k with
  | Some (PFloat x) => Ok x
  | Some (PInt z) => Ok (of_Z z)
  | Some _ => Raise ValueError
  | None => Raise KeyError
  end.

(** [d.update(e)]: the entries of [e] win. *)
Definition dict_update {V} (d e : gmap string V) : gmap string V := e ∪ d.

Definition calculate_all_metrics (ground_truth prediction : ndarray F)
    (spacing : list F) : result (gmap string pyval) :=
  let metrics : gmap string pyval :=
    <["pixel_accuracy" := PFloat (fround 6 (calculate_pixel_accuracy ground_truth prediction))]>
    (<["specificity" := PFloat (fround 6 (calculate_specificity ground_truth prediction))]>
    (<["sensitivity" := PFloat (fround 6 (calculate_sensitivity ground_truth prediction))]>
    (<["iou" := PFloat (fround 6 (calculate_iou ground_truth prediction))]>
    (<["dice" := PFloat (fround 6 (calculate_dice ground_truth prediction))]> ∅)))) in
  let volume_metrics := calculate_volume prediction spacing in
  let metrics := dict_update metrics volume_metrics in
  rbind (get_float metrics "dice") (fun dice =>
  rbind (get_float metrics "iou") (fun iou =>
  let metrics :=
    <["meets_clinical_standards" :=
        PBool ((dice >=? lit (9 # 10)) && (iou >=? lit (9 # 10)))]> metrics in
  let metrics :=
    if dice >=? lit (9 # 10) then <["quality_grade" := PStr "Excellent"]> metrics
    else if dice >=? lit (8 # 10) then <["quality_grade" := PStr "Good"]> metrics
    else if dice >=? lit (7 # 10) then <["quality_grade" := PStr "Fair"]> metrics
    else <["quality_grade" := PStr "Poor"]> metrics in
  Ok metrics)).

End Metrics.

(** ** Volume loader ([preprocessing.py]) *)

(** A path is the sequence of its components; [p / name], for a name
    that is one component, appends it. *)
Definition path : Type := list string.
Definition path_join (p : path) (name : string) : path := p ++ [name].

Section Preprocessing.
Context {F : Type} {ops : FloatOps F}.
Local Open Scope float_scope.

(** [np.clip(v, lo, hi)] is [minimum(maximum(v, lo), hi)]. *)
Definition clip1 (lo hi x : F) : F :=
  let y := if fltb x lo then lo else x in
  if fltb hi y then hi else y.

Definition np_clip (a : ndarray F) (lo hi : F) : ndarray F :=
  NdArray (shape a) (map (clip1 lo hi) (data a)).

Definition normalize_hounsfield_units (volume : ndarray F)
    (window_center window_width : F) : ndarray F :=
  let min_hu := window_center -! (window_width /! lit 2) in
  let max_hu := window_center +! (window_width /! lit 2) in
  let volume := np_clip volume min_hu max_hu in
  NdArray (shape volume)
    (map (fun v => (v -! min_hu) /! (max_hu -! min_hu)) (data volume)).

Definition clip_hounsfield_units (volume : ndarray F) (min_hu max_hu : F) : ndarray F :=
  np_clip volume min_hu max_hu.

(** The value of a numeric attribute as the parser hands it out: [None]
    for an element without a value, a number for an element with one
    value, a sequence for an element with several. *)
Inductive dsvalue : Type :=
  | DsNone
  | DsNumber (x : F)
  | DsMulti (l : list F).

(** The attributes of a parsed dataset the loader looks at; an absent
    attribute is [None]. *)
Record Dataset : Type := {
  PatientID : option string;
  StudyDate : option string;
  Modality : option string;
  Rows : option Z;
  Columns : option Z;
  PixelSpacing : option dsvalue;
  SliceThickness : option dsvalue;
  WindowCenter : option F;
  WindowWidth : option F;
  RescaleSlope : option F;
  RescaleIntercept : option F;
  pixel_array : ndarray F
}.

(** What the loader sees of the outside world: whether the imaging
    backend can be imported, the file tree, the parser's verdict on each
    file (header only, or with pixel data), and the random draw used
    for synthetic volumes. *)
Record LoaderEnv : Type := {
  pydicom_available : bool;
  is_file : path -> bool;
  is_dir : path -> bool;
  iterdir : path -> list string;
  dcmread : path -> bool -> result Dataset;
  random_normal : list nat -> list F
}.

Record DicomPreprocessor : Type := {
  target_spacing : list F;
  window_center : F;
  window_width : F
}.

Definition default_preprocessor : DicomPreprocessor :=
  {| target_spacing := [lit (3 # 2); lit 1; lit 1];
     window_center := lit 40;
     window_width := lit 400 |}.

(** [getattr(ds, name, default)] *)
Definition getattr {A} (o : option A) (d : A) : A := default d o.

(** [l[i]] on a Python list. *)
Definition py_index {A} (l : list A) (i : nat) : result A :=
  match l !! i with
  | Some x => Ok x
  | None => Raise IndexError
  end.

(** [float(v)] and [v[i]] on the value of an attribute. *)
Definition py_float (v : dsvalue) : result F :=
  match v with
  | DsNumber x => Ok x
  | DsNone | DsMulti _ => Raise TypeError
  end.

Definition subscript (v : dsvalue) (i : nat) : result F :=
  match v with
  | DsMulti l => py_index l i
  | DsNone | DsNumber _ => Raise TypeError
  end.

Definition extract_metadata (self : DicomPreprocessor) (ds : Dataset)
    : result (gmap string pyval) :=
  let metadata : gmap string pyval := ∅ in
  let metadata := <["patient_id" := PStr (getattr (PatientID ds) "UNKNOWN")]> metadata in
  let metadata := <["study_date" := PStr (getattr (StudyDate ds) EmptyString)]> metadata in
  let metadata := <["modality" := PStr (getattr (Modality ds) "CT")]> metadata in
  let metadata := <["rows" := PInt (getattr (Rows ds) 512%Z)]> metadata in
  let metadata := <["columns" := PInt (getattr (Columns ds) 512%Z)]> metadata in
  let pixel_spacing := getattr (PixelSpacing ds) (DsMulti [lit 1; lit 1]) in
  let slice_thickness := getattr (SliceThickness ds) (DsNumber (lit 1)) in
  rbind (py_float slice_thickness) (fun thickness =>
  rbind (subscript pixel_spacing 0) (fun ps0 =>
  rbind (subscript pixel_spacing 1) (fun ps1 =>
  let metadata := <["spacing" := PTuple [thickness; ps0; ps1]]> metadata in
  let metadata :=
    <["window_center" := PFloat (getattr (WindowCenter ds) (window_center self))]> metadata in
  let metadata :=
    <["window_width" := PFloat (getattr (WindowWidth ds) (window_width self))]> metadata in
  Ok metadata))).

(** Coordinates of storage position [k] in a [z, h, w] volume. *)
Definition in_range (lo hi x : nat) : bool := (lo <=? x)%nat && (x <? hi)%nat.

Definition create_mock_volume (env : LoaderEnv) (sh : nat * nat * nat) : ndarray F :=
  let '(z, h, w) := sh in
  let volume := NdArray [z; h; w] (random_normal env [z; h; w]) in
  let volume := np_clip volume (of_Z 0) (of_Z 1) in
  let liver k :=
    in_range (z / 3) (2 * z / 3) (k / (h * w))
    && in_range (h / 3) (2 * h / 3) ((k / w) mod h)
    && in_range (w / 3) (2 * w / 3) (k mod w) in
  let volume :=
    NdArray (shape volume)
      (imap (fun k v => if liver k then v +! lit (2 # 10) else v) (data volume)) in
  np_clip volume (of_Z 0) (of_Z 1).

Definition mock_shape : nat * nat * nat := (100, 512, 512)%nat.

Definition create_mock_metadata (self : DicomPreprocessor) : gmap string pyval :=
  <["window_width" := PFloat (window_width self)]>
  (<["window_center" := PFloat (window_center self)]>
  (<["spacing" := PTuple [lit (3 # 2); lit 1; lit 1]]>
  (<["columns" := PInt 512%Z]>
  (<["rows" := PInt 512%Z]>
  (<["modality" := PStr "CT"]>
  (<["study_date" := PStr "20240101"]>
  (<["patient_id" := PStr "MOCK_PATIENT"]> ∅))))))).

(** [import pydicom] *)
Definition import_pydicom (env : LoaderEnv) : result unit :=
  if pydicom_available env then Ok tt else Raise ImportError.

(** [try: body  except ImportError: handler]; the handler only runs when
    the body raised [ImportError]. *)
Definition except_ImportError {A} (body : result A) (handler : unit -> result A)
    : result A :=
  match body with
  | Raise ImportError => handler tt
  | r => r
  end.

(** Conversion of the stored values to Hounsfield units. *)
Definition to_hu (ds : Dataset) : ndarray F :=
  let pixel_array := pixel_array ds in
  match RescaleSlope ds, RescaleIntercept ds with
  | Some slope, Some intercept =>
      NdArray (shape pixel_array)
        (map (fun v => v *! slope +! intercept) (data pixel_array))
  | _, _ => pixel_array
  end.

Definition mock_data (env : LoaderEnv) (self : DicomPreprocessor) (_ : unit)
    : result (ndarray F * gmap string pyval) :=
  Ok (create_mock_volume env mock_shape, create_mock_metadata self).

Definition load_single_dicom (env : LoaderEnv) (self : DicomPreprocessor)
    (file_path : path) : result (ndarray F * gmap string pyval) :=
  except_ImportError
    (rbind (import_pydicom env) (fun _ =>
     rbind (dcmread env file_path false) (fun ds =>
     let volume := to_hu ds in
     rbind (extract_metadata self ds) (fun metadata =>
     let volume :=
       normalize_hounsfield_units volume (window_center self) (window_width self) in
     Ok (volume, metadata)))))
    (mock_data env self).

(** The first loop of [load_dicom_series]: keep the regular files whose
    header parses; a file rejected with [InvalidDicomError] or
    [AttributeError] is skipped, any other exception leaves the loop. *)
Fixpoint find_dicom_files (env : LoaderEnv) (files : list path)
    (dicom_files : list path) : result (list path) :=
  match files with
  | [] => Ok dicom_files
  | file :: rest =>
      if is_file env file then
        match dcmread env file true with
        | Ok _ => find_dicom_files env rest (dicom_files ++ [file])
        | Raise InvalidDicomError | Raise AttributeError =>
            find_dicom_files env rest dicom_files
        | Raise e => Raise e
        end
      else find_dicom_files env rest dicom_files
  end.

(** The second loop: read every kept file with its pixels. *)
Fixpoint load_slices (env : LoaderEnv) (dicom_files : list path)
    (slices : list (ndarray F)) : result (list (ndarray F)) :=
  match dicom_files with
  | [] => Ok slices
  | file :: rest =>
      rbind (dcmread env file false) (fun ds =>
      load_slices env rest (slices ++ [to_hu ds]))
  end.

(** [np.stack(slices, axis=0)]; the slices must agree in shape. *)
Definition np_stack (slices : list (ndarray F)) : result (ndarray F) :=
  match slices with
  | [] => Raise ValueError
  | s0 :: _ =>
      if forallb (fun s => bool_decide (shape s = shape s0)) slices
      then Ok (NdArray (length slices :: shape s0) (concat (map data slices)))
      else Raise ValueError
  end.

Definition sorted_children (env : LoaderEnv) (directory : path) : list path :=
  map (path_join directory) (merge_sort String.le (iterdir env directory)).

Definition load_dicom_series (env : LoaderEnv) (self : DicomPreprocessor)
    (directory : path) : result (ndarray F * gmap string pyval) :=
  except_ImportError
    (rbind (import_pydicom env) (fun _ =>
     rbind (find_dicom_files env (sorted_children env directory) []) (fun dicom_files =>
     match dicom_files with
     | [] => Raise ValueError
     | first :: _ =>
         rbind (dcmread env first false) (fun first_ds =>
         rbind (extract_metadata self first_ds) (fun metadata =>
         rbind (load_slices env dicom_files []) (fun slices =>
         rbind (np_stack slices) (fun volume =>
         let volume :=
           normalize_hounsfield_units volume (window_center self) (window_width self) in
         Ok (volume, metadata)))))
     end)))
    (mock_data env self).

Definition load_dicom (env : LoaderEnv) (self : DicomPreprocessor) (p : path)
    : result (ndarray F * gmap string pyval) :=
  if is_file env p then load_single_dicom env self p
  else if is_dir env p then load_dicom_series env self p
  else Raise FileNotFoundError.

End Preprocessing.

(** ** Inference pipeline ([inference.py]) *)

Record slice_record : Type := SliceRecord {
  slice_index : Z;
  has_liver : bool;
  liver_area : Z
}.

Record contours : Type := Contours {
  format : string;
  slices : list slice_record
}.

(** [range(start, stop, step)] for a positive step, as the loop visits it. *)
Fixpoint range_from (fuel : nat) (i stop step : Z) : list Z :=
  match fuel with
  | O => []
  | S fuel' =>
      if (i <? stop)%Z then i :: range_from fuel' (i + step)%Z stop step else []
  end.

Definition py_range (start stop step : Z) : list Z :=
  range_from (Z.to_nat (stop - start)) start stop step.

(** ['%032x' % n]: lower-case hexadecimal, zero padded to [width] digits. *)
Definition hex_digit (d : N) : ascii :=
  nth (N.to_nat d) (list_ascii_of_string "0123456789abcdef") "0"%char.

Fixpoint hex_rev (width : nat) (n : N) : list ascii :=
  match width with
  | O => []
  | S w => hex_digit (n mod 16)%N :: hex_rev w (n / 16)%N
  end.

Definition hex (width : nat) (n : N) : list ascii := rev (hex_rev width n).

(** [str(path)] *)
Definition path_str (p : path) : string := String.concat "/" p.

Definition path_parent (p : path) : path := take (length p - 1)%nat p.

(** All non-empty prefixes of a path: the directories [mkdir(parents=True)] makes. *)
Definition path_prefixes (p : path) : list path :=
  map (fun n => take n p) (seq 1 (length p)).

(** [p / s] for a string [s], as pathlib reads it on a POSIX system: the
    string is cut at every "/", and empty pieces and "." are dropped
    (".." stays); a string that starts with "/" is absolute and replaces
    [p], its root written as a leading empty component (two for exactly
    two leading slashes), so that [path_str] gives the slashes back. *)
Fixpoint split_slash (s : string) : list string :=
  match s with
  | EmptyString => [EmptyString]
  | String c rest =>
      if Ascii.eqb c "/" then EmptyString :: split_slash rest
      else
        match split_slash rest with
        | piece :: pieces => String c piece :: pieces
        | [] => [String c EmptyString]
        end
  end.

Definition pathlib_parts (s : string) : list string :=
  List.filter (fun piece => negb (String.eqb piece EmptyString || String.eqb piece "."))
    (split_slash s).

(** How many "/" the string starts with. *)
Fixpoint leading_slashes (s : string) : nat :=
  match s with
  | String c rest => if Ascii.eqb c "/" then S (leading_slashes rest) else O
  | EmptyString => O
  end.

Definition path_div (p : path) (s : string) : path :=
  match leading_slashes s with
  | O => p ++ pathlib_parts s
  | 2%nat => EmptyString :: EmptyString :: pathlib_parts s
  | _ => EmptyString :: pathlib_parts s
  end.

(** A string that names one directory entry: between 1 and 255 bytes,
    none of them a separator or NUL, and not "." or "..". *)
Definition name_char (c : ascii) : bool :=
  negb (Ascii.eqb c "/") && negb (Ascii.eqb c "000").

Definition plain_name (s : string) : bool :=
  negb (String.eqb s EmptyString) && negb (String.eqb s ".") && negb (String.eqb s "..")
  && (String.length s <=? 255)%nat
  && forallb name_char (list_ascii_of_string s).

Section Inference.
Context {F : Type} {ops : FloatOps F}.
Local Open Scope float_scope.

Definition postprocess_mask (mask : ndarray F) (min_volume_voxels : Z) : ndarray F :=
  NdArray (shape mask)
    (map (fun x => if x >? lit (1 # 2) then of_Z 1 else of_Z 0) (data mask)).

(** The numbers [np.prod] multiplies when handed a dictionary value. *)
Definition as_numbers (v : pyval (F:=F)) : result (list F) :=
  match v with
  | PTuple xs => Ok xs
  | PFloat x => Ok [x]
  | PInt z => Ok [of_Z z]
  | PBool b => Ok [of_Z (if b then 1 else 0)]
  | PStr _ => Raise TypeError
  end.

Definition calculate_volume_metrics (mask : ndarray F) (metadata : gmap string pyval)
    : result (gmap string pyval) :=
  let spacing := default (PTuple default_spacing) (metadata !! "spacing") in
  rbind (as_numbers spacing) (fun numbers =>
  let voxel_volume := np_prod numbers in
  let liver_voxels := count_true (map (fun x => x >? of_Z 0) (data mask)) in
  let volume_mm3 := of_Z liver_voxels *! voxel_volume in
  let volume_ml := volume_mm3 /! lit 1000 in
  Ok (<["spacing" := spacing]>
     (<["voxel_count" := PInt liver_voxels]>
     (<["volume_mm3" := PFloat (fround 2 volume_mm3)]>
     (<["volume_ml" := PFloat (fround 2 volume_ml)]> ∅))))).

(** [mask[i]] along the first axis. *)
Definition get_slice (mask : ndarray F) (i : Z) : ndarray F :=
  let inner := tail (shape mask) in
  let n := shape_size inner in
  NdArray inner (take n (drop (Z.to_nat i * n) (data mask))).

Definition np_any (l : list F) : bool := existsb (fun x => negb (feqb x (of_Z 0))) l.

(** The body of the loop of [extract_contours], over the remaining
    indices of the range, with the list of records built so far. *)
Fixpoint contour_loop (mask : ndarray F) (depth : Z) (indices : list Z)
    (acc : list slice_record) : list slice_record :=
  match indices with
  | [] => acc
  | i :: rest =>
      if (depth <=? i)%Z then acc
      else
        let slice_mask := get_slice mask i in
        if feqb (np_sum (data slice_mask)) (of_Z 0) then contour_loop mask depth rest acc
        else
          contour_loop mask depth rest
            (acc ++ [SliceRecord i (np_any (data slice_mask))
                                 (ftrunc (np_sum (data slice_mask)))])
  end.

Definition extract_contours (mask : ndarray F) (num_slices : option Z) : result contours :=
  match shape mask with
  | [] => Raise IndexError
  | d :: _ =>
      let depth := Z.of_nat d in
      let num_slices := default depth num_slices in
      if (num_slices =? 0)%Z then Raise ZeroDivisionError
      else
        let step := Z.max 1 (depth / num_slices) in
        Ok (Contours "json" (contour_loop mask depth (py_range 0 depth step) []))
  end.

(** What is written to a file. *)
Inductive file_content : Type :=
  | NpyFile (a : ndarray F)
  | JsonContours (c : contours)
  | JsonDict (m : gmap string (pyval (F:=F))).

(** The mutable world of a pipeline run: how many clock readings and
    UUID draws were made, and the output tree. *)
Record State : Type := MkState {
  ticks : nat;
  uuid_draws : nat;
  dirs : gset path;
  files : gmap path file_content
}.

Record PipelineEnv : Type := {
  loader_env : LoaderEnv (F:=F);
  model_predict : ndarray F -> result (ndarray F);
  clock : nat -> F;
  uuid4 : nat -> N
}.

Definition M (A : Type) : Type := State -> result A * State.

Definition ret {A} (a : A) : M A := fun st => (Ok a, st).
Definition raise {A} (e : exn) : M A := fun st => (Raise e, st).
Definition bind {A B} (m : M A) (k : A -> M B) : M B :=
  fun st =>
    match m st with
    | (Ok a, st') => k a st'
    | (Raise e, st') => (Raise e, st')
    end.
Definition lift {A} (r : result A) : M A := fun st => (r, st).

Notation "x <~ c ;; k" := (bind c (fun x => k))
  (at level 100, c at next level, right associativity).

(** [time.time()] *)
Definition time_time (env : PipelineEnv) : M F :=
  fun st =>
    (Ok (clock env (ticks st)),
     MkState (S (ticks st)) (uuid_draws st) (dirs st) (files st)).

(** [int((t1 - t0) * 1000)] *)
Definition elapsed_ms (t0 t1 : F) : Z := ftrunc ((t1 -! t0) *! lit 1000).

Definition dir_exists (st : State) (p : path) : bool :=
  bool_decide (p = []) || bool_decide (p ∈ dirs st).

Definition is_regular_file (st : State) (p : path) : bool :=
  bool_decide (is_Some (files st !! p)).

(** What the system reports for a path whose parent is no directory:
    [ENOTDIR] when a regular file stands where a directory is needed,
    [ENOENT] otherwise. *)
Definition parent_error (st : State) (p : path) : exn :=
  if existsb (is_regular_file st) (path_prefixes (path_parent p))
  then NotADirectoryError else FileNotFoundError.

(** [p.mkdir(parents=True, exist_ok=True)]: an existing directory is
    accepted, a regular file at [p] or above it is not. *)
Definition mkdir_parents (p : path) : M unit :=
  fun st =>
    if existsb (is_regular_file st) (path_prefixes (path_parent p))
    then (Raise NotADirectoryError, st)
    else if dir_exists st p then (Ok tt, st)
    else if is_regular_file st p then (Raise FileExistsError, st)
    else
      (Ok tt,
       MkState (ticks st) (uuid_draws st)
               (list_to_set (path_prefixes p) ∪ dirs st) (files st)).

(** [p.mkdir(exist_ok=True)]: the parent has to be there; an existing
    directory is accepted, a regular file at [p] is not. *)
Definition mkdir_exist_ok (p : path) : M unit :=
  fun st =>
    if negb (dir_exists st (path_parent p)) then (Raise (parent_error st p), st)
    else if dir_exists st p then (Ok tt, st)
    else if is_regular_file st p then (Raise FileExistsError, st)
    else (Ok tt, MkState (ticks st) (uuid_draws st) ({[p]} ∪ dirs st) (files st)).

(** Opening [p] for writing and storing [c], replacing what was at that
    path: the parent has to be a directory and [p] must not be one. *)
Definition write_file (p : path) (c : file_content) : M unit :=
  fun st =>
    if negb (dir_exists st (path_parent p)) then (Raise (parent_error st p), st)
    else if dir_exists st p then (Raise IsADirectoryError, st)
    else (Ok tt, MkState (ticks st) (uuid_draws st) (dirs st) (<[p := c]> (files st))).

Record LiverSegmentationInference : Type := {
  preprocessor : DicomPreprocessor (F:=F);
  output_dir : path
}.

(** [__init__]; building the network itself is outside the model. *)
Definition init (output_dir : path) : M LiverSegmentationInference :=
  _ <~ mkdir_parents output_dir ;;
  ret {| preprocessor := default_preprocessor; output_dir := output_dir |}.

Definition generate_result_id (env : PipelineEnv) : M string :=
  fun st =>
    (Ok ("seg_" +:+ string_of_list_ascii (take 12 (hex 32 (uuid4 env (uuid_draws st))))),
     MkState (ticks st) (S (uuid_draws st)) (dirs st) (files st)).

Definition save_results (self : LiverSegmentationInference) (result_id : string)
    (mask : ndarray F) (contours : contours) (metrics : gmap string pyval)
    : M (gmap string string) :=
  let result_dir := path_div (output_dir self) result_id in
  _ <~ mkdir_exist_ok result_dir ;;
  let paths : gmap string string := ∅ in
  let mask_path := path_join result_dir "mask.npy" in
  _ <~ write_file mask_path (NpyFile mask) ;;
  let paths := <["mask_npy" := path_str mask_path]> paths in
  let contours_path := path_join result_dir "contours.json" in
  _ <~ write_file contours_path (JsonContours contours) ;;
  let paths := <["contours_json" := path_str contours_path]> paths in
  let metrics_path := path_join result_dir "metrics.json" in
  _ <~ write_file metrics_path (JsonDict metrics) ;;
  let paths := <["metrics_json" := path_str metrics_path]> paths in
  ret paths.

(** The values of the dictionary a [segment_*] call returns. *)
Inductive resval : Type :=
  | RStr (s : string)
  | RArray (a : ndarray F)
  | RContours (c : contours)
  | RDict (m : gmap string (pyval (F:=F)))
  | RInt (z : Z)
  | RPaths (p : gmap string string).

Definition segment_from_dicom (env : PipelineEnv) (self : LiverSegmentationInference)
    (dicom_path : path) (ground_truth : option (ndarray F)) : M (gmap string resval) :=
  start_time <~ time_time env ;;
  loaded <~ lift (load_dicom (loader_env env) (preprocessor self) dicom_path) ;;
  let '(volume, metadata) := loaded in
  inference_start <~ time_time env ;;
  mask <~ lift (model_predict env volume) ;;
  inference_end <~ time_time env ;;
  let inference_time := elapsed_ms inference_start inference_end in
  let mask := postprocess_mask mask 1000 in
  metrics <~ lift (match ground_truth with
                   | Some gt => calculate_all_metrics gt mask default_spacing
                   | None => calculate_volume_metrics mask metadata
                   end) ;;
  contours <~ lift (extract_contours mask None) ;;
  result_id <~ generate_result_id env ;;
  output_paths <~ save_results self result_id mask contours metrics ;;
  end_time <~ time_time env ;;
  let total_time := elapsed_ms start_time end_time in
  ret (<["metadata" := RDict metadata]>
      (<["output_paths" := RPaths output_paths]>
      (<["total_time_ms" := RInt total_time]>
      (<["inference_time_ms" := RInt inference_time]>
      (<["metrics" := RDict metrics]>
      (<["contours" := RContours contours]>
      (<["mask" := RArray mask]>
      (<["result_id" := RStr result_id]> ∅)))))))).

Definition segment_from_numpy (env : PipelineEnv) (self : LiverSegmentationInference)
    (volume : ndarray F) (spacing : pyval) : M (gmap string resval) :=
  start_time <~ time_time env ;;
  let volume := normalize_hounsfield_units volume (lit 40) (lit 400) in
  mask <~ lift (model_predict env volume) ;;
  let mask := postprocess_mask mask 1000 in
  metrics <~ lift (calculate_volume_metrics mask {["spacing" := spacing]}) ;;
  contours <~ lift (extract_contours mask None) ;;
  end_time <~ time_time env ;;
  let inference_time := elapsed_ms start_time end_time in
  ret (<["inference_time_ms" := RInt inference_time]>
      (<["metrics" := RDict metrics]>
      (<["contours" := RContours contours]>
      (<["mask" := RArray mask]> ∅)))).

End Inference.

(** ** Exact arithmetic

    Numbers are rationals in lowest terms, plus one value standing for
    the non-finite results ([nan], [inf]) NumPy produces when a division
    has a zero denominator.  A non-finite operand makes the result
    non-finite and every comparison false. *)

Inductive xfloat : Type :=
  | Fin (q : Qc)
  | NaN.

Definition xlift2 (f : Qc -> Qc -> Qc) (x y : xfloat) : xfloat :=
  match x, y with
  | Fin a, Fin b => Fin (f a b)
  | _, _ => NaN
  end.

Definition xdiv (x y : xfloat) : xfloat :=
  match x, y with
  | Fin a, Fin b => if decide (b = 0%Qc) then NaN else Fin (a / b)%Qc
  | _, _ => NaN
  end.

Definition xcmp (f : Qc -> Qc -> bool) (x y : xfloat) : bool :=
  match x, y with
  | Fin a, Fin b => f a b
  | _, _ => false
  end.

(** Rounding to the nearest integer, ties to even. *)
Definition round_half_even (q : Q) : Z :=
  let fl := Qfloor q in
  match Qcompare (q - inject_Z fl) (1 # 2) with
  | Lt => fl
  | Gt => (fl + 1)%Z
  | Eq => if Z.even fl then fl else (fl + 1)%Z
  end.

(** [round(x, ndigits)] *)
Definition round_digits (n : nat) (q : Qc) : Qc :=
  let scale := (10 ^ Z.of_nat n)%Z in
  Q2Qc (inject_Z (round_half_even (q * inject_Z scale)) / inject_Z scale).

Definition xround (n : nat) (x : xfloat) : xfloat :=
  match x with
  | Fin q => Fin (round_digits n q)
  | NaN => NaN
  end.

(** [int(x)] truncates towards zero.  Python raises on a non-finite
    argument; the pipeline only converts clock differences and sums of
    mask voxels, so that case is given the value 0 here. *)
Definition xtrunc (x : xfloat) : Z :=
  match x with
  | Fin q => Z.quot (Qnum q) (Zpos (Qden q))
  | NaN => 0%Z
  end.

#[export] Instance xfloat_ops : FloatOps xfloat := {|
  of_Z z := Fin (Qc_of_Z z);
  lit q := Fin (Q2Qc q);
  fadd := xlift2 Qcplus;
  fsub := xlift2 Qcminus;
  fmul := xlift2 Qcmult;
  fdiv := xdiv;
  fltb := xcmp (fun a b => bool_decide (a < b)%Qc);
  fleb := xcmp (fun a b => bool_decide (a ≤ b)%Qc);
  feqb := xcmp (fun a b => bool_decide (a = b));
  fround := xround;
  ftrunc := xtrunc
|}.

Definition is_finite (x : xfloat) : bool :=
  match x with Fin _ => true | NaN => false end.

(** The absolute difference of two numbers is at most [tol]. *)
Definition within (tol : Q) (x y : xfloat) : bool :=
  match x, y with
  | Fin a, Fin b =>
      bool_decide (a - b ≤ Q2Qc tol)%Qc && bool_decide (b - a ≤ Q2Qc tol)%Qc
  | _, _ => false
  end.

(** An array filled with one value, [np.full(shape, v)]. *)
Definition full {F} (sh : list nat) (v : F) : ndarray F :=
  NdArray sh (replicate (shape_size sh) v).

Definition xq (q : Q) : xfloat := Fin (Q2Qc q).

(** The grade the specification assigns to a reported dice value. *)
Definition spec_quality_grade {F} {ops : FloatOps F} (dice : F) : string :=
  if fleb (lit (9 # 10)) dice then "Excellent"
  else if fleb (lit (8 # 10)) dice then "Good"
  else if fleb (lit (7 # 10)) dice then "Fair"
  else "Poor".

(** A truth value as the number [0] or [1]. *)
Definition bit {F} {ops : FloatOps F} (b : bool) : F := if b then of_Z 1 else of_Z 0.

(** The scenario masks: 2x2x2, all ones and all zeros. *)
Definition ones_2x2x2 : ndarray xfloat := full [2; 2; 2]%nat (xq 1).
Definition zeros_2x2x2 : ndarray xfloat := full [2; 2; 2]%nat (xq 0).

(** ** The slice summary, after the specification *)

(** The number of foreground voxels of an array. *)
Definition foreground_count {F} {ops : FloatOps F} (a : ndarray F) : Z :=
  count_true (map (fun x => fltb (of_Z 0) x) (data a)).

(** The indices [0, stride, 2*stride, ...] below [depth]. *)
Definition visited_indices (depth stride : Z) : list Z :=
  map (fun k => k * stride)%Z (seqZ 0 ((depth + stride - 1) / stride)).

(** One record per visited slice that has foreground, none for the others. *)
Definition spec_summarize {F} {ops : FloatOps F} (mask : ndarray F) (num_slices : Z)
    : list slice_record :=
  let depth := Z.of_nat (hd 0%nat (shape mask)) in
  let stride := Z.max 1 (depth / num_slices) in
  flat_map
    (fun i =>
       let area := foreground_count (get_slice mask i) in
       if (area =? 0)%Z then [] else [SliceRecord i true area])
    (visited_indices depth stride).

(** Every voxel is the number 0 or the number 1. *)
Definition is_binary {F} {ops : FloatOps F} (a : ndarray F) : Prop :=
  Forall (fun x => x = of_Z 0 \/ x = of_Z 1) (data a).

(** A 3x1x2 mask whose middle slice is empty. *)
Definition mask_3x1x2 : ndarray xfloat :=
  NdArray [3; 1; 2]%nat [xq 1; xq 1; xq 0; xq 0; xq 0; xq 1].

(** ** A small concrete world, for running the pipeline *)

(** A two-slice scan with spacing 2.5 x 0.5 x 0.5 mm. *)
Definition demo_dataset : Dataset (F:=xfloat) := {|
  PatientID := Some "P1";
  StudyDate := None;
  Modality := Some "CT";
  Rows := Some 1%Z;
  Columns := Some 2%Z;
  PixelSpacing := Some (DsMulti [xq (1 # 2); xq (1 # 2)]);
  SliceThickness := Some (DsNumber (xq (5 # 2)));
  WindowCenter := None;
  WindowWidth := None;
  RescaleSlope := None;
  RescaleIntercept := None;
  pixel_array := NdArray [2; 1; 2]%nat [xq 100; xq (-500); xq 240; xq 0]
|}.

(** The file ["scan.dcm"] parses; the directory ["junk"] holds two files the
    parser rejects and a sub-directory. *)
Definition demo_loader (backend : bool) : LoaderEnv (F:=xfloat) := {|
  pydicom_available := backend;
  is_file := fun p =>
    bool_decide (p = ["scan.dcm"]) || bool_decide (p = ["junk"; "b.txt"])
    || bool_decide (p = ["junk"; "a.txt"]);
  is_dir := fun p => bool_decide (p = ["junk"]) || bool_decide (p = ["junk"; "sub"]);
  iterdir := fun p => if bool_decide (p = ["junk"]) then ["b.txt"; "sub"; "a.txt"] else [];
  dcmread := fun p _ =>
    if bool_decide (p = ["scan.dcm"]) then Ok demo_dataset else Raise InvalidDicomError;
  random_normal := fun sh => replicate (shape_size sh) (xq (3 # 10))
|}.

(** A stand-in network: it thresholds its input at 0.5. *)
Definition demo_predict (v : ndarray xfloat) : result (ndarray xfloat) :=
  Ok (NdArray (shape v) (map (fun x => if fltb (lit (1 # 2)) x then of_Z 1 else of_Z 0) (data v))).

(** The clock advances by a quarter of a second per reading; the first two
    UUIDs differ only after their twelfth hexadecimal digit. *)
Definition demo_env : PipelineEnv (F:=xfloat) := {|
  loader_env := demo_loader true;
  model_predict := demo_predict;
  clock := fun n => xq (Z.of_nat n # 4);
  uuid4 := fun n =>
    match n with
    | O => 0x123456789abc4def8123456789abcdef%N
    | S O => 0x123456789abc4aaa8bbbccccddddeeee%N
    | S (S k) => (0xfedcba98765443218000000000000000 + N.of_nat k)%N
    end
|}.

Definition demo_pipeline : LiverSegmentationInference (F:=xfloat) := {|
  preprocessor := default_preprocessor;
  output_dir := ["out"]
|}.

(** The state [__init__] leaves behind in an empty world. *)
Definition demo_state : State (F:=xfloat) := MkState 0 0 {[ ["out"] ]} ∅.

Definition demo_ground_truth : ndarray xfloat :=
  NdArray [2; 1; 2]%nat [xq 1; xq 1; xq 1; xq 0].

Definition demo_volume : ndarray xfloat :=
  NdArray [2; 1; 2]%nat [xq 100; xq (-500); xq 240; xq 0].

(** ** The dictionaries the two entry points return *)

Section ResultShapes.
Context {F : Type} {ops : FloatOps F}.

(** The eight entries [segment_from_dicom] returns. *)
Definition dicom_result (result_id : string) (mask : ndarray F) (contours : contours)
    (metrics : gmap string pyval) (inference_time total_time : Z)
    (output_paths : gmap string string) (metadata : gmap string pyval)
    : gmap string (resval (F:=F)) :=
  <["metadata" := RDict metadata]>
  (<["output_paths" := RPaths output_paths]>
  (<["total_time_ms" := RInt total_time]>
  (<["inference_time_ms" := RInt inference_time]>
  (<["metrics" := RDict metrics]>
  (<["contours" := RContours contours]>
  (<["mask" := RArray mask]>
  (<["result_id" := RStr result_id]> ∅))))))).

(** The four entries [segment_from_numpy] returns. *)
Definition numpy_result (mask : ndarray F) (contours : contours)
    (metrics : gmap string pyval) (inference_time : Z)
    : gmap string (resval (F:=F)) :=
  <["inference_time_ms" := RInt inference_time]>
  (<["metrics" := RDict metrics]>
  (<["contours" := RContours contours]>
  (<["mask" := RArray mask]> ∅))).

Definition dicom_result_keys : gset string :=
  {["result_id"; "mask"; "contours"; "metrics"; "inference_time_ms";
    "total_time_ms"; "output_paths"; "metadata"]}.

Definition numpy_result_keys : gset string :=
  {["mask"; "contours"; "metrics"; "inference_time_ms"]}.

Definition volume_metrics_keys : gset string :=
  {["volume_ml"; "volume_mm3"; "voxel_count"; "spacing"]}.
End ResultShapes.

(** ** Result identifiers and stored paths *)

Definition is_hex_char (c : ascii) : bool :=
  existsb (Ascii.eqb c) (list_ascii_of_string "0123456789abcdef").

(** [s.endswith(suffix)] *)
Definition ends_with (s suffix : string) : Prop :=
  exists prefix, s = prefix +:+ suffix.

(** The twelve leading hexadecimal digits of a 128-bit UUID, as a number. *)
Definition uuid_prefix (u : N) : N := ((u / 16 ^ 20) mod 16 ^ 12)%N.

(** The directory of a result and its three files. *)
Definition result_dir {F} (self : LiverSegmentationInference (F:=F)) (result_id : string)
    : path :=
  path_div (output_dir self) result_id.

Definition result_file {F} (self : LiverSegmentationInference (F:=F)) (result_id name : string)
    : path :=
  path_join (result_dir self result_id) name.

(** Nothing stands in the way of storing a result: its directory is there
    or can be made, and none of its three files is a directory. *)
Definition store_free {F} (st : State (F:=F)) (self : LiverSegmentationInference (F:=F))
    (result_id : string) : bool :=
  (dir_exists st (result_dir self result_id)
   || negb (is_regular_file st (result_dir self result_id)))
  && negb (dir_exists st (result_file self result_id "mask.npy"))
  && negb (dir_exists st (result_file self result_id "contours.json"))
  && negb (dir_exists st (result_file self result_id "metrics.json")).

(** The state after a store that went through. *)
Definition stored {F} (self : LiverSegmentationInference (F:=F)) (id : string)
    (mask : ndarray F) (c : contours) (m : gmap string (pyval (F:=F)))
    (st : State (F:=F)) : State (F:=F) :=
  MkState (ticks st) (uuid_draws st)
    (if dir_exists st (result_dir self id) then dirs st
     else {[result_dir self id]} ∪ dirs st)
    (<[result_file self id "metrics.json" := JsonDict m]>
    (<[result_file self id "contours.json" := JsonContours c]>
    (<[result_file self id "mask.npy" := NpyFile mask]> (files st)))).

(** Runs of the two entry points in the demo world. *)
Definition demo_dicom_run (ground_truth : option (ndarray xfloat)) :=
  segment_from_dicom demo_env demo_pipeline ["scan.dcm"] ground_truth demo_state.

Definition demo_numpy_run :=
  segment_from_numpy demo_env demo_pipeline demo_volume
    (PTuple [xq 1; xq 1; xq 1]) demo_state.

(** ** A probability field with one isolated voxel above the threshold *)

Definition speck_field : ndarray xfloat :=
  NdArray [1; 1; 3]%nat [xq (9 # 10); xq (2 # 10); xq (1 # 10)].

(** A file the parser rejects as not being an image. *)
Definition rejected {F} (env : LoaderEnv (F:=F)) (file : path) : Prop :=
  is_file env file = true ->
  dcmread env file true = Raise InvalidDicomError
  \/ dcmread env file true = Raise AttributeError.

(** What one iteration of the loop of [extract_contours] appends for slice [i]. *)
Definition loop_emits {F} {ops : FloatOps F} (mask : ndarray F) (i : Z)
    : list slice_record :=
  let slice_mask := get_slice mask i in
  if feqb (np_sum (data slice_mask)) (of_Z 0) then []
  else [SliceRecord i (np_any (data slice_mask)) (ftrunc (np_sum (data slice_mask)))].

(** ** More of [metrics.py] *)

Section ConfusionMatrix.
Context {F : Type} {ops : FloatOps F}.

(** [(a > 0).astype(np.int32)] *)
Definition binarize_int (l : list F) : list Z :=
  map (fun x => if fltb (of_Z 0) x then 1%Z else 0%Z) l.

Definition confusion_matrix (ground_truth prediction : ndarray F) : gmap string Z :=
  let gt := binarize_int (data ground_truth) in
  let pred := binarize_int (data prediction) in
  let tp := count_true (zip_with (fun g p => (g =? 1)%Z && (p =? 1)%Z) gt pred) in
  let tn := count_true (zip_with (fun g p => (g =? 0)%Z && (p =? 0)%Z) gt pred) in
  let fp := count_true (zip_with (fun g p => (g =? 0)%Z && (p =? 1)%Z) gt pred) in
  let fn := count_true (zip_with (fun g p => (g =? 1)%Z && (p =? 0)%Z) gt pred) in
  <["false_negative" := fn]>
  (<["false_positive" := fp]>
  (<["true_negative" := tn]>
  (<["true_positive" := tp]> ∅))).

(** [calculate_hausdorff_distance]: a placeholder. *)
Definition calculate_hausdorff_distance (ground_truth prediction : ndarray F) : F := lit 0.
End ConfusionMatrix.

(** The four counts of a confusion matrix, read back from the dictionary. *)
Definition cm_count (cm : gmap string Z) (k : string) : Z := default 0%Z (cm !! k).

(** The number [n + smooth] for a count [n]. *)
Definition smoothed (n : Z) : Qc := (Qc_of_Z n + Q2Qc (1 # 10000000))%Qc.

(** A finite number between 0 and 1. *)
Definition in_unit (x : xfloat) : Prop :=
  exists q, x = Fin q /\ (0 ≤ q)%Qc /\ (q ≤ 1)%Qc.

(** ** The prediction wrapper of [model.py]

    The network itself is a parameter: [forward] maps a batched tensor to
    the tensor of probabilities, or raises. *)

Section Model.
Context {F : Type} {ops : FloatOps F}.

(** [t.unsqueeze(0)] *)
Definition unsqueeze0 (a : ndarray F) : ndarray F := NdArray (1%nat :: shape a) (data a).

(** [t.squeeze()]: every axis of length 1 goes. *)
Definition squeeze (a : ndarray F) : ndarray F :=
  NdArray (filter (fun n => n <> 1%nat) (shape a)) (data a).

Definition predict (forward : ndarray F -> result (ndarray F)) (volume : ndarray F)
    : result (ndarray F) :=
  let x := unsqueeze0 (unsqueeze0 volume) in
  rbind (forward x) (fun output =>
  let mask := squeeze output in
  let binary_mask :=
    NdArray (shape mask)
      (map (fun v => if fltb (lit (1 # 2)) v then of_Z 1 else of_Z 0) (data mask)) in
  Ok binary_mask).

(** [[self.predict(vol) for vol in volumes]] *)
Fixpoint predict_batch (forward : ndarray F -> result (ndarray F))
    (volumes : list (ndarray F)) : result (list (ndarray F)) :=
  match volumes with
  | [] => Ok []
  | vol :: rest =>
      rbind (predict forward vol) (fun mask =>
      rbind (predict_batch forward rest) (fun masks => Ok (mask :: masks)))
  end.

(** [create_baseline_model]: the weights file a pretrained model loads. *)
Definition baseline_model_path (pretrained : bool) : option string :=
  if pretrained then Some "models/liver_unet_baseline.pth" else None.
End Model.

(** The keys of the dictionary [calculate_all_metrics] returns. *)
Definition all_metrics_keys : gset string :=
  {["dice"; "iou"; "sensitivity"; "specificity"; "pixel_accuracy";
    "volume_ml"; "volume_mm3"; "voxel_count";
    "meets_clinical_standards"; "quality_grade"]}.

(** A stand-in network that returns its input. *)
Definition identity_forward (x : ndarray xfloat) : result (ndarray xfloat) := Ok x.

(** ** Bookkeeping of the pipeline state *)

Section StateSteps.
Context {F : Type} {ops : FloatOps F}.

(** The state after one more clock reading, and after one more UUID draw. *)
Definition tick (st : State (F:=F)) : State :=
  MkState (S (ticks st)) (uuid_draws st) (dirs st) (files st).
Definition draw (st : State (F:=F)) : State :=
  MkState (ticks st) (S (uuid_draws st)) (dirs st) (files st).

(** The id composed from the next UUID. *)
Definition next_result_id (env : PipelineEnv (F:=F)) (st : State (F:=F)) : string :=
  "seg_" +:+ string_of_list_ascii (take 12 (hex 32 (uuid4 env (uuid_draws st)))).

(** The output tree is the same in two states. *)
Definition same_output_tree (st st' : State (F:=F)) : Prop :=
  files st' = files st /\ dirs st' = dirs st.
End StateSteps.

(** The demo world with a directory standing where the slice summary of
    the next result goes. *)
Definition blocked_state : State (F:=xfloat) :=
  MkState 0 0
    {[ ["out"]; ["out"; "seg_123456789abc"];
       ["out"; "seg_123456789abc"; "contours.json"] ]} ∅.

(** A clock that never runs backwards and only shows finite readings. *)
Definition monotone_clock (env : PipelineEnv (F:=xfloat)) : Prop :=
  forall n, exists a b, clock env n = Fin a /\ clock env (S n) = Fin b /\ (a ≤ b)%Qc.

(** ** More of the loader of [preprocessing.py] *)

Section LoaderSteps.
Context {F : Type} {ops : FloatOps F}.

(** The same world with another enumeration of each directory. *)
Definition with_iterdir (env : LoaderEnv (F:=F)) (listing : path -> list string)
    : LoaderEnv (F:=F) :=
  {| pydicom_available := pydicom_available env;
     is_file := is_file env;
     is_dir := is_dir env;
     iterdir := listing;
     dcmread := dcmread env;
     random_normal := random_normal env |}.

(** A regular file whose header the parser accepts. *)
Definition header_parses (env : LoaderEnv (F:=F)) (file : path) : bool :=
  is_file env file && is_ok (dcmread env file true).

(** The synthetic pair the loader falls back to. *)
Definition mock_pair (env : LoaderEnv (F:=F)) (self : DicomPreprocessor (F:=F))
    : ndarray F * gmap string (pyval (F:=F)) :=
  (create_mock_volume env mock_shape, create_mock_metadata self).
End LoaderSteps.

(** The keys of a metadata dictionary. *)
Definition metadata_keys : gset string :=
  {["patient_id"; "study_date"; "modality"; "rows"; "columns"; "spacing";
    "window_center"; "window_width"]}.

(** A directory with two slices and a file that is no DICOM file,
    enumerated out of order. *)
Definition series_slice (v0 v1 : Q) : Dataset (F:=xfloat) := {|
  PatientID := Some "P2";
  StudyDate := Some "20230517";
  Modality := None;
  Rows := Some 1%Z;
  Columns := Some 2%Z;
  PixelSpacing := None;
  SliceThickness := None;
  WindowCenter := None;
  WindowWidth := None;
  RescaleSlope := Some (xq 2);
  RescaleIntercept := Some (xq (-1024));
  pixel_array := NdArray [1; 2]%nat [xq v0; xq v1]
|}.

Definition series_loader : LoaderEnv (F:=xfloat) := {|
  pydicom_available := true;
  is_file := fun p =>
    bool_decide (p = ["series"; "1.dcm"]) || bool_decide (p = ["series"; "2.dcm"])
    || bool_decide (p = ["series"; "notes.txt"]);
  is_dir := fun p => bool_decide (p = ["series"]);
  iterdir := fun p =>
    if bool_decide (p = ["series"]) then ["2.dcm"; "notes.txt"; "1.dcm"] else [];
  dcmread := fun p _ =>
    if bool_decide (p = ["series"; "1.dcm"]) then Ok (series_slice 500 532)
    else if bool_decide (p = ["series"; "2.dcm"]) then Ok (series_slice 600 1000)
    else Raise InvalidDicomError;
  random_normal := fun sh => replicate (shape_size sh) (xq (3 # 10))
|}.


(** ** Resampling and augmentation ([preprocessing.py]) *)

Section Augmentation.
Context {F : Type} {ops : FloatOps F}.
Local Open Scope float_scope.

(** [a / b] on Python floats. *)
Definition py_truediv (a b : F) : result F :=
  if feqb b (of_Z 0) then Raise ZeroDivisionError else Ok (a /! b).

(** [[current_spacing[i] / target_spacing[i] for i in indices]] *)
Fixpoint zoom_factors (current_spacing target_spacing : list F) (indices : list nat)
    : result (list F) :=
  match indices with
  | [] => Ok []
  | i :: rest =>
      rbind (py_index current_spacing i) (fun c =>
      rbind (py_index target_spacing i) (fun t =>
      rbind (py_truediv c t) (fun z =>
      rbind (zoom_factors current_spacing target_spacing rest) (fun zs =>
      Ok (z :: zs)))))
  end.

Definition resample_volume (self : DicomPreprocessor (F:=F)) (volume : ndarray F)
    (current_spacing : list F) (target : option (list F)) : result (ndarray F) :=
  let target_spacing :=
    match target with
    | None => target_spacing self
    | Some t => t
    end in
  rbind (zoom_factors current_spacing target_spacing [0; 1; 2]%nat) (fun _ =>
  Ok volume).

(** The random source and the array routines [augment_volume] calls: the
    [n]-th draw of [np.random.rand] and of [np.random.choice], element
    [j] of the [n]-th draw of [np.random.normal], [np.flip] along an axis
    and [np.rot90] in the plane of the last two axes. *)
Record AugmentEnv : Type := {
  random_rand : nat -> F;
  random_choice : nat -> list Z -> Z;
  normal_noise : nat -> F -> F -> nat -> F;
  np_flip : ndarray F -> Z -> ndarray F;
  np_rot90 : ndarray F -> Z -> ndarray F
}.

(** The last argument and the second component of the result count the
    draws taken from the random source. *)
Definition augment_volume (env : AugmentEnv) (volume : ndarray F) (flip rotate : bool)
    (noise_level : F) (draws : nat) : ndarray F * nat :=
  let augmented := volume in
  let '(augmented, draws) :=
    if flip then
      if fltb (lit (1 # 2)) (random_rand env draws) then
        let axis := random_choice env (S draws) [1; 2]%Z in
        (np_flip env augmented axis, S (S draws))
      else (augmented, S draws)
    else (augmented, draws) in
  let '(augmented, draws) :=
    if rotate then
      if fltb (lit (1 # 2)) (random_rand env draws) then
        let k := random_choice env (S draws) [1; 2; 3]%Z in
        (np_rot90 env augmented k, S (S draws))
      else (augmented, S draws)
    else (augmented, draws) in
  if fltb (of_Z 0) noise_level then
    let noise :=
      map (normal_noise env draws (of_Z 0) noise_level) (seq 0 (size augmented)) in
    let augmented :=
      NdArray (shape augmented) (zip_with fadd (data augmented) noise) in
    (np_clip augmented (of_Z 0) (of_Z 1), S draws)
  else (augmented, draws).
End Augmentation.

(** A random source that always draws 0.75, picks the first choice and
    adds 2 to every element; the array routines are left as identities. *)
Definition demo_augment_env : AugmentEnv (F:=xfloat) := {|
  random_rand := fun _ => xq (3 # 4);
  random_choice := fun _ l => hd 0%Z l;
  normal_noise := fun _ _ _ _ => xq 2;
  np_flip := fun a _ => a;
  np_rot90 := fun a _ => a
|}.

Local Open Scope float_scope.

(** ** Facts about the metrics, for any arithmetic *)

Section MetricsFacts.
Context {F : Type} {ops : FloatOps F}.
Local Open Scope float_scope.

Lemma ew_mul_comm (a b : list F) :
  (forall x y : F, fmul x y = fmul y x) -> ew_mul a b = ew_mul b a.
Proof.
  intros Hmul. unfold ew_mul. revert b.
  induction a as [|x a IH]; intros [|y b]; simpl; try reflexivity.
  rewrite (Hmul x y), (IH b). reflexivity.
Qed.

Lemma binarize_bits (l : list F) :
  binarize l = map bit (map (fun x => fltb (of_Z 0) x) l).
Proof.
  unfold binarize. rewrite map_map. apply map_ext. intros x.
  unfold bit. reflexivity.
Qed.

Lemma count_true_cons (b : bool) (l : list bool) :
  count_true (b :: l) = ((if b then 1 else 0) + count_true l)%Z.
Proof.
  unfold count_true. destruct b.
  - rewrite filter_cons_True by exact I. simpl length. lia.
  - rewrite filter_cons_False by (intros H; exact H). lia.
Qed.

Lemma count_true_bounds (l : list bool) :
  (0 <= count_true l <= Z.of_nat (length l))%Z.
Proof.
  induction l as [|b l IH]; [unfold count_true; simpl; lia|].
  rewrite count_true_cons. simpl length. destruct b; lia.
Qed.

Lemma count_true_and_le (a b : list bool) :
  (count_true (zip_with andb a b) <= count_true a)%Z.
Proof.
  revert b. induction a as [|x a IH]; intros [|y b]; simpl.
  - lia.
  - lia.
  - apply count_true_bounds.
  - rewrite !count_true_cons. specialize (IH b). destruct x, y; simpl; lia.
Qed.

(** C10: dice and IoU do not depend on the order of their two arguments.
    The result is the very same number, for any arithmetic whose addition
    and multiplication are commutative (as they are for floating point). *)
Theorem dice_iou_symmetric (A B : ndarray F) :
  (forall x y : F, fadd x y = fadd y x) ->
  (forall x y : F, fmul x y = fmul y x) ->
  same_shape A B ->
  calculate_dice A B = calculate_dice B A
  /\ calculate_iou A B = calculate_iou B A.
Proof.
  intros Hadd Hmul _.
  unfold calculate_dice, calculate_dice_s, calculate_iou, calculate_iou_s.
  rewrite (ew_mul_comm (binarize (data A)) (binarize (data B)) Hmul).
  rewrite (Hadd (np_sum (binarize (data A))) (np_sum (binarize (data B)))).
  split; reflexivity.
Qed.
End MetricsFacts.

(** ** Facts about the exact arithmetic *)

Lemma xfadd_comm (x y : xfloat) : fadd x y = fadd y x.
Proof. destruct x, y; simpl; try reflexivity. f_equal. apply Qcplus_comm. Qed.

Lemma xfmul_comm (x y : xfloat) : fmul x y = fmul y x.
Proof. destruct x, y; simpl; try reflexivity. f_equal. apply Qcmult_comm. Qed.

Lemma dice_iou_symmetric_witness :
  same_shape ones_2x2x2 zeros_2x2x2
  /\ calculate_dice ones_2x2x2 zeros_2x2x2 = calculate_dice zeros_2x2x2 ones_2x2x2
  /\ calculate_iou ones_2x2x2 zeros_2x2x2 = calculate_iou zeros_2x2x2 ones_2x2x2.
Proof.
  assert (Hs : same_shape ones_2x2x2 zeros_2x2x2) by (split; reflexivity).
  split; [exact Hs|].
  exact (dice_iou_symmetric ones_2x2x2 zeros_2x2x2 xfadd_comm xfmul_comm Hs).
Defined.

Lemma xof_Z_add (a b : Z) : fadd (of_Z a) (of_Z b) = (of_Z (a + b) : xfloat).
Proof. simpl. f_equal. symmetry. apply Z2Qc_inj_add. Qed.

Lemma xof_Z_sub (a b : Z) : fsub (of_Z a) (of_Z b) = (of_Z (a - b) : xfloat).
Proof. simpl. f_equal. symmetry. apply Z2Qc_inj_sub. Qed.

Lemma xof_Z_mul (a b : Z) : fmul (of_Z a) (of_Z b) = (of_Z (a * b) : xfloat).
Proof. simpl. f_equal. symmetry. apply Z2Qc_inj_mul. Qed.

Lemma xbit_of_Z (b : bool) : (bit b : xfloat) = of_Z (if b then 1 else 0).
Proof. destruct b; reflexivity. Qed.

Lemma xew_mul_bits (a b : list bool) :
  ew_mul (map bit a) (map bit b) = (map bit (zip_with andb a b) : list xfloat).
Proof.
  unfold ew_mul. revert b.
  induction a as [|x a IH]; intros [|y b]; simpl; try reflexivity.
  rewrite <- IH. f_equal.
  rewrite !xbit_of_Z. change (xlift2 Qcmult) with (fmul (F:=xfloat)).
  rewrite xof_Z_mul. destruct x, y; reflexivity.
Qed.

Lemma xone_minus_bits (a : list bool) :
  one_minus (map bit a) = (map bit (map negb a) : list xfloat).
Proof.
  unfold one_minus. rewrite !map_map. apply map_ext. intros b.
  rewrite !xbit_of_Z, xof_Z_sub. destruct b; reflexivity.
Qed.

Lemma xfoldl_add_bits (l : list bool) (a : Z) :
  foldl fadd (of_Z a) (map bit l) = (of_Z (a + count_true l) : xfloat).
Proof.
  revert a. induction l as [|b l IH]; intros a.
  - simpl. f_equal. f_equal. unfold count_true. simpl. lia.
  - cbn [map foldl]. rewrite xbit_of_Z, xof_Z_add, IH, count_true_cons.
    f_equal. lia.
Qed.

Lemma xnp_sum_bits (l : list bool) :
  np_sum (map bit l) = (of_Z (count_true l) : xfloat).
Proof. unfold np_sum. rewrite xfoldl_add_bits. reflexivity. Qed.

Lemma Qc_of_Z_nonneg (z : Z) : (0 <= z)%Z -> (0 ≤ Qc_of_Z z)%Qc.
Proof. intros H. rewrite <- Z2Qc_inj_0. apply (proj1 (Z2Qc_inj_le 0 z)). exact H. Qed.

Lemma xdiv_pos_finite (a b : Qc) :
  (0 < b)%Qc -> is_finite (xdiv (Fin a) (Fin b)) = true.
Proof.
  intros Hb. unfold xdiv. destruct (decide (b = 0%Qc)) as [->|]; [|reflexivity].
  exfalso. exact (Qclt_not_eq _ _ Hb eq_refl).
Qed.

Lemma smooth_pos : (0 < Q2Qc (1 # 10000000))%Qc.
Proof. reflexivity. Qed.

Lemma xdiv_smooth_finite (x : xfloat) (d : Z) :
  is_finite x = true -> (0 <= d)%Z ->
  is_finite (x /! (of_Z d +! smooth_default)) = true.
Proof.
  intros Hx Hd. destruct x as [a|]; [|discriminate].
  apply xdiv_pos_finite. apply Qcplus_nonneg_pos.
  - apply Qc_of_Z_nonneg, Hd.
  - exact smooth_pos.
Qed.

Lemma calculate_dice_finite (gt pred : ndarray xfloat) :
  is_finite (calculate_dice gt pred) = true.
Proof.
  unfold calculate_dice, calculate_dice_s.
  rewrite !binarize_bits, xew_mul_bits, !xnp_sum_bits, xof_Z_add.
  apply xdiv_smooth_finite; [reflexivity|].
  pose proof (count_true_bounds (map (fun x => fltb (of_Z 0) x) (data gt))).
  pose proof (count_true_bounds (map (fun x => fltb (of_Z 0) x) (data pred))).
  lia.
Qed.

Lemma calculate_iou_finite (gt pred : ndarray xfloat) :
  is_finite (calculate_iou gt pred) = true.
Proof.
  unfold calculate_iou, calculate_iou_s.
  rewrite !binarize_bits, xew_mul_bits, !xnp_sum_bits, xof_Z_add, xof_Z_sub.
  apply xdiv_smooth_finite; [reflexivity|].
  pose proof (count_true_and_le (map (fun x => fltb (of_Z 0) x) (data gt))
                                (map (fun x => fltb (of_Z 0) x) (data pred))).
  pose proof (count_true_bounds (map (fun x => fltb (of_Z 0) x) (data pred))).
  lia.
Qed.

Lemma calculate_sensitivity_finite (gt pred : ndarray xfloat) :
  is_finite (calculate_sensitivity gt pred) = true.
Proof.
  unfold calculate_sensitivity, calculate_sensitivity_s.
  rewrite !binarize_bits, xone_minus_bits, !xew_mul_bits, !xnp_sum_bits, xof_Z_add.
  apply xdiv_smooth_finite; [reflexivity|].
  match goal with |- (0 <= count_true ?a + count_true ?b)%Z =>
    pose proof (count_true_bounds a); pose proof (count_true_bounds b) end.
  lia.
Qed.

Lemma calculate_specificity_finite (gt pred : ndarray xfloat) :
  is_finite (calculate_specificity gt pred) = true.
Proof.
  unfold calculate_specificity, calculate_specificity_s.
  rewrite !binarize_bits, !xone_minus_bits, !xew_mul_bits, !xnp_sum_bits, xof_Z_add.
  apply xdiv_smooth_finite; [reflexivity|].
  match goal with |- (0 <= count_true ?a + count_true ?b)%Z =>
    pose proof (count_true_bounds a); pose proof (count_true_bounds b) end.
  lia.
Qed.

Lemma calculate_pixel_accuracy_finite (gt pred : ndarray xfloat) :
  data gt <> [] -> is_finite (calculate_pixel_accuracy gt pred) = true.
Proof.
  intros Hne. unfold calculate_pixel_accuracy.
  apply xdiv_pos_finite.
  rewrite <- Z2Qc_inj_0. apply (proj1 (Z2Qc_inj_lt _ _)).
  unfold binarize. rewrite length_map.
  destruct (data gt); [congruence|simpl; lia].
Qed.

(** Without voxels the accuracy is the quotient 0/0. *)
Lemma calculate_pixel_accuracy_empty (sh : list nat) :
  calculate_pixel_accuracy (NdArray sh []) (NdArray sh []) = NaN.
Proof. reflexivity. Qed.

Lemma Fin_eq (a b : Qc) : (a == b)%Q -> Fin a = Fin b.
Proof. intros H. f_equal. apply Qc_is_canon, H. Qed.

(** C7, as the code has it: on same-shape arrays with at least one voxel no
    metric divides by zero (every result is a finite number: the smoothing
    constant keeps the four smoothed denominators positive, and the voxel
    count is the fifth); for the 2x2x2 masks A all ones and B all zeros,
    dice, IoU and sensitivity are within 1e-7 of 0, specificity is 1 and
    pixel accuracy is 0. *)
Theorem metrics_never_divide_by_zero (gt pred : ndarray xfloat) :
  same_shape gt pred ->
  data gt <> [] ->
  (is_finite (calculate_dice gt pred) = true
   /\ is_finite (calculate_iou gt pred) = true
   /\ is_finite (calculate_sensitivity gt pred) = true
   /\ is_finite (calculate_specificity gt pred) = true
   /\ is_finite (calculate_pixel_accuracy gt pred) = true)
  /\ (gt = ones_2x2x2 -> pred = zeros_2x2x2 ->
      within (1 # 10000000) (calculate_dice gt pred) (xq 0) = true
      /\ within (1 # 10000000) (calculate_iou gt pred) (xq 0) = true
      /\ within (1 # 10000000) (calculate_sensitivity gt pred) (xq 0) = true
      /\ calculate_specificity gt pred = xq 1
      /\ calculate_pixel_accuracy gt pred = xq 0).
Proof.
  intros _ Hne. split.
  - repeat split.
    + apply calculate_dice_finite.
    + apply calculate_iou_finite.
    + apply calculate_sensitivity_finite.
    + apply calculate_specificity_finite.
    + apply calculate_pixel_accuracy_finite, Hne.
  - intros -> ->. repeat split; try (vm_compute; reflexivity).
    + apply Fin_eq. vm_compute. reflexivity.
    + apply Fin_eq. vm_compute. reflexivity.
Qed.

Lemma metrics_never_divide_by_zero_witness :
  same_shape ones_2x2x2 zeros_2x2x2
  /\ data ones_2x2x2 <> []
  /\ is_finite (calculate_pixel_accuracy ones_2x2x2 zeros_2x2x2) = true
  /\ calculate_pixel_accuracy ones_2x2x2 zeros_2x2x2 = xq 0.
Proof.
  assert (Hs : same_shape ones_2x2x2 zeros_2x2x2) by (split; reflexivity).
  assert (Hne : data ones_2x2x2 <> []) by (vm_compute; discriminate).
  split; [exact Hs|]. split; [exact Hne|].
  pose proof (metrics_never_divide_by_zero ones_2x2x2 zeros_2x2x2 Hs Hne) as [Hf Hv].
  split; [apply Hf|]. apply (Hv eq_refl eq_refl).
Defined.

(** C7 as stated fails: for A all ones and B all zeros no voxel agrees, so
    the pixel accuracy is 0 and not 0.5. *)
Lemma pixel_accuracy_scenario_is_not_half :
  calculate_pixel_accuracy ones_2x2x2 zeros_2x2x2 = xq 0
  /\ calculate_pixel_accuracy ones_2x2x2 zeros_2x2x2 <> xq (1 # 2).
Proof.
  assert (H : calculate_pixel_accuracy ones_2x2x2 zeros_2x2x2 = xq 0)
    by (apply Fin_eq; vm_compute; reflexivity).
  split; [exact H|]. rewrite H. intros Heq. inversion Heq.
Qed.

(** ** The slice summarizer *)

Lemma range_from_visits (fuel : nat) (i stop step : Z) :
  (0 < step)%Z -> (stop - i <= Z.of_nat fuel)%Z ->
  range_from fuel i stop step
  = map (fun k => i + k * step)%Z (seqZ 0 ((stop - i + step - 1) / step)).
Proof.
  intros Hstep. revert i. induction fuel as [|fuel IH]; intros i Hfuel.
  - simpl. rewrite seqZ_nil; [reflexivity|].
    apply Z.lt_succ_r. apply Z.div_lt_upper_bound; lia.
  - simpl. destruct (Z.ltb_spec i stop) as [Hlt|Hge].
    + assert (Hn : (0 < (stop - i + step - 1) / step)%Z).
      { apply Z.div_str_pos. lia. }
      rewrite (seqZ_cons 0 ((stop - i + step - 1) / step)) by exact Hn.
      rewrite IH by lia. cbn [map]. f_equal; [lia|].
      replace (stop - (i + step) + step - 1)%Z with ((stop - i + step - 1) + (-1) * step)%Z by lia.
      rewrite Z.div_add by lia.
      replace (Z.succ 0) with (1 + 0)%Z by lia.
      rewrite <- fmap_add_seqZ.
      replace ((stop - i + step - 1) / step + -1)%Z with (Z.pred ((stop - i + step - 1) / step)) by lia.
      change (Z.add 1 <$> ?l) with (map (Z.add 1) l).
      rewrite map_map. apply map_ext. intros k. lia.
    + rewrite seqZ_nil; [reflexivity|].
      apply Z.lt_succ_r. apply Z.div_lt_upper_bound; lia.
Qed.

Lemma py_range_visits (depth step : Z) :
  (0 < step)%Z -> (0 <= depth)%Z ->
  py_range 0 depth step = visited_indices depth step.
Proof.
  intros Hstep Hdepth. unfold py_range, visited_indices.
  rewrite range_from_visits by lia.
  rewrite Z.sub_0_r. apply map_ext. intros k. lia.
Qed.

Lemma visited_indices_below (depth step : Z) :
  (0 < step)%Z ->
  Forall (fun i => 0 <= i < depth)%Z (visited_indices depth step).
Proof.
  intros Hstep. unfold visited_indices. rewrite Forall_map.
  apply Forall_forall. intros k Hk.
  apply elem_of_seqZ in Hk. destruct Hk as [Hk0 Hk].
  split; [nia|].
  assert (k <= (depth + step - 1) / step - 1)%Z as Hk' by lia.
  assert (step * ((depth + step - 1) / step) <= depth + step - 1)%Z
    by (apply Z.mul_div_le; lia).
  nia.
Qed.

Lemma visited_indices_sorted (depth step : Z) :
  (0 < step)%Z -> StronglySorted Z.lt (visited_indices depth step).
Proof.
  intros Hstep. unfold visited_indices.
  generalize ((depth + step - 1) / step)%Z as n. intros n.
  generalize 0%Z as m. 
  induction n as [|n ? IH|] using (Z.succ_pred_induction 0); intros m.
  - rewrite seqZ_nil by lia. constructor.
  - rewrite seqZ_cons by lia. cbn [map]. rewrite Z.pred_succ. constructor; [apply IH|].
    rewrite Forall_map. apply Forall_forall. intros k Hk.
    apply elem_of_seqZ in Hk. nia.
  - rewrite seqZ_nil by lia. constructor.
Qed.

Section ContourLoop.
Context {F : Type} {ops : FloatOps F}.

Lemma contour_loop_flat_map (mask : ndarray F) (depth : Z) (indices : list Z)
    (acc : list slice_record) :
  Forall (fun i => 0 <= i < depth)%Z indices ->
  contour_loop mask depth indices acc = acc ++ flat_map (loop_emits mask) indices.
Proof.
  intros Hall. revert acc.
  induction Hall as [|i rest Hi _ IH]; intros acc; cbn [contour_loop flat_map].
  - rewrite app_nil_r. reflexivity.
  - destruct (Z.leb_spec depth i) as [Hge|_]; [lia|].
    unfold loop_emits at 1. cbv zeta.
    destruct (feqb (np_sum (data (get_slice mask i))) (of_Z 0)).
    + rewrite IH. reflexivity.
    + rewrite IH, <- app_assoc. reflexivity.
Qed.
End ContourLoop.

Lemma xfeqb_of_Z (a b : Z) : feqb (of_Z a : xfloat) (of_Z b) = (a =? b)%Z.
Proof.
  simpl. destruct (Z.eqb_spec a b) as [->|Hne].
  - apply bool_decide_eq_true. reflexivity.
  - apply bool_decide_eq_false. intros H. apply Z2Qc_inj in H. contradiction.
Qed.

Lemma xtrunc_of_Z (c : Z) : ftrunc (of_Z c : xfloat) = c.
Proof. simpl. apply Z.quot_1_r. Qed.

Lemma binary_as_bits (l : list xfloat) :
  Forall (fun x => x = of_Z 0 \/ x = of_Z 1) l ->
  l = map bit (map (fun x => fltb (of_Z 0) x) l).
Proof.
  induction 1 as [|x l Hx _ IH]; [reflexivity|].
  cbn [map]. rewrite <- IH. f_equal.
  destruct Hx as [-> | ->]; reflexivity.
Qed.

Lemma xnp_any_bits (bs : list bool) :
  np_any (map bit bs : list xfloat) = negb (count_true bs =? 0)%Z.
Proof.
  induction bs as [|b bs IH]; [reflexivity|].
  cbn [map np_any existsb]. fold (np_any (map bit bs : list xfloat)).
  rewrite IH, count_true_cons.
  pose proof (count_true_bounds bs) as Hb.
  destruct b.
  - rewrite xbit_of_Z, xfeqb_of_Z. simpl. symmetry.
    apply negb_true_iff, Z.eqb_neq. lia.
  - rewrite xbit_of_Z, xfeqb_of_Z. reflexivity.
Qed.

Lemma get_slice_binary (mask : ndarray xfloat) (i : Z) :
  is_binary mask -> is_binary (get_slice mask i).
Proof.
  unfold is_binary, get_slice. simpl. intros H.
  apply Forall_take, Forall_drop, H.
Qed.

Lemma loop_emits_binary (mask : ndarray xfloat) (i : Z) :
  is_binary mask ->
  loop_emits mask i
  = let area := foreground_count (get_slice mask i) in
    if (area =? 0)%Z then [] else [SliceRecord i true area].
Proof.
  intros Hbin. unfold loop_emits, foreground_count. cbv zeta.
  pose proof (binary_as_bits _ (get_slice_binary mask i Hbin)) as Hbits.
  set (bs := map (fun x => fltb (of_Z 0) x) (data (get_slice mask i))) in *.
  clearbody bs. rewrite Hbits.
  rewrite xnp_sum_bits, xnp_any_bits, xfeqb_of_Z, xtrunc_of_Z.
  destruct (Z.eqb_spec (count_true bs) 0); reflexivity.
Qed.

Lemma summary_indices_sorted (f : Z -> list slice_record) (l : list Z) :
  (forall i r, r ∈ f i -> slice_index r = i) ->
  (forall i, length (f i) <= 1)%nat ->
  StronglySorted Z.lt l ->
  StronglySorted Z.lt (map slice_index (flat_map f l)).
Proof.
  intros Hidx Hlen Hs. induction Hs as [|i l Hs IH Hall]; simpl; [constructor|].
  rewrite map_app.
  assert (Htail : Forall (Z.lt i) (map slice_index (flat_map f l))).
  { rewrite Forall_map. apply Forall_forall. intros r Hr.
    apply (proj1 (list_elem_of_In _ _)), in_flat_map in Hr.
    destruct Hr as [j [Hj Hrj]].
    apply (proj2 (list_elem_of_In _ _)) in Hj, Hrj.
    rewrite (Hidx j r Hrj). rewrite Forall_forall in Hall. apply Hall, Hj. }
  specialize (Hlen i). pose proof (Hidx i) as Hi.
  destruct (f i) as [|r [|r' rest]]; simpl in *; [exact IH| |lia].
  rewrite (Hi r) by (apply list_elem_of_singleton; reflexivity).
  constructor; [exact IH|exact Htail].
Qed.

(** C8: on a binary 3-D mask and a positive slice count (the depth when none
    is given), the summarizer walks the indices 0, stride, 2*stride, ... below
    the depth with stride max(1, depth // num_slices), in increasing order,
    emits nothing for a slice without foreground and exactly one record
    (index, has_liver = true, foreground voxel count) for every other one. *)
Theorem extract_contours_summary (mask : ndarray xfloat) (d h w : nat)
    (num_slices : option Z) :
  shape mask = [d; h; w] ->
  wf_array mask ->
  is_binary mask ->
  (0 < default (Z.of_nat d) num_slices)%Z ->
  extract_contours mask num_slices
  = Ok (Contours "json" (spec_summarize mask (default (Z.of_nat d) num_slices)))
  /\ StronglySorted Z.lt
       (map slice_index (spec_summarize mask (default (Z.of_nat d) num_slices))).
Proof.
  intros Hshape _ Hbin Hpos.
  set (n := default (Z.of_nat d) num_slices) in *.
  assert (Hstep : (0 < Z.max 1 (Z.of_nat d / n))%Z) by lia.
  split.
  - unfold extract_contours, spec_summarize. rewrite Hshape. cbn [hd]. fold n.
    destruct (Z.eqb_spec n 0) as [H0|_]; [lia|].
    rewrite py_range_visits by lia.
    rewrite contour_loop_flat_map by (apply visited_indices_below; exact Hstep).
    simpl app. do 2 f_equal.
    apply flat_map_ext. intros i. apply loop_emits_binary, Hbin.
  - unfold spec_summarize. rewrite Hshape. cbn [hd].
    apply summary_indices_sorted.
    + intros i r. cbv zeta.
      destruct (foreground_count (get_slice mask i) =? 0)%Z; intros Hr.
      * inversion Hr.
      * apply list_elem_of_singleton in Hr. subst r. reflexivity.
    + intros i. cbv zeta.
      destruct (foreground_count (get_slice mask i) =? 0)%Z; simpl; lia.
    + apply visited_indices_sorted, Hstep.
Qed.

Lemma extract_contours_summary_witness :
  extract_contours mask_3x1x2 None
  = Ok (Contours "json"
          [SliceRecord 0 true 2; SliceRecord 2 true 1]).
Proof.
  assert (Hb : is_binary mask_3x1x2).
  { unfold is_binary, mask_3x1x2, xq. simpl data.
    repeat (apply Forall_cons; split;
              [first [left; apply Fin_eq; reflexivity | right; apply Fin_eq; reflexivity]|]).
    apply Forall_nil. constructor. }
  assert (Hw : wf_array mask_3x1x2) by reflexivity.
  assert (Hp : (0 < default (Z.of_nat 3) (None : option Z))%Z) by (simpl; lia).
  destruct (extract_contours_summary mask_3x1x2 3 1 2 None eq_refl Hw Hb Hp) as [He _].
  rewrite He. vm_compute. reflexivity.
Defined.

(** ** The orchestrator *)

Section PipelineFacts.
Context {F : Type} {ops : FloatOps F}.

Lemma bind_ok {A B} (m : M (F:=F) A) (k : A -> M B) st r st' :
  bind m k st = (Ok r, st') ->
  exists a st1, m st = (Ok a, st1) /\ k a st1 = (Ok r, st').
Proof.
  unfold bind. destruct (m st) as [[a|e] st1]; intros H.
  - exists a, st1. split; [reflexivity|exact H].
  - discriminate H.
Qed.

Lemma lift_ok {A} (x : result A) (st : State (F:=F)) a st' :
  lift x st = (Ok a, st') -> x = Ok a /\ st' = st.
Proof. unfold lift. intros H. injection H as -> ->. split; reflexivity. Qed.

Lemma ret_ok {A} (x : A) (st : State (F:=F)) a st' :
  ret x st = (Ok a, st') -> a = x /\ st' = st.
Proof. unfold ret. intros H. injection H as -> ->. split; reflexivity. Qed.

Lemma segment_from_dicom_ok env self dicom_path ground_truth st r st' :
  segment_from_dicom env self dicom_path ground_truth st = (Ok r, st') ->
  exists volume metadata raw metrics contours result_id output_paths ti tt s0 sa sb,
    load_dicom (loader_env env) (preprocessor self) dicom_path = Ok (volume, metadata)
    /\ model_predict env volume = Ok raw
    /\ match ground_truth with
       | Some gt => calculate_all_metrics gt (postprocess_mask raw 1000) default_spacing
       | None => calculate_volume_metrics (postprocess_mask raw 1000) metadata
       end = Ok metrics
    /\ extract_contours (postprocess_mask raw 1000) None = Ok contours
    /\ generate_result_id env s0 = (Ok result_id, sa)
    /\ save_results self result_id (postprocess_mask raw 1000) contours metrics sa
       = (Ok output_paths, sb)
    /\ r = dicom_result result_id (postprocess_mask raw 1000) contours metrics ti tt
             output_paths metadata.
Proof.
  unfold segment_from_dicom. intros H.
  apply bind_ok in H as (t0 & s1 & _ & H).
  apply bind_ok in H as ([volume metadata] & s2 & Hload & H).
  apply lift_ok in Hload as [Hload ->].
  apply bind_ok in H as (t1 & s3 & _ & H).
  apply bind_ok in H as (raw & s4 & Hpred & H).
  apply lift_ok in Hpred as [Hpred ->].
  apply bind_ok in H as (t2 & s5 & _ & H).
  apply bind_ok in H as (metrics & s6 & Hmet & H).
  apply lift_ok in Hmet as [Hmet ->].
  apply bind_ok in H as (contours & s7 & Hcont & H).
  apply lift_ok in Hcont as [Hcont ->].
  apply bind_ok in H as (result_id & s8 & Hid & H).
  apply bind_ok in H as (output_paths & s9 & Hsave & H).
  apply bind_ok in H as (t3 & s10 & _ & H).
  apply ret_ok in H as [-> ->].
  exists volume, metadata, raw, metrics, contours, result_id, output_paths,
    (elapsed_ms t1 t2), (elapsed_ms t0 t3), s5, s8, s9.
  repeat split; assumption.
Qed.

Lemma segment_from_numpy_ok env self volume spacing st r st' :
  segment_from_numpy env self volume spacing st = (Ok r, st') ->
  exists raw metrics contours ti,
    model_predict env (normalize_hounsfield_units volume (lit 40) (lit 400)) = Ok raw
    /\ calculate_volume_metrics (postprocess_mask raw 1000) {["spacing" := spacing]}
       = Ok metrics
    /\ extract_contours (postprocess_mask raw 1000) None = Ok contours
    /\ r = numpy_result (postprocess_mask raw 1000) contours metrics ti.
Proof.
  unfold segment_from_numpy. intros H.
  apply bind_ok in H as (t0 & s1 & _ & H).
  apply bind_ok in H as (raw & s2 & Hpred & H).
  apply lift_ok in Hpred as [Hpred ->].
  apply bind_ok in H as (metrics & s3 & Hmet & H).
  apply lift_ok in Hmet as [Hmet ->].
  apply bind_ok in H as (contours & s4 & Hcont & H).
  apply lift_ok in Hcont as [Hcont ->].
  apply bind_ok in H as (t1 & s5 & _ & H).
  apply ret_ok in H as [-> ->].
  exists raw, metrics, contours, (elapsed_ms t0 t1).
  repeat split; assumption.
Qed.
End PipelineFacts.

Section MetricsDict.
Context {F : Type} {ops : FloatOps F}.

(** The dictionary [calculate_all_metrics] builds, entry by entry. *)
Lemma calculate_all_metrics_eq (gt pred : ndarray F) (spacing : list F) :
  let dice := fround 6 (calculate_dice gt pred) in
  let iou := fround 6 (calculate_iou gt pred) in
  calculate_all_metrics gt pred spacing
  = Ok (<["quality_grade" := PStr (spec_quality_grade dice)]>
       (<["meets_clinical_standards" :=
            PBool (fleb (lit (9 # 10)) dice && fleb (lit (9 # 10)) iou)]>
       (dict_update
          (<["pixel_accuracy" := PFloat (fround 6 (calculate_pixel_accuracy gt pred))]>
          (<["specificity" := PFloat (fround 6 (calculate_specificity gt pred))]>
          (<["sensitivity" := PFloat (fround 6 (calculate_sensitivity gt pred))]>
          (<["iou" := PFloat iou]>
          (<["dice" := PFloat dice]> ∅)))))
          (calculate_volume pred spacing)))).
Proof.
  intros dice iou. unfold calculate_all_metrics.
  fold dice. fold iou.
  set (metrics := dict_update _ _).
  assert (Hd : get_float metrics "dice" = Ok dice).
  { subst metrics. unfold calculate_volume, dict_update.
    generalize dice iou (fround 6 (calculate_sensitivity gt pred))
      (fround 6 (calculate_specificity gt pred))
      (fround 6 (calculate_pixel_accuracy gt pred)).
    intros. set (vc := count_true _). clearbody vc.
    set (v3 := fround 2 _). set (vl := fround 2 _). clearbody v3 vl.
    vm_compute. reflexivity. }
  assert (Hi : get_float metrics "iou" = Ok iou).
  { subst metrics. unfold calculate_volume, dict_update.
    generalize dice iou (fround 6 (calculate_sensitivity gt pred))
      (fround 6 (calculate_specificity gt pred))
      (fround 6 (calculate_pixel_accuracy gt pred)).
    intros. set (vc := count_true _). clearbody vc.
    set (v3 := fround 2 _). set (vl := fround 2 _). clearbody v3 vl.
    vm_compute. reflexivity. }
  rewrite Hd, Hi. cbn [rbind]. unfold spec_quality_grade. cbv beta.
  destruct (fleb (lit (9 # 10)) dice), (fleb (lit (8 # 10)) dice),
    (fleb (lit (7 # 10)) dice); reflexivity.
Qed.

(** C1: the grade and the clinical flag stored by [calculate_all_metrics]
    are functions of the dice and IoU values it reports: Excellent from
    0.90, Good from 0.80, Fair from 0.70, Poor below, and the flag is true
    exactly when both reported values reach 0.90. *)
Theorem all_metrics_grading (gt pred : ndarray F) (spacing : list F) :
  same_shape gt pred ->
  exists m dice iou,
    calculate_all_metrics gt pred spacing = Ok m
    /\ dice = fround 6 (calculate_dice gt pred)
    /\ iou = fround 6 (calculate_iou gt pred)
    /\ m !! "dice" = Some (PFloat dice)
    /\ m !! "iou" = Some (PFloat iou)
    /\ m !! "quality_grade"
       = Some (PStr (if fleb (lit (9 # 10)) dice then "Excellent"
                     else if fleb (lit (8 # 10)) dice then "Good"
                     else if fleb (lit (7 # 10)) dice then "Fair"
                     else "Poor"))
    /\ m !! "meets_clinical_standards"
       = Some (PBool (fleb (lit (9 # 10)) dice && fleb (lit (9 # 10)) iou)).
Proof.
  intros _. eexists _, _, _.
  split; [apply calculate_all_metrics_eq|].
  split; [reflexivity|]. split; [reflexivity|].
  unfold calculate_volume, dict_update, spec_quality_grade.
  generalize (fround 6 (calculate_dice gt pred)) (fround 6 (calculate_iou gt pred))
    (fround 6 (calculate_sensitivity gt pred))
    (fround 6 (calculate_specificity gt pred))
    (fround 6 (calculate_pixel_accuracy gt pred)).
  intros d i se sp pa. set (vc := count_true _). clearbody vc.
  set (v3 := fround 2 _). set (vl := fround 2 _). clearbody v3 vl.
  generalize (fleb (lit (9 # 10)) d && fleb (lit (9 # 10)) i) as flag.
  generalize (if fleb (lit (9 # 10)) d then "Excellent"
              else if fleb (lit (8 # 10)) d then "Good"
              else if fleb (lit (7 # 10)) d then "Fair" else "Poor") as grade.
  intros grade flag. repeat split; vm_compute; reflexivity.
Qed.

Lemma calculate_all_metrics_volume (gt pred : ndarray F) (spacing : list F) m :
  calculate_all_metrics gt pred spacing = Ok m ->
  m !! "voxel_count" = Some (PInt (foreground_count pred))
  /\ m !! "volume_mm3"
     = Some (PFloat (fround 2 (fmul (of_Z (foreground_count pred)) (np_prod spacing))))
  /\ m !! "volume_ml"
     = Some (PFloat (fround 2 (fdiv (fmul (of_Z (foreground_count pred)) (np_prod spacing))
                                    (lit 1000)))).
Proof.
  rewrite calculate_all_metrics_eq. cbv zeta. intros H. injection H as <-.
  unfold calculate_volume, dict_update, foreground_count.
  generalize (fround 6 (calculate_dice gt pred)) (fround 6 (calculate_iou gt pred))
    (fround 6 (calculate_sensitivity gt pred))
    (fround 6 (calculate_specificity gt pred))
    (fround 6 (calculate_pixel_accuracy gt pred)).
  intros d i se sp pa. set (vc := count_true _). clearbody vc.
  set (v3 := fround 2 _). set (vl := fround 2 _). clearbody v3 vl.
  generalize (fleb (lit (9 # 10)) d && fleb (lit (9 # 10)) i) as flag.
  generalize (spec_quality_grade d) as grade.
  intros grade flag. repeat split; vm_compute; reflexivity.
Qed.

Lemma calculate_volume_metrics_dom (mask : ndarray F) (metadata m : gmap string pyval) :
  calculate_volume_metrics mask metadata = Ok m ->
  dom m = volume_metrics_keys
  /\ m !! "spacing" = Some (default (PTuple default_spacing) (metadata !! "spacing")).
Proof.
  unfold calculate_volume_metrics.
  destruct (as_numbers _) as [numbers|e]; [|discriminate].
  cbn [rbind]. intros H. injection H as <-.
  split.
  - unfold volume_metrics_keys. rewrite !dom_insert_L, dom_empty_L. set_solver.
  - apply lookup_insert_eq.
Qed.
End MetricsDict.

Lemma all_metrics_grading_witness :
  same_shape ones_2x2x2 zeros_2x2x2
  /\ exists m dice,
       calculate_all_metrics ones_2x2x2 zeros_2x2x2 default_spacing = Ok m
       /\ m !! "dice" = Some (PFloat dice)
       /\ m !! "quality_grade"
          = Some (PStr (if fleb (lit (9 # 10)) dice then "Excellent"
                        else if fleb (lit (8 # 10)) dice then "Good"
                        else if fleb (lit (7 # 10)) dice then "Fair"
                        else "Poor")).
Proof.
  assert (Hs : same_shape ones_2x2x2 zeros_2x2x2) by (split; reflexivity).
  split; [exact Hs|].
  pose proof (all_metrics_grading ones_2x2x2 zeros_2x2x2 default_spacing Hs)
    as (m & dice & iou & Hm & _ & _ & Hd & _ & Hg & _).
  exists m, dice. split; [exact Hm|]. split; [exact Hd|exact Hg].
Defined.

(** The scenario masks do not overlap: the reported dice is 0 and the grade
    is Poor. *)
Lemma all_metrics_scenario_grade :
  match calculate_all_metrics ones_2x2x2 zeros_2x2x2 default_spacing with
  | Ok m => (m !! "quality_grade", m !! "meets_clinical_standards")
  | Raise _ => (None, None)
  end = (Some (PStr "Poor"), Some (PBool false)).
Proof. vm_compute. reflexivity. Qed.

(** On exact numbers the stored comparison is the comparison of the
    rationals, and the grade boundaries fall where the specification lists
    them. *)
Lemma xfleb_spec (q : Q) (d : Qc) : fleb (lit q) (Fin d) = true <-> (Q2Qc q ≤ d)%Qc.
Proof. simpl. apply bool_decide_eq_true. Qed.

Lemma grade_boundaries :
  spec_quality_grade (xq (9 # 10)) = "Excellent"
  /\ spec_quality_grade (xq (8999 # 10000)) = "Good"
  /\ spec_quality_grade (xq (8 # 10)) = "Good"
  /\ spec_quality_grade (xq (7999 # 10000)) = "Fair"
  /\ spec_quality_grade (xq (7 # 10)) = "Fair"
  /\ spec_quality_grade (xq (6999 # 10000)) = "Poor".
Proof. repeat split; vm_compute; reflexivity. Qed.

Section Orchestrator.
Context {F : Type} {ops : FloatOps F}.

Lemma dicom_result_dom id (mask : ndarray F) c m ti tt paths md :
  dom (dicom_result id mask c m ti tt paths md) = dicom_result_keys.
Proof.
  unfold dicom_result, dicom_result_keys.
  rewrite !dom_insert_L, dom_empty_L. set_solver.
Qed.

Lemma numpy_result_dom (mask : ndarray F) c m ti :
  dom (numpy_result mask c m ti) = numpy_result_keys.
Proof.
  unfold numpy_result, numpy_result_keys.
  rewrite !dom_insert_L, dom_empty_L. set_solver.
Qed.

(** C5, as the code has it: a [segment_from_dicom] call that returns gives
    the eight entries result_id, mask, contours, metrics,
    inference_time_ms, total_time_ms, output_paths and metadata; a
    [segment_from_numpy] call that returns gives four entries only: mask,
    contours, metrics and inference_time_ms. *)
Theorem segment_result_entries (env : PipelineEnv) (self : LiverSegmentationInference)
    (st : State (F:=F)) :
  (forall dicom_path ground_truth r st',
      segment_from_dicom env self dicom_path ground_truth st = (Ok r, st') ->
      dom r = dicom_result_keys
      /\ exists id mask c m ti tt paths md,
           r = dicom_result id mask c m ti tt paths md)
  /\ (forall volume spacing r st',
      segment_from_numpy env self volume spacing st = (Ok r, st') ->
      dom r = numpy_result_keys
      /\ exists mask c m ti, r = numpy_result mask c m ti).
Proof.
  split.
  - intros dicom_path ground_truth r st' H.
    apply segment_from_dicom_ok in H
      as (v & md & raw & m & c & id & paths & ti & tt & s0 & sa & sb & H).
    destruct H as (_ & _ & _ & _ & _ & _ & ->).
    split; [apply dicom_result_dom|]. eauto 10.
  - intros volume spacing r st' H.
    apply segment_from_numpy_ok in H as (raw & m & c & ti & _ & _ & _ & ->).
    split; [apply numpy_result_dom|]. eauto 10.
Qed.

(** C2, as the code has it: without a ground truth the metrics of both
    entry points have exactly four entries: volume_ml, volume_mm3,
    voxel_count and the spacing that was used; no overlap, classification
    or grading entry. *)
Theorem volume_only_metrics_entries (env : PipelineEnv)
    (self : LiverSegmentationInference) (st : State (F:=F)) :
  (forall dicom_path r st',
      segment_from_dicom env self dicom_path None st = (Ok r, st') ->
      exists m, r !! "metrics" = Some (RDict m) /\ dom m = volume_metrics_keys)
  /\ (forall volume spacing r st',
      segment_from_numpy env self volume spacing st = (Ok r, st') ->
      exists m, r !! "metrics" = Some (RDict m) /\ dom m = volume_metrics_keys
                /\ m !! "spacing" = Some spacing).
Proof.
  split.
  - intros dicom_path r st' H.
    apply segment_from_dicom_ok in H
      as (v & md & raw & m & c & id & paths & ti & tt & s0 & sa & sb & H).
    destruct H as (_ & _ & Hm & _ & _ & _ & ->).
    exists m. split; [reflexivity|].
    apply calculate_volume_metrics_dom in Hm. apply Hm.
  - intros volume spacing r st' H.
    apply segment_from_numpy_ok in H as (raw & m & c & ti & _ & Hm & _ & ->).
    exists m. split; [reflexivity|].
    apply calculate_volume_metrics_dom in Hm. destruct Hm as [Hdom Hsp].
    split; [exact Hdom|]. rewrite Hsp, lookup_singleton_eq. reflexivity.
Qed.

(** C3: with a ground truth, [segment_from_dicom] computes the metrics as
    [calculate_all_metrics(ground_truth, mask)] with the default spacing
    (1.0, 1.0, 1.0): the three volume entries are functions of the mask
    alone, whatever spacing the loaded metadata holds. *)
Theorem ground_truth_metrics_use_default_spacing (env : PipelineEnv)
    (self : LiverSegmentationInference) (dicom_path : path) (gt : ndarray F)
    (st st' : State (F:=F)) (r : gmap string resval) :
  segment_from_dicom env self dicom_path (Some gt) st = (Ok r, st') ->
  exists mask metrics metadata,
    r !! "mask" = Some (RArray mask)
    /\ r !! "metrics" = Some (RDict metrics)
    /\ r !! "metadata" = Some (RDict metadata)
    /\ calculate_all_metrics gt mask [lit 1; lit 1; lit 1] = Ok metrics
    /\ metrics !! "voxel_count" = Some (PInt (foreground_count mask))
    /\ metrics !! "volume_mm3"
       = Some (PFloat (fround 2 (of_Z (foreground_count mask)
                                 *! np_prod [lit 1; lit 1; lit 1])))
    /\ metrics !! "volume_ml"
       = Some (PFloat (fround 2 (of_Z (foreground_count mask)
                                 *! np_prod [lit 1; lit 1; lit 1] /! lit 1000))).
Proof.
  intros H.
  apply segment_from_dicom_ok in H
    as (v & md & raw & m & c & id & paths & ti & tt & s0 & sa & sb & H).
  destruct H as (_ & _ & Hm & _ & _ & _ & ->).
  exists (postprocess_mask raw 1000), m, md.
  split; [reflexivity|]. split; [reflexivity|]. split; [reflexivity|].
  split; [exact Hm|].
  apply calculate_all_metrics_volume in Hm. exact Hm.
Qed.
End Orchestrator.

(** ** Runs in the demo world *)

Lemma demo_dicom_run_returns (gt : option (ndarray xfloat)) :
  gt = None \/ gt = Some demo_ground_truth ->
  exists r st', demo_dicom_run gt = (Ok r, st').
Proof.
  intros Hgt.
  assert (Hok : is_ok (demo_dicom_run gt).1 = true)
    by (destruct Hgt as [-> | ->]; vm_compute; reflexivity).
  destruct (demo_dicom_run gt) as [[r|e] st']; [eauto|discriminate Hok].
Qed.

Lemma demo_numpy_run_returns : exists r st', demo_numpy_run = (Ok r, st').
Proof.
  assert (Hok : is_ok demo_numpy_run.1 = true) by (vm_compute; reflexivity).
  destruct demo_numpy_run as [[r|e] st']; [eauto|discriminate Hok].
Qed.

Lemma segment_result_entries_witness :
  (exists r st', demo_dicom_run None = (Ok r, st') /\ dom r = dicom_result_keys)
  /\ (exists r st', demo_numpy_run = (Ok r, st') /\ dom r = numpy_result_keys).
Proof.
  pose proof (segment_result_entries demo_env demo_pipeline demo_state) as [Hd Hn].
  split.
  - destruct (demo_dicom_run_returns None (or_introl eq_refl)) as (r & st' & E).
    exists r, st'. split; [exact E|].
    exact (proj1 (Hd ["scan.dcm"] None r st' E)).
  - destruct demo_numpy_run_returns as (r & st' & E).
    exists r, st'. split; [exact E|].
    exact (proj1 (Hn demo_volume (PTuple [xq 1; xq 1; xq 1]) r st' E)).
Defined.

(** C5 as stated fails: the dictionary [segment_from_numpy] returns has no
    result_id, total_time_ms, output_paths or metadata entry. *)
Lemma numpy_result_lacks_entries :
  exists r st',
    demo_numpy_run = (Ok r, st')
    /\ r !! "result_id" = None /\ r !! "total_time_ms" = None
    /\ r !! "output_paths" = None /\ r !! "metadata" = None.
Proof.
  destruct demo_numpy_run_returns as (r & st' & E).
  exists r, st'. split; [exact E|].
  unfold demo_numpy_run in E.
  apply segment_from_numpy_ok in E as (raw & m & c & ti & _ & _ & _ & ->).
  repeat split; reflexivity.
Qed.

Lemma volume_only_metrics_entries_witness :
  (exists r st' m, demo_dicom_run None = (Ok r, st')
     /\ r !! "metrics" = Some (RDict m) /\ dom m = volume_metrics_keys)
  /\ (exists r st' m, demo_numpy_run = (Ok r, st')
     /\ r !! "metrics" = Some (RDict m) /\ dom m = volume_metrics_keys).
Proof.
  pose proof (volume_only_metrics_entries demo_env demo_pipeline demo_state) as [Hd Hn].
  split.
  - destruct (demo_dicom_run_returns None (or_introl eq_refl)) as (r & st' & E).
    destruct (Hd ["scan.dcm"] r st' E) as (m & Hm & Hdom).
    exists r, st', m. repeat split; assumption.
  - destruct demo_numpy_run_returns as (r & st' & E).
    destruct (Hn demo_volume (PTuple [xq 1; xq 1; xq 1]) r st' E) as (m & Hm & Hdom & _).
    exists r, st', m. repeat split; assumption.
Defined.

(** C2 as stated fails: the volume-only metrics have a fourth entry,
    the spacing. *)
Lemma volume_only_metrics_have_four_entries :
  exists r st' m,
    demo_dicom_run None = (Ok r, st')
    /\ r !! "metrics" = Some (RDict m)
    /\ base.size m = 4%nat
    /\ m !! "spacing" = Some (PTuple [xq (5 # 2); xq (1 # 2); xq (1 # 2)]).
Proof.
  destruct (demo_dicom_run_returns None (or_introl eq_refl)) as (r & st' & E).
  assert (H0 : match (demo_dicom_run None).1 with
               | Ok r => match r !! "metrics" with
                         | Some (RDict m) => m !! "spacing"
                         | _ => None
                         end
               | Raise _ => None
               end = Some (PTuple [xq (5 # 2); xq (1 # 2); xq (1 # 2)]))
    by (vm_compute; reflexivity).
  rewrite E in H0. cbn [fst] in H0.
  pose proof E as Erun. unfold demo_dicom_run in E.
  apply segment_from_dicom_ok in E
    as (v & md & raw & m & c & id & paths & ti & tt & s0 & sa & sb & E).
  destruct E as (_ & _ & Hm & _ & _ & _ & ->).
  apply calculate_volume_metrics_dom in Hm as [Hdom _].
  exists (dicom_result id (postprocess_mask raw 1000) c m ti tt paths md), st', m.
  split; [exact Erun|]. split; [reflexivity|]. split.
  - rewrite <- size_dom, Hdom. vm_compute. reflexivity.
  - exact H0.
Qed.

Lemma ground_truth_metrics_use_default_spacing_witness :
  exists r st' mask metrics,
    demo_dicom_run (Some demo_ground_truth) = (Ok r, st')
    /\ r !! "mask" = Some (RArray mask)
    /\ r !! "metrics" = Some (RDict metrics)
    /\ calculate_all_metrics demo_ground_truth mask [lit 1; lit 1; lit 1] = Ok metrics
    /\ metrics !! "volume_mm3"
       = Some (PFloat (fround 2 (of_Z (foreground_count mask)
                                 *! np_prod [lit 1; lit 1; lit 1]))).
Proof.
  destruct (demo_dicom_run_returns (Some demo_ground_truth) (or_intror eq_refl))
    as (r & st' & E).
  pose proof (ground_truth_metrics_use_default_spacing demo_env demo_pipeline
                ["scan.dcm"] demo_ground_truth demo_state st' r) as Hthm.
  pose proof (Hthm E)
    as (mask & metrics & metadata & Hmask & Hm & Hmd & Hall & _ & Hv3 & _).
  exists r, st', mask, metrics.
  split; [exact E|]. split; [exact Hmask|]. split; [exact Hm|].
  split; [exact Hall|exact Hv3].
Defined.

(** The scan of the demo world has spacing 2.5 x 0.5 x 0.5 mm, and its
    two foreground voxels are reported as 2 mm3 all the same. *)
Lemma demo_ground_truth_volume :
  match (demo_dicom_run (Some demo_ground_truth)).1 with
  | Ok r =>
      match r !! "metrics", r !! "metadata" with
      | Some (RDict m), Some (RDict md) =>
          Some (md !! "spacing", m !! "voxel_count",
                match m !! "volume_mm3" with
                | Some (PFloat x) => Some (within 0 x (xq 2))
                | _ => None
                end)
      | _, _ => None
      end
  | Raise _ => None
  end
  = Some (Some (PTuple [xq (5 # 2); xq (1 # 2); xq (1 # 2)]), Some (PInt 2), Some true).
Proof. vm_compute. reflexivity. Qed.

(** ** Result identifiers *)

Lemma hex_rev_length (w : nat) (n : N) : length (hex_rev w n) = w.
Proof. revert n. induction w as [|w IH]; intros n; simpl; [reflexivity|]. rewrite IH. reflexivity. Qed.

Lemma hex_length (w : nat) (n : N) : length (hex w n) = w.
Proof. unfold hex. rewrite length_rev. apply hex_rev_length. Qed.

Lemma hex_digit_is_hex (d : N) : (d < 16)%N -> is_hex_char (hex_digit d) = true.
Proof.
  intros Hd. unfold hex_digit.
  assert (Hk : (N.to_nat d < 16)%nat) by lia.
  revert Hk. generalize (N.to_nat d) as k. intros k Hk.
  do 16 (destruct k as [|k]; [reflexivity|]). lia.
Qed.

Lemma hex_rev_is_hex (w : nat) (n : N) : Forall (fun c => is_hex_char c = true) (hex_rev w n).
Proof.
  revert n. induction w as [|w IH]; intros n; simpl; constructor.
  - apply hex_digit_is_hex. apply N.mod_lt. discriminate.
  - apply IH.
Qed.

Lemma hex_is_hex (w : nat) (n : N) : Forall (fun c => is_hex_char c = true) (hex w n).
Proof. unfold hex. apply Forall_rev, hex_rev_is_hex. Qed.

Lemma hex_rev_app (b a : nat) (n : N) :
  hex_rev (b + a) n = hex_rev b n ++ hex_rev a (n / 16 ^ N.of_nat b)%N.
Proof.
  revert n. induction b as [|b IH]; intros n.
  - simpl. rewrite N.div_1_r. reflexivity.
  - cbn [Nat.add hex_rev app]. rewrite IH. do 2 f_equal.
    rewrite Nat2N.inj_succ, N.pow_succ_r', N.Div0.div_div.
    reflexivity.
Qed.

Lemma hex_take (a b : nat) (n : N) :
  take a (hex (b + a) n) = hex a (n / 16 ^ N.of_nat b)%N.
Proof.
  unfold hex. rewrite hex_rev_app, rev_app_distr.
  rewrite take_app_length'; [reflexivity|].
  rewrite length_rev. symmetry. apply hex_rev_length.
Qed.

Lemma hex_digit_inj (x y : N) :
  (x < 16)%N -> (y < 16)%N -> hex_digit x = hex_digit y -> x = y.
Proof.
  intros Hx Hy. unfold hex_digit.
  assert (Hkx : (N.to_nat x < 16)%nat) by lia.
  assert (Hky : (N.to_nat y < 16)%nat) by lia.
  intros H. apply N2Nat.inj.
  revert Hkx Hky H. generalize (N.to_nat x) as i, (N.to_nat y) as j. intros i j Hi Hj.
  do 16 (destruct i as [|i]; [do 16 (destruct j as [|j]; [first [reflexivity|discriminate]|]); lia|]).
  lia.
Qed.

Lemma hex_rev_inj (w : nat) (x y : N) :
  hex_rev w x = hex_rev w y -> (x mod 16 ^ N.of_nat w = y mod 16 ^ N.of_nat w)%N.
Proof.
  revert x y. induction w as [|w IH]; intros x y H.
  - simpl. rewrite !N.mod_1_r. reflexivity.
  - simpl in H. injection H as Hd Hrest.
    apply hex_digit_inj in Hd; try (apply N.mod_lt; discriminate).
    apply IH in Hrest.
    rewrite Nat2N.inj_succ, N.pow_succ_r'.
    rewrite !N.Div0.mod_mul_r, Hd, Hrest. reflexivity.
Qed.

Lemma hex_inj (w : nat) (x y : N) :
  hex w x = hex w y <-> (x mod 16 ^ N.of_nat w = y mod 16 ^ N.of_nat w)%N.
Proof.
  split.
  - unfold hex. intros H. apply hex_rev_inj.
    apply (f_equal (@rev ascii)) in H. rewrite !rev_involutive in H. exact H.
  - revert x y. unfold hex. induction w as [|w IH]; intros x y H; [reflexivity|].
    rewrite Nat2N.inj_succ, N.pow_succ_r' in H.
    rewrite !N.Div0.mod_mul_r in H.
    assert (Hlo : (x mod 16 = y mod 16)%N).
    { apply (f_equal (fun v => v mod 16)%N) in H.
      rewrite !(N.mul_comm 16), !N.Div0.mod_add, !N.Div0.mod_mod in H. exact H. }
    assert (Hhi : ((x / 16) mod 16 ^ N.of_nat w = (y / 16) mod 16 ^ N.of_nat w)%N).
    { rewrite Hlo in H. apply N.add_cancel_l in H. apply N.mul_cancel_l in H; [exact H|discriminate]. }
    simpl. rewrite Hlo. f_equal. specialize (IH _ _ Hhi).
    apply (f_equal (@rev ascii)) in IH. rewrite !rev_involutive in IH. rewrite IH. reflexivity.
Qed.

Lemma string_append_assoc (a b c : string) : (a +:+ b) +:+ c = a +:+ (b +:+ c).
Proof.
  induction a as [|ch a IH]; [reflexivity|].
  change (String ch ((a +:+ b) +:+ c) = String ch (a +:+ (b +:+ c))).
  f_equal. exact IH.
Qed.

Lemma path_str_ends_with (p : path) (name : string) :
  ends_with (path_str (path_join p name)) name.
Proof.
  unfold path_str, path_join, ends_with.
  induction p as [|a p IH].
  - exists EmptyString. reflexivity.
  - destruct IH as [pre Hpre].
    exists (a +:+ "/" +:+ pre).
    change ((a :: p) ++ [name]) with (a :: (p ++ [name])).
    destruct (p ++ [name]) as [|b rest] eqn:E.
    + destruct p; discriminate E.
    + cbn [String.concat] in *. rewrite Hpre.
      rewrite !string_append_assoc. reflexivity.
Qed.

Lemma path_parent_join (p : path) (name : string) : path_parent (path_join p name) = p.
Proof.
  unfold path_parent, path_join. rewrite length_app. simpl.
  replace (length p + 1 - 1)%nat with (length p) by lia.
  apply take_app_length.
Qed.

Lemma path_join_inj (p q : path) (a b : string) :
  path_join p a = path_join q b -> p = q /\ a = b.
Proof. unfold path_join. intros H. apply app_inj_tail in H. exact H. Qed.

(** Names without a separator are one component to pathlib. *)
Lemma split_slash_plain (s : string) :
  forallb name_char (list_ascii_of_string s) = true ->
  split_slash s = [s].
Proof.
  induction s as [|c s IH]; [reflexivity|].
  cbn [list_ascii_of_string forallb split_slash]. intros H.
  apply andb_true_iff in H as [Hc Hs]. unfold name_char in Hc.
  destruct (Ascii.eqb c "/"); [discriminate Hc|].
  rewrite (IH Hs). reflexivity.
Qed.

Lemma leading_slashes_plain (s : string) :
  forallb name_char (list_ascii_of_string s) = true ->
  leading_slashes s = O.
Proof.
  destruct s as [|c s]; [reflexivity|].
  cbn [list_ascii_of_string forallb leading_slashes]. intros H.
  apply andb_true_iff in H as [Hc _]. unfold name_char in Hc.
  destruct (Ascii.eqb c "/"); [discriminate Hc|reflexivity].
Qed.

Lemma path_div_plain (p : path) (s : string) :
  plain_name s = true -> path_div p s = path_join p s.
Proof.
  unfold plain_name. intros H.
  apply andb_true_iff in H as [H Hslash].
  apply andb_true_iff in H as [H _].
  apply andb_true_iff in H as [H _].
  apply andb_true_iff in H as [He Hd].
  unfold path_div, pathlib_parts, path_join.
  rewrite (leading_slashes_plain s Hslash), (split_slash_plain s Hslash).
  cbn [List.filter].
  destruct (String.eqb s EmptyString); [discriminate He|].
  destruct (String.eqb s "."); [discriminate Hd|].
  reflexivity.
Qed.

Lemma hex_char_name_char (c : ascii) : is_hex_char c = true -> name_char c = true.
Proof.
  unfold name_char.
  destruct (Ascii.eqb_spec c "/") as [->|_]; [vm_compute; discriminate|].
  destruct (Ascii.eqb_spec c "000") as [->|_]; [vm_compute; discriminate|reflexivity].
Qed.

Lemma length_string_of_list_ascii (l : list ascii) :
  String.length (string_of_list_ascii l) = length l.
Proof. induction l as [|c l IH]; [reflexivity|]. cbn. rewrite IH. reflexivity. Qed.

(** Every generated id is such a name. *)
Lemma generated_id_plain (digits : list ascii) :
  length digits = 12%nat ->
  Forall (fun c => is_hex_char c = true) digits ->
  plain_name ("seg_" +:+ string_of_list_ascii digits) = true.
Proof.
  intros Hlen Hhex. unfold plain_name.
  change ("seg_" +:+ string_of_list_ascii digits)
    with (String "s" (String "e" (String "g" (String "_" (string_of_list_ascii digits))))).
  cbn [String.eqb Ascii.eqb Bool.eqb negb andb list_ascii_of_string forallb String.length].
  rewrite length_string_of_list_ascii, Hlen, list_ascii_of_string_of_list_ascii.
  change (name_char "s" && (name_char "e" && (name_char "g" && (name_char "_"
            && forallb name_char digits)))) with (forallb name_char digits).
  cbn [Nat.leb andb].
  clear Hlen. induction Hhex as [|c l Hc _ IH]; [reflexivity|].
  cbn [forallb]. rewrite (hex_char_name_char c Hc). exact IH.
Qed.






Lemma path_join_ne_self (p : path) (name : string) : path_join p name <> p.
Proof.
  unfold path_join. intros H. apply (f_equal (@length string)) in H.
  rewrite length_app in H. simpl in H. lia.
Qed.

Lemma path_join_ne_nil (p : path) (name : string) : path_join p name <> [].
Proof. unfold path_join. destruct p; discriminate. Qed.

Section ResultStore.
Context {F : Type} {ops : FloatOps F}.

Lemma generate_result_id_eq (env : PipelineEnv (F:=F)) (st : State) :
  (generate_result_id env st).1
  = Ok ("seg_" +:+ string_of_list_ascii (hex 12 (uuid4 env (uuid_draws st) / 16 ^ 20)%N)).
Proof.
  unfold generate_result_id. cbn [fst].
  change 32%nat with (20 + 12)%nat. rewrite hex_take. reflexivity.
Qed.

Lemma result_dir_plain (self : LiverSegmentationInference (F:=F)) (id : string) :
  plain_name id = true -> result_dir self id = path_join (output_dir self) id.
Proof. apply path_div_plain. Qed.

(** The directories a state knows decide [dir_exists]. *)
Lemma dir_exists_dirs (st st' : State (F:=F)) (p : path) :
  dirs st' = dirs st -> dir_exists st' p = dir_exists st p.
Proof. unfold dir_exists. intros ->. reflexivity. Qed.

Lemma dir_exists_added (st : State (F:=F)) (t u : nat)
    (fs : gmap path (file_content (F:=F))) (d p : path) :
  dir_exists (MkState t u ({[d]} ∪ dirs st) fs) p = bool_decide (p = d) || dir_exists st p.
Proof.
  unfold dir_exists. cbn [dirs].
  rewrite (bool_decide_ext (p ∈ {[d]} ∪ dirs st) (p = d \/ p ∈ dirs st))
    by (rewrite elem_of_union, elem_of_singleton; reflexivity).
  rewrite bool_decide_or.
  destruct (bool_decide (p = [])), (bool_decide (p = d)), (bool_decide (p ∈ dirs st));
    reflexivity.
Qed.

(** [save_results], written out step by step. *)
Lemma save_results_run (self : LiverSegmentationInference (F:=F)) (id : string)
    (mask : ndarray F) (c : contours) (m : gmap string pyval) (st : State) :
  save_results self id mask c m st
  = match mkdir_exist_ok (result_dir self id) st with
    | (Raise e, s) => (Raise e, s)
    | (Ok _, s1) =>
        match write_file (result_file self id "mask.npy") (NpyFile mask) s1 with
        | (Raise e, s) => (Raise e, s)
        | (Ok _, s2) =>
            match write_file (result_file self id "contours.json") (JsonContours c) s2 with
            | (Raise e, s) => (Raise e, s)
            | (Ok _, s3) =>
                match write_file (result_file self id "metrics.json") (JsonDict m) s3 with
                | (Raise e, s) => (Raise e, s)
                | (Ok _, s4) =>
                    (Ok (<["metrics_json" := path_str (result_file self id "metrics.json")]>
                        (<["contours_json" := path_str (result_file self id "contours.json")]>
                        (<["mask_npy" := path_str (result_file self id "mask.npy")]> ∅))),
                     s4)
                end
            end
        end
    end.
Proof.
  unfold save_results, result_file, result_dir, bind, ret.
  destruct (mkdir_exist_ok _ st) as [[[]|e] s1]; [|reflexivity].
  destruct (write_file _ _ s1) as [[[]|e] s2]; [|reflexivity].
  destruct (write_file _ _ s2) as [[[]|e] s3]; [|reflexivity].
  destruct (write_file _ _ s3) as [[[]|e] s4]; reflexivity.
Qed.

(** A step either fails and leaves the state alone, or succeeds. *)
Lemma mkdir_exist_ok_cases (p : path) (st : State (F:=F)) :
  (exists e, mkdir_exist_ok p st = (Raise e, st)
             /\ (dir_exists st (path_parent p) = false
                 \/ (dir_exists st p = false /\ is_regular_file st p = true)))
  \/ (mkdir_exist_ok p st = (Ok tt, st)
      /\ dir_exists st (path_parent p) = true /\ dir_exists st p = true)
  \/ (mkdir_exist_ok p st
      = (Ok tt, MkState (ticks st) (uuid_draws st) ({[p]} ∪ dirs st) (files st))
      /\ dir_exists st (path_parent p) = true /\ dir_exists st p = false
      /\ is_regular_file st p = false).
Proof.
  unfold mkdir_exist_ok.
  destruct (dir_exists st (path_parent p)); cbn [negb]; [|left; eauto].
  destruct (dir_exists st p); [right; left; auto|].
  destruct (is_regular_file st p); [left; eauto|right; right; auto].
Qed.

Lemma write_file_cases (p : path) (c : file_content) (st : State (F:=F)) :
  (exists e, write_file p c st = (Raise e, st)
             /\ (dir_exists st (path_parent p) = false \/ dir_exists st p = true))
  \/ (write_file p c st
      = (Ok tt, MkState (ticks st) (uuid_draws st) (dirs st) (<[p := c]> (files st)))
      /\ dir_exists st (path_parent p) = true /\ dir_exists st p = false).
Proof.
  unfold write_file.
  destruct (dir_exists st (path_parent p)); cbn [negb]; [|left; eauto].
  destruct (dir_exists st p); [left; eauto|right; auto].
Qed.

Lemma store_free_spec (st : State (F:=F)) (self : LiverSegmentationInference (F:=F))
    (id : string) :
  store_free st self id = true
  <-> (dir_exists st (result_dir self id) = true
       \/ is_regular_file st (result_dir self id) = false)
      /\ dir_exists st (result_file self id "mask.npy") = false
      /\ dir_exists st (result_file self id "contours.json") = false
      /\ dir_exists st (result_file self id "metrics.json") = false.
Proof.
  unfold store_free. rewrite !andb_true_iff, orb_true_iff, !negb_true_iff. tauto.
Qed.


Lemma write_file_ok (p : path) (c : file_content) (st : State (F:=F)) :
  dir_exists st (path_parent p) = true -> dir_exists st p = false ->
  write_file p c st
  = (Ok tt, MkState (ticks st) (uuid_draws st) (dirs st) (<[p := c]> (files st))).
Proof. intros Hp Hd. unfold write_file. rewrite Hp, Hd. reflexivity. Qed.

Ltac write_step :=
  match goal with
  | |- context [write_file ?p ?x ?s] =>
      destruct (write_file_cases p x s) as [(? & -> & _)|(-> & _)]
  end;
  cbn [ticks uuid_draws dirs files].

Ltac store_failed :=
  let H := fresh in
  intros H; injection H as _ <-; cbn [ticks uuid_draws dirs files];
  repeat split; auto 6.

(** A store that returns has produced the state [stored]. *)
Lemma save_results_ok_inv (self : LiverSegmentationInference (F:=F)) (id : string)
    (mask : ndarray F) (c : contours) (m : gmap string pyval) (st st' : State)
    (paths : gmap string string) :
  save_results self id mask c m st = (Ok paths, st') ->
  paths = <["metrics_json" := path_str (result_file self id "metrics.json")]>
          (<["contours_json" := path_str (result_file self id "contours.json")]>
          (<["mask_npy" := path_str (result_file self id "mask.npy")]> ∅))
  /\ st' = stored self id mask c m st.
Proof.
  rewrite save_results_run. unfold stored.
  destruct (mkdir_exist_ok_cases (result_dir self id) st)
    as [(e & -> & _)|[(-> & _ & Hd)|(-> & _ & Hd & _)]]; [discriminate| |];
    rewrite Hd;
    (write_step; [discriminate|]); (write_step; [discriminate|]);
    (write_step; [discriminate|]);
    intros H; injection H as <- <-; split; reflexivity.
Qed.

(** A store that raises has no roll-back: it leaves behind the result
    directory, if it made it, and the files written before the one
    that failed. *)
Lemma save_results_raise_inv (self : LiverSegmentationInference (F:=F)) (id : string)
    (mask : ndarray F) (c : contours) (m : gmap string pyval) (st st' : State) (e : exn) :
  save_results self id mask c m st = (Raise e, st') ->
  ticks st' = ticks st /\ uuid_draws st' = uuid_draws st
  /\ (dirs st' = dirs st \/ dirs st' = {[result_dir self id]} ∪ dirs st)
  /\ (files st' = files st
      \/ files st' = <[result_file self id "mask.npy" := NpyFile mask]> (files st)
      \/ files st' = <[result_file self id "contours.json" := JsonContours c]>
                     (<[result_file self id "mask.npy" := NpyFile mask]> (files st))).
Proof.
  rewrite save_results_run.
  destruct (mkdir_exist_ok_cases (result_dir self id) st)
    as [(e0 & -> & _)|[(-> & _)|(-> & _)]]; [store_failed| |];
    (write_step; [store_failed|]); (write_step; [store_failed|]);
    (write_step; [store_failed|]); discriminate.
Qed.

(** With the parent of the result directory in place and nothing in the
    way, the store goes through. *)
Lemma save_results_eq (self : LiverSegmentationInference (F:=F)) (id : string)
    (mask : ndarray F) (c : contours) (m : gmap string pyval) (st : State) :
  dir_exists st (path_parent (result_dir self id)) = true ->
  store_free st self id = true ->
  save_results self id mask c m st
  = (Ok (<["metrics_json" := path_str (result_file self id "metrics.json")]>
        (<["contours_json" := path_str (result_file self id "contours.json")]>
        (<["mask_npy" := path_str (result_file self id "mask.npy")]> ∅))),
     stored self id mask c m st).
Proof.
  intros Hpar Hfree. apply store_free_spec in Hfree as (Hrd & Hm & Hc & Hj).
  rewrite save_results_run. unfold stored.
  destruct (mkdir_exist_ok_cases (result_dir self id) st)
    as [(e & _ & [Hp|[Hd Hf]])|[(-> & _ & Hd)|(-> & _ & Hd & Hf)]].
  - congruence.
  - destruct Hrd; congruence.
  - rewrite Hd.
    rewrite write_file_ok;
      [|unfold result_file; rewrite path_parent_join; exact Hd|exact Hm].
    rewrite write_file_ok;
      [|unfold result_file; rewrite path_parent_join;
        rewrite (dir_exists_dirs st) by reflexivity; exact Hd
       |rewrite (dir_exists_dirs st) by reflexivity; exact Hc].
    rewrite write_file_ok;
      [|unfold result_file; rewrite path_parent_join;
        rewrite (dir_exists_dirs st) by reflexivity; exact Hd
       |rewrite (dir_exists_dirs st) by reflexivity; exact Hj].
    reflexivity.
  - rewrite Hd.
    assert (Hkeep : forall name (t u : nat) (fs : gmap path (file_content (F:=F))),
               dir_exists st (result_file self id name) = false ->
               dir_exists (MkState t u ({[result_dir self id]} ∪ dirs st) fs)
                 (result_file self id name) = false).
    { intros name t u fs Hno. rewrite dir_exists_added, Hno.
      rewrite bool_decide_eq_false_2; [reflexivity|]. apply path_join_ne_self. }
    assert (Hdir : forall name (t u : nat) (fs : gmap path (file_content (F:=F))),
               dir_exists (MkState t u ({[result_dir self id]} ∪ dirs st) fs)
                 (path_parent (result_file self id name)) = true).
    { intros. unfold result_file. rewrite path_parent_join, dir_exists_added.
      rewrite bool_decide_eq_true_2 by reflexivity. reflexivity. }
    rewrite write_file_ok; [|apply Hdir|apply Hkeep, Hm].
    cbn [ticks uuid_draws dirs files].
    rewrite write_file_ok; [|apply Hdir|apply Hkeep, Hc].
    cbn [ticks uuid_draws dirs files].
    rewrite write_file_ok; [|apply Hdir|apply Hkeep, Hj].
    reflexivity.
Qed.
End ResultStore.

Lemma ok_seg_inj (a b : string) :
  Ok ("seg_" +:+ a) = Ok ("seg_" +:+ b) -> a = b.
Proof. intros H. injection H as H. exact H. Qed.

Lemma path_prefixes_self (p : path) : p <> [] -> p ∈ path_prefixes p.
Proof.
  intros Hne. unfold path_prefixes.
  apply list_elem_of_fmap. exists (length p). split.
  - symmetry. apply firstn_all.
  - apply elem_of_seq. destruct p; [congruence|simpl; lia].
Qed.

Section ResultStoreContract.
Context {F : Type} {ops : FloatOps F}.

Lemma result_file_other_id (self : LiverSegmentationInference (F:=F))
    (id id' name name' : string) :
  plain_name id = true -> plain_name id' = true ->
  id' <> id -> result_file self id' name' <> result_file self id name.
Proof.
  unfold result_file. intros Hp Hp' Hne H.
  rewrite !result_dir_plain in H by assumption.
  apply path_join_inj in H as [H _]. apply path_join_inj in H as [_ H].
  contradiction.
Qed.

Lemma result_files_distinct (self : LiverSegmentationInference (F:=F)) (id : string) :
  result_file self id "mask.npy" <> result_file self id "contours.json"
  /\ result_file self id "mask.npy" <> result_file self id "metrics.json"
  /\ result_file self id "contours.json" <> result_file self id "metrics.json".
Proof.
  unfold result_file.
  repeat split; intros H; apply path_join_inj in H as [_ H]; discriminate H.
Qed.

Lemma stored_files (self : LiverSegmentationInference (F:=F)) (id : string)
    (mask : ndarray F) (c : contours) (m : gmap string pyval) (st : State) :
  files (stored self id mask c m st) !! result_file self id "mask.npy" = Some (NpyFile mask)
  /\ files (stored self id mask c m st) !! result_file self id "contours.json"
     = Some (JsonContours c)
  /\ files (stored self id mask c m st) !! result_file self id "metrics.json"
     = Some (JsonDict m).
Proof.
  destruct (result_files_distinct self id) as (Hmc & Hmm & Hcm).
  unfold stored. cbn [files]. split; [|split].
  - rewrite lookup_insert_ne by congruence. rewrite lookup_insert_ne by congruence.
    apply lookup_insert_eq.
  - rewrite lookup_insert_ne by congruence. apply lookup_insert_eq.
  - apply lookup_insert_eq.
Qed.

Lemma stored_dirs (self : LiverSegmentationInference (F:=F)) (id : string)
    (mask : ndarray F) (c : contours) (m : gmap string pyval) (st : State) (p : path) :
  dir_exists (stored self id mask c m st) p
  = bool_decide (p = result_dir self id) || dir_exists st p.
Proof.
  unfold stored. destruct (dir_exists st (result_dir self id)) eqn:Hd.
  - rewrite (dir_exists_dirs st) by reflexivity.
    destruct (bool_decide_reflect (p = result_dir self id)) as [->|_]; [|reflexivity].
    rewrite Hd. reflexivity.
  - apply dir_exists_added.
Qed.

(** The constructor leaves the output root in place, unless a regular
    file stands at that path or above it. *)
Lemma init_creates_output_dir (p : path) (st : State (F:=F)) :
  existsb (is_regular_file st) (path_prefixes (path_parent p)) = false ->
  dir_exists st p = true \/ is_regular_file st p = false ->
  exists self st',
    init p st = (Ok self, st') /\ output_dir self = p /\ dir_exists st' p = true
    /\ files st' = files st.
Proof.
  intros Habove Hat. unfold init, bind, ret, mkdir_parents. rewrite Habove.
  destruct (dir_exists st p) eqn:Hd.
  { eexists _, _. split; [reflexivity|]. split; [reflexivity|]. split; [exact Hd|reflexivity]. }
  destruct Hat as [Hat|Hat]; [discriminate Hat|]. rewrite Hat.
  eexists _, _. split; [reflexivity|]. split; [reflexivity|]. split; [|reflexivity].
  unfold dir_exists. cbn [dirs].
  destruct p as [|a p]; [reflexivity|].
  apply orb_true_iff. right. apply bool_decide_eq_true.
  apply elem_of_union_l, elem_of_list_to_set, path_prefixes_self. discriminate.
Qed.

(** C9, as the code has it: a result id is "seg_" followed by the twelve
    leading hexadecimal digits of a fresh UUID, a plain directory name, so
    two calls get the same id exactly when their UUIDs agree on those
    digits; given such a name, with the output root there and nothing in
    the way, [save_results] writes mask, contours and metrics into the
    directory of that name under the output root and returns three
    entries whose locations end in mask.npy, contours.json and
    metrics.json; it leaves the files of every other such name as they
    were. *)
Theorem result_store_contract (env : PipelineEnv (F:=F))
    (self : LiverSegmentationInference) :
  (forall st, exists digits,
      (generate_result_id env st).1 = Ok ("seg_" +:+ string_of_list_ascii digits)
      /\ length digits = 12%nat
      /\ Forall (fun ch => is_hex_char ch = true) digits
      /\ plain_name ("seg_" +:+ string_of_list_ascii digits) = true)
  /\ (forall st1 st2,
      (generate_result_id env st1).1 = (generate_result_id env st2).1
      <-> uuid_prefix (uuid4 env (uuid_draws st1))
          = uuid_prefix (uuid4 env (uuid_draws st2)))
  /\ (forall (st : State) (id : string) (mask : ndarray F) (c : contours)
             (m : gmap string pyval),
      plain_name id = true ->
      dir_exists st (output_dir self) = true ->
      store_free st self id = true ->
      exists paths st',
        save_results self id mask c m st = (Ok paths, st')
        /\ result_dir self id = path_join (output_dir self) id
        /\ dir_exists st' (result_dir self id) = true
        /\ base.size paths = 3%nat
        /\ paths !! "mask_npy" = Some (path_str (result_file self id "mask.npy"))
        /\ paths !! "contours_json" = Some (path_str (result_file self id "contours.json"))
        /\ paths !! "metrics_json" = Some (path_str (result_file self id "metrics.json"))
        /\ ends_with (path_str (result_file self id "mask.npy")) "mask.npy"
        /\ ends_with (path_str (result_file self id "contours.json")) "contours.json"
        /\ ends_with (path_str (result_file self id "metrics.json")) "metrics.json"
        /\ files st' !! result_file self id "mask.npy" = Some (NpyFile mask)
        /\ files st' !! result_file self id "contours.json" = Some (JsonContours c)
        /\ files st' !! result_file self id "metrics.json" = Some (JsonDict m)
        /\ (forall id' name, plain_name id' = true -> id' <> id ->
              files st' !! result_file self id' name = files st !! result_file self id' name)
        /\ dir_exists st' (output_dir self) = true).
Proof.
  split; [|split].
  - intros st. exists (hex 12 (uuid4 env (uuid_draws st) / 16 ^ 20)%N).
    split; [apply generate_result_id_eq|].
    split; [apply hex_length|]. split; [apply hex_is_hex|].
    apply generated_id_plain; [apply hex_length|apply hex_is_hex].
  - intros st1 st2. rewrite !generate_result_id_eq. unfold uuid_prefix.
    rewrite <- (hex_inj 12). split.
    + intros H. apply ok_seg_inj in H.
      apply (f_equal list_ascii_of_string) in H.
      rewrite !list_ascii_of_string_of_list_ascii in H. exact H.
    + intros ->. reflexivity.
  - intros st id mask c m Hplain Hout Hfree.
    assert (Hpar : dir_exists st (path_parent (result_dir self id)) = true).
    { rewrite (result_dir_plain self id Hplain), path_parent_join. exact Hout. }
    eexists _, _. split; [apply (save_results_eq self id mask c m st Hpar Hfree)|].
    split; [apply result_dir_plain, Hplain|].
    split.
    { rewrite stored_dirs, bool_decide_eq_true_2 by reflexivity. reflexivity. }
    split.
    { generalize (path_str (result_file self id "metrics.json"))
        (path_str (result_file self id "contours.json"))
        (path_str (result_file self id "mask.npy")).
      intros. vm_compute. reflexivity. }
    split; [reflexivity|]. split; [reflexivity|]. split; [reflexivity|].
    split; [apply path_str_ends_with|].
    split; [apply path_str_ends_with|].
    split; [apply path_str_ends_with|].
    destruct (stored_files self id mask c m st) as (Hfm & Hfc & Hfj).
    split; [exact Hfm|]. split; [exact Hfc|]. split; [exact Hfj|].
    split.
    { intros id' name Hplain' Hne. unfold stored. cbn [files].
      rewrite !lookup_insert_ne; [reflexivity| | |];
        intros H; symmetry in H; revert H; apply result_file_other_id; assumption. }
    rewrite stored_dirs, Hout. apply orb_true_r.
Qed.
End ResultStoreContract.

Lemma result_store_contract_witness :
  plain_name "seg_123456789abc" = true
  /\ dir_exists demo_state (output_dir demo_pipeline) = true
  /\ store_free demo_state demo_pipeline "seg_123456789abc" = true
  /\ exists paths st',
       save_results demo_pipeline "seg_123456789abc" mask_3x1x2
         (Contours "json" []) ∅ demo_state = (Ok paths, st')
       /\ base.size paths = 3%nat
       /\ files st' !! result_file demo_pipeline "seg_123456789abc" "mask.npy"
          = Some (NpyFile mask_3x1x2).
Proof.
  pose proof (result_store_contract demo_env demo_pipeline) as (_ & _ & Hsave).
  assert (Hplain : plain_name "seg_123456789abc" = true) by (vm_compute; reflexivity).
  assert (Hout : dir_exists demo_state (output_dir demo_pipeline) = true)
    by (vm_compute; reflexivity).
  assert (Hfree : store_free demo_state demo_pipeline "seg_123456789abc" = true)
    by (vm_compute; reflexivity).
  split; [exact Hplain|]. split; [exact Hout|]. split; [exact Hfree|].
  pose proof (Hsave demo_state "seg_123456789abc" mask_3x1x2 (Contours "json" []) ∅
                Hplain Hout Hfree)
    as (paths & st' & Hrun & _ & _ & Hsize & _ & _ & _ & _ & _ & _ & Hmask & _).
  exists paths, st'. split; [exact Hrun|]. split; [exact Hsize|exact Hmask].
Defined.

(** C9 as stated fails: the first two UUIDs of the demo world are different
    and yet the two calls return the same id. *)
Lemma result_ids_can_collide :
  uuid4 demo_env 0 <> uuid4 demo_env 1
  /\ (generate_result_id demo_env demo_state).1 = Ok "seg_123456789abc"
  /\ (generate_result_id demo_env (generate_result_id demo_env demo_state).2).1
     = Ok "seg_123456789abc".
Proof.
  split; [vm_compute; discriminate|].
  split; vm_compute; reflexivity.
Qed.

(** ** The loader *)

Section LoaderFacts.
Context {F : Type} {ops : FloatOps F}.

Lemma find_dicom_files_all_rejected (env : LoaderEnv (F:=F)) (files acc : list path) :
  Forall (rejected env) files ->
  find_dicom_files env files acc = Ok acc.
Proof.
  induction 1 as [|file rest Hrej _ IH]; [reflexivity|].
  cbn [find_dicom_files]. unfold rejected in Hrej.
  destruct (is_file env file); [|exact IH].
  destruct (Hrej eq_refl) as [-> | ->]; exact IH.
Qed.

Lemma sorted_children_rejected (env : LoaderEnv (F:=F)) (directory : path) :
  (forall name, name ∈ iterdir env directory -> rejected env (path_join directory name)) ->
  Forall (rejected env) (sorted_children env directory).
Proof.
  intros H. unfold sorted_children. rewrite Forall_map.
  apply Forall_forall. intros name Hname. apply H.
  rewrite <- (merge_sort_Permutation String.le (iterdir env directory)). exact Hname.
Qed.

(** With the imaging backend missing, any existing path loads as
    synthetic data. *)
Lemma load_dicom_without_backend (env : LoaderEnv (F:=F)) (self : DicomPreprocessor)
    (p : path) :
  pydicom_available env = false ->
  is_file env p || is_dir env p = true ->
  load_dicom env self p
  = Ok (create_mock_volume env mock_shape, create_mock_metadata self).
Proof.
  intros Hb Hp. unfold load_dicom, load_single_dicom, load_dicom_series, import_pydicom.
  rewrite Hb. cbn [rbind except_ImportError].
  destruct (is_file env p); [reflexivity|].
  destruct (is_dir env p); [reflexivity|discriminate Hp].
Qed.

(** C6, as the code has it: a path that is neither a file nor a directory
    raises the not-found error; with the imaging backend present, a
    directory in which every regular file is rejected by the parser (or
    that has none) raises the configuration error.  No volume is returned
    in either case. *)
Theorem load_dicom_failures (env : LoaderEnv (F:=F)) (self : DicomPreprocessor)
    (p : path) :
  (is_file env p = false -> is_dir env p = false ->
   load_dicom env self p = Raise FileNotFoundError)
  /\ (is_file env p = false -> is_dir env p = true ->
      pydicom_available env = true ->
      (forall name, name ∈ iterdir env p -> rejected env (path_join p name)) ->
      load_dicom env self p = Raise ValueError).
Proof.
  split.
  - intros Hf Hd. unfold load_dicom. rewrite Hf, Hd. reflexivity.
  - intros Hf Hd Hb Hrej. unfold load_dicom. rewrite Hf, Hd.
    unfold load_dicom_series, import_pydicom. rewrite Hb. cbn [rbind].
    rewrite find_dicom_files_all_rejected by (apply sorted_children_rejected, Hrej).
    reflexivity.
Qed.
End LoaderFacts.

Lemma load_dicom_failures_witness :
  load_dicom (demo_loader true) default_preprocessor ["nowhere"] = Raise FileNotFoundError
  /\ load_dicom (demo_loader true) default_preprocessor ["junk"] = Raise ValueError.
Proof.
  split.
  - apply (proj1 (load_dicom_failures (demo_loader true) default_preprocessor ["nowhere"]));
      reflexivity.
  - apply (proj2 (load_dicom_failures (demo_loader true) default_preprocessor ["junk"]));
      try reflexivity.
    intros name _ _. left. reflexivity.
Defined.

(** C6 as stated fails: without the imaging backend a directory with no
    parseable file loads as synthetic data instead of raising. *)
Lemma empty_series_without_backend_loads :
  is_dir (demo_loader false) ["junk"] = true
  /\ forallb (fun name => negb (is_ok (dcmread (demo_loader false) (path_join ["junk"] name) true)))
       (iterdir (demo_loader false) ["junk"]) = true
  /\ load_dicom (demo_loader false) default_preprocessor ["junk"]
     = Ok (create_mock_volume (demo_loader false) mock_shape,
           create_mock_metadata default_preprocessor).
Proof.
  split; [reflexivity|]. split; [reflexivity|].
  apply load_dicom_without_backend; reflexivity.
Qed.

(** ** The postprocessor *)

Section PostprocessFacts.
Context {F : Type} {ops : FloatOps F}.

Lemma postprocess_mask_shape (mask : ndarray F) (n : Z) :
  shape (postprocess_mask mask n) = shape mask
  /\ length (data (postprocess_mask mask n)) = length (data mask).
Proof. unfold postprocess_mask. simpl. rewrite length_map. split; reflexivity. Qed.

Lemma postprocess_mask_binary (mask : ndarray F) (n : Z) :
  is_binary (postprocess_mask mask n).
Proof.
  unfold is_binary, postprocess_mask. simpl. rewrite Forall_map.
  apply Forall_forall. intros x _. cbv beta.
  destruct (fltb (lit (1 # 2)) x); [right|left]; reflexivity.
Qed.

(** The size threshold plays no part in the result. *)
Lemma postprocess_mask_ignores_threshold (mask : ndarray F) (n n' : Z) :
  postprocess_mask mask n = postprocess_mask mask n'.
Proof. reflexivity. Qed.
End PostprocessFacts.

Lemma postprocess_mask_idempotent (mask : ndarray xfloat) (n n' : Z) :
  postprocess_mask (postprocess_mask mask n) n' = postprocess_mask mask n.
Proof.
  unfold postprocess_mask. cbn [shape data]. f_equal. rewrite map_map.
  apply map_ext. intros x. cbv beta.
  destruct (fltb (lit (1 # 2)) x); reflexivity.
Qed.

(** C4, where the code departs from it: the field has a single voxel above
    0.5, a component of one voxel, and with the threshold of 1000 voxels the
    result still has that voxel. *)
Theorem postprocess_keeps_small_component :
  postprocess_mask speck_field 1000 = NdArray [1; 1; 3]%nat [of_Z 1; of_Z 0; of_Z 0]
  /\ foreground_count (postprocess_mask speck_field 1000) = 1%Z
  /\ (foreground_count (postprocess_mask speck_field 1000) < 1000)%Z.
Proof.
  split; [vm_compute; reflexivity|].
  split; vm_compute; reflexivity.
Qed.

(** ** The confusion matrix and the ratios *)

Section ConfusionFacts.
Context {F : Type} {ops : FloatOps F}.

Lemma count_zip_cons (f : bool -> bool -> bool) (x y : bool) (a b : list bool) :
  count_true (zip_with f (x :: a) (y :: b))
  = ((if f x y then 1 else 0) + count_true (zip_with f a b))%Z.
Proof. cbn [zip_with]. apply count_true_cons. Qed.

Lemma confusion_counts (a b : list bool) :
  length a = length b ->
  (count_true (zip_with andb a b)
   + count_true (zip_with (fun x y => negb x && negb y) a b)
   + count_true (zip_with (fun x y => negb x && y) a b)
   + count_true (zip_with (fun x y => x && negb y) a b) = Z.of_nat (length a)
   /\ count_true (zip_with andb a b)
      + count_true (zip_with (fun x y => x && negb y) a b) = count_true a
   /\ count_true (zip_with andb a b)
      + count_true (zip_with (fun x y => negb x && y) a b) = count_true b
   /\ count_true (zip_with andb a b)
      + count_true (zip_with (fun x y => negb x && negb y) a b)
      = count_true (zip_with Bool.eqb a b))%Z.
Proof.
  revert b. induction a as [|x a IH]; intros [|y b] Hlen; try discriminate Hlen.
  - unfold count_true. simpl. lia.
  - injection Hlen as Hlen. specialize (IH b Hlen).
    rewrite !count_zip_cons, !count_true_cons. cbn [length].
    destruct x, y; simpl; lia.
Qed.

Lemma binarize_int_bits (l : list F) :
  binarize_int l = map (fun b : bool => if b then 1%Z else 0%Z) (map (fun x => fltb (of_Z 0) x) l).
Proof. unfold binarize_int. rewrite map_map. reflexivity. Qed.

Lemma zip_with_int_bits (f : Z -> Z -> bool) (g : bool -> bool -> bool) (a b : list bool) :
  (forall x y : bool, f (if x then 1%Z else 0%Z) (if y then 1%Z else 0%Z) = g x y) ->
  zip_with f (map (fun b : bool => if b then 1%Z else 0%Z) a)
             (map (fun b : bool => if b then 1%Z else 0%Z) b)
  = zip_with g a b.
Proof.
  intros H. revert b. induction a as [|x a IH]; intros [|y b]; simpl; try reflexivity.
  rewrite H, IH. reflexivity.
Qed.

(** The four entries of the confusion matrix, as counts over the two
    foreground tests. *)
Lemma confusion_matrix_eq (gt pred : ndarray F) :
  let a := map (fun x => fltb (of_Z 0) x) (data gt) in
  let b := map (fun x => fltb (of_Z 0) x) (data pred) in
  confusion_matrix gt pred
  = <["false_negative" := count_true (zip_with (fun x y => x && negb y) a b)]>
    (<["false_positive" := count_true (zip_with (fun x y => negb x && y) a b)]>
    (<["true_negative" := count_true (zip_with (fun x y => negb x && negb y) a b)]>
    (<["true_positive" := count_true (zip_with andb a b)]> ∅))).
Proof.
  intros a b. unfold confusion_matrix. rewrite !binarize_int_bits. fold a. fold b.
  rewrite (zip_with_int_bits (fun g p => (g =? 1)%Z && (p =? 1)%Z) andb)
    by (intros [] []; reflexivity).
  rewrite (zip_with_int_bits (fun g p => (g =? 0)%Z && (p =? 0)%Z)
             (fun x y => negb x && negb y)) by (intros [] []; reflexivity).
  rewrite (zip_with_int_bits (fun g p => (g =? 0)%Z && (p =? 1)%Z)
             (fun x y => negb x && y)) by (intros [] []; reflexivity).
  rewrite (zip_with_int_bits (fun g p => (g =? 1)%Z && (p =? 0)%Z)
             (fun x y => x && negb y)) by (intros [] []; reflexivity).
  reflexivity.
Qed.

Lemma cm_count_eq (gt pred : ndarray F) :
  let a := map (fun x => fltb (of_Z 0) x) (data gt) in
  let b := map (fun x => fltb (of_Z 0) x) (data pred) in
  cm_count (confusion_matrix gt pred) "true_positive" = count_true (zip_with andb a b)
  /\ cm_count (confusion_matrix gt pred) "true_negative"
     = count_true (zip_with (fun x y => negb x && negb y) a b)
  /\ cm_count (confusion_matrix gt pred) "false_positive"
     = count_true (zip_with (fun x y => negb x && y) a b)
  /\ cm_count (confusion_matrix gt pred) "false_negative"
     = count_true (zip_with (fun x y => x && negb y) a b).
Proof.
  intros a b. rewrite confusion_matrix_eq. fold a. fold b.
  generalize (count_true (zip_with andb a b))
    (count_true (zip_with (fun x y => negb x && negb y) a b))
    (count_true (zip_with (fun x y => negb x && y) a b))
    (count_true (zip_with (fun x y => x && negb y) a b)).
  intros. unfold cm_count. repeat split; vm_compute; reflexivity.
Qed.

(** X1: the four counts of the confusion matrix split the voxels: they add
    up to the number of elements, TP + FN is the foreground of the ground
    truth and TP + FP the foreground of the prediction; none is negative. *)
Theorem confusion_matrix_partition (gt pred : ndarray F) :
  same_shape gt pred ->
  let cm := confusion_matrix gt pred in
  dom cm = ({["true_positive"; "true_negative"; "false_positive"; "false_negative"]}
            : gset string)
  /\ (cm_count cm "true_positive" + cm_count cm "true_negative"
      + cm_count cm "false_positive" + cm_count cm "false_negative"
      = Z.of_nat (size gt))%Z
  /\ (cm_count cm "true_positive" + cm_count cm "false_negative" = foreground_count gt)%Z
  /\ (cm_count cm "true_positive" + cm_count cm "false_positive" = foreground_count pred)%Z
  /\ (0 <= cm_count cm "true_positive")%Z /\ (0 <= cm_count cm "true_negative")%Z
  /\ (0 <= cm_count cm "false_positive")%Z /\ (0 <= cm_count cm "false_negative")%Z.
Proof.
  intros [_ Hlen] cm.
  destruct (cm_count_eq gt pred) as (Htp & Htn & Hfp & Hfn). fold cm in Htp, Htn, Hfp, Hfn.
  rewrite Htp, Htn, Hfp, Hfn.
  set (a := map (fun x => fltb (of_Z 0) x) (data gt)).
  set (b := map (fun x => fltb (of_Z 0) x) (data pred)).
  assert (Hab : length a = length b) by (subst a b; rewrite !length_map; exact Hlen).
  destruct (confusion_counts a b Hab) as (Hall & Hg & Hp & _).
  split.
  { subst cm. unfold confusion_matrix. rewrite !dom_insert_L, dom_empty_L. set_solver. }
  split. { rewrite Hall. subst a. rewrite length_map. reflexivity. }
  split; [exact Hg|]. split; [exact Hp|].
  repeat split; apply count_true_bounds.
Qed.
End ConfusionFacts.

Lemma confusion_matrix_partition_witness :
  same_shape demo_ground_truth demo_volume
  /\ (cm_count (confusion_matrix demo_ground_truth demo_volume) "true_positive"
      + cm_count (confusion_matrix demo_ground_truth demo_volume) "false_negative"
      = foreground_count demo_ground_truth)%Z.
Proof.
  assert (Hs : same_shape demo_ground_truth demo_volume) by (split; reflexivity).
  split; [exact Hs|].
  exact (proj1 (proj2 (proj2 (confusion_matrix_partition demo_ground_truth demo_volume Hs)))).
Defined.

(** ** The ratios on exact numbers *)

Lemma Qc_div_pos_le_1 (n d : Qc) : (0 ≤ n)%Qc -> (n ≤ d)%Qc -> (0 < d)%Qc ->
  (0 ≤ n / d)%Qc /\ (n / d ≤ 1)%Qc.
Proof.
  intros Hn Hnd Hd.
  assert (Hne : d <> 0%Qc) by (intros ->; exact (Qclt_not_eq _ _ Hd eq_refl)).
  split.
  - unfold Qcdiv. apply Qcmult_nonneg_nonneg; [exact Hn|].
    apply Qclt_le_weak, Qcinv_pos, Hd.
  - apply (Qcmult_lt_0_le_reg_r _ _ d Hd).
    rewrite Qcmult_1_l, Qcmult_comm, Qcmult_div_r by exact Hne. exact Hnd.
Qed.

Lemma Qc_div_self (d : Qc) : (0 < d)%Qc -> (d / d = 1)%Qc.
Proof.
  intros Hd. unfold Qcdiv. apply Qcmult_inv_r.
  intros ->. exact (Qclt_not_eq _ _ Hd eq_refl).
Qed.

Lemma xdiv_pos (a b : Qc) : (0 < b)%Qc -> xdiv (Fin a) (Fin b) = Fin (a / b)%Qc.
Proof.
  intros Hb. unfold xdiv. destruct (decide (b = 0%Qc)) as [->|]; [|reflexivity].
  exfalso. exact (Qclt_not_eq _ _ Hb eq_refl).
Qed.

Lemma xlit2_mul (z : Z) : lit 2 *! of_Z z = (of_Z (2 * z) : xfloat).
Proof.
  rewrite <- xof_Z_mul. f_equal; try (apply Fin_eq; reflexivity).
Qed.

Lemma xew_eq_bits (a b : list bool) :
  ew_eq (map bit a : list xfloat) (map bit b) = zip_with Bool.eqb a b.
Proof.
  unfold ew_eq. revert b.
  induction a as [|x a IH]; intros [|y b]; simpl; try reflexivity.
  rewrite <- IH. f_equal. destruct x, y; reflexivity.
Qed.

Lemma zip_with_negb_l (f : bool -> bool -> bool) (a b : list bool) :
  zip_with f (map negb a) b = zip_with (fun x y => f (negb x) y) a b.
Proof. revert b. induction a as [|x a IH]; intros [|y b]; simpl; congruence. Qed.

Lemma zip_with_negb_r (f : bool -> bool -> bool) (a b : list bool) :
  zip_with f a (map negb b) = zip_with (fun x y => f x (negb y)) a b.
Proof. revert b. induction a as [|x a IH]; intros [|y b]; simpl; congruence. Qed.

Lemma smoothed_pos (n : Z) : (0 <= n)%Z -> (0 < smoothed n)%Qc.
Proof. intros H. apply Qcplus_nonneg_pos; [apply Qc_of_Z_nonneg, H|exact smooth_pos]. Qed.

Lemma smoothed_le (n m : Z) : (n <= m)%Z -> (smoothed n ≤ smoothed m)%Qc.
Proof.
  intros H. unfold smoothed. apply Qcplus_le_mono_r. apply (proj1 (Z2Qc_inj_le _ _)), H.
Qed.

Lemma xsmoothed (n : Z) : of_Z n +! smooth_default = Fin (smoothed n).
Proof. reflexivity. Qed.

(** The five ratios as quotients of voxel counts. *)
Lemma metrics_as_counts (gt pred : ndarray xfloat) :
  let a := map (fun x => fltb (of_Z 0) x) (data gt) in
  let b := map (fun x => fltb (of_Z 0) x) (data pred) in
  let tp := count_true (zip_with andb a b) in
  let tn := count_true (zip_with (fun x y => negb x && negb y) a b) in
  let fp := count_true (zip_with (fun x y => negb x && y) a b) in
  let fn := count_true (zip_with (fun x y => x && negb y) a b) in
  calculate_dice gt pred
    = Fin (smoothed (2 * tp) / smoothed (count_true a + count_true b))%Qc
  /\ calculate_iou gt pred
     = Fin (smoothed tp / smoothed (count_true a + count_true b - tp))%Qc
  /\ calculate_sensitivity gt pred = Fin (smoothed tp / smoothed (tp + fn))%Qc
  /\ calculate_specificity gt pred = Fin (smoothed tn / smoothed (tn + fp))%Qc
  /\ calculate_pixel_accuracy gt pred
     = of_Z (count_true (zip_with Bool.eqb a b)) /! of_Z (Z.of_nat (length a)).
Proof.
  intros a b tp tn fp fn.
  pose proof (count_true_bounds a) as Ha. pose proof (count_true_bounds b) as Hb.
  pose proof (count_true_bounds (zip_with andb a b)) as Htp.
  pose proof (count_true_and_le a b) as Hle.
  pose proof (count_true_bounds (zip_with (fun x y => negb x && negb y) a b)) as Htn.
  pose proof (count_true_bounds (zip_with (fun x y => negb x && y) a b)) as Hfp.
  pose proof (count_true_bounds (zip_with (fun x y => x && negb y) a b)) as Hfn.
  split; [|split; [|split; [|split]]].
  - unfold calculate_dice, calculate_dice_s.
    rewrite !binarize_bits, xew_mul_bits, !xnp_sum_bits, xof_Z_add, xlit2_mul.
    fold a b tp. rewrite !xsmoothed. apply xdiv_pos, smoothed_pos. lia.
  - unfold calculate_iou, calculate_iou_s.
    rewrite !binarize_bits, xew_mul_bits, !xnp_sum_bits, xof_Z_add, xof_Z_sub.
    fold a b tp. rewrite !xsmoothed. apply xdiv_pos, smoothed_pos. lia.
  - unfold calculate_sensitivity, calculate_sensitivity_s.
    rewrite !binarize_bits, xone_minus_bits, !xew_mul_bits, !xnp_sum_bits, xof_Z_add.
    fold a b. rewrite zip_with_negb_r. fold tp fn.
    rewrite !xsmoothed. apply xdiv_pos, smoothed_pos. lia.
  - unfold calculate_specificity, calculate_specificity_s.
    rewrite !binarize_bits, !xone_minus_bits, !xew_mul_bits, !xnp_sum_bits, xof_Z_add.
    fold a b. rewrite zip_with_negb_l, zip_with_negb_r, zip_with_negb_l. fold tn fp.
    rewrite !xsmoothed. apply xdiv_pos, smoothed_pos. lia.
  - unfold calculate_pixel_accuracy.
    rewrite !binarize_bits, xew_eq_bits, !length_map. fold a b.
    subst a. rewrite length_map. reflexivity.
Qed.

Lemma Qc_div_le_cross (a b c d : Qc) :
  (0 < b)%Qc -> (0 < d)%Qc -> (a * d ≤ c * b)%Qc -> (a / b ≤ c / d)%Qc.
Proof.
  intros Hb Hd H.
  assert (Hbn : b <> 0%Qc) by (intros ->; exact (Qclt_not_eq _ _ Hb eq_refl)).
  assert (Hdn : d <> 0%Qc) by (intros ->; exact (Qclt_not_eq _ _ Hd eq_refl)).
  apply (Qcmult_lt_0_le_reg_r _ _ (b * d)%Qc); [apply Qcmult_pos_pos; assumption|].
  replace (a / b * (b * d))%Qc with (a * d)%Qc by (field; exact Hbn).
  replace (c / d * (b * d))%Qc with (c * b)%Qc by (field; exact Hdn).
  exact H.
Qed.

(** X2: on same-shape arrays the five ratios are the textbook quotients of
    the confusion matrix: dice (2TP+e)/(2TP+FP+FN+e), IoU (TP+e)/(TP+FP+FN+e),
    sensitivity (TP+e)/(TP+FN+e), specificity (TN+e)/(TN+FP+e) and pixel
    accuracy (TP+TN)/total. *)
Theorem metrics_from_confusion_matrix (gt pred : ndarray xfloat) :
  same_shape gt pred ->
  let cm := confusion_matrix gt pred in
  let tp := cm_count cm "true_positive" in
  let tn := cm_count cm "true_negative" in
  let fp := cm_count cm "false_positive" in
  let fn := cm_count cm "false_negative" in
  calculate_dice gt pred
    = (of_Z (2 * tp) +! smooth_default) /! (of_Z (2 * tp + fp + fn) +! smooth_default)
  /\ calculate_iou gt pred
     = (of_Z tp +! smooth_default) /! (of_Z (tp + fp + fn) +! smooth_default)
  /\ calculate_sensitivity gt pred
     = (of_Z tp +! smooth_default) /! (of_Z (tp + fn) +! smooth_default)
  /\ calculate_specificity gt pred
     = (of_Z tn +! smooth_default) /! (of_Z (tn + fp) +! smooth_default)
  /\ calculate_pixel_accuracy gt pred = of_Z (tp + tn) /! of_Z (Z.of_nat (size gt)).
Proof.
  intros [_ Hlen] cm tp tn fp fn.
  destruct (cm_count_eq gt pred) as (Htp & Htn & Hfp & Hfn).
  fold cm in Htp, Htn, Hfp, Hfn. fold tp in Htp. fold tn in Htn. fold fp in Hfp. fold fn in Hfn.
  destruct (metrics_as_counts gt pred) as (Hd & Hi & Hse & Hsp & Hpa).
  set (a := map (fun x => fltb (of_Z 0) x) (data gt)) in *.
  set (b := map (fun x => fltb (of_Z 0) x) (data pred)) in *.
  assert (Hab : length a = length b) by (subst a b; rewrite !length_map; exact Hlen).
  destruct (confusion_counts a b Hab) as (_ & Hg & Hp & Heq).
  rewrite <- Htp, <- Htn, <- Hfp, <- Hfn in *.
  pose proof (count_true_bounds a) as Ha. pose proof (count_true_bounds b) as Hb.
  assert (0 <= tp)%Z by (rewrite Htp; apply count_true_bounds).
  assert (0 <= tn)%Z by (rewrite Htn; apply count_true_bounds).
  assert (0 <= fp)%Z by (rewrite Hfp; apply count_true_bounds).
  assert (0 <= fn)%Z by (rewrite Hfn; apply count_true_bounds).
  rewrite !xsmoothed.
  rewrite !xdiv_pos by (apply smoothed_pos; lia).
  split. { rewrite Hd. do 3 f_equal. lia. }
  split. { rewrite Hi. do 3 f_equal. lia. }
  split; [exact Hse|]. split; [exact Hsp|].
  rewrite Hpa, <- Heq. unfold size. subst a. rewrite length_map. reflexivity.
Qed.

Lemma metrics_from_confusion_matrix_witness :
  same_shape demo_ground_truth demo_volume
  /\ calculate_pixel_accuracy demo_ground_truth demo_volume
     = of_Z (cm_count (confusion_matrix demo_ground_truth demo_volume) "true_positive"
             + cm_count (confusion_matrix demo_ground_truth demo_volume) "true_negative")
       /! of_Z (Z.of_nat (size demo_ground_truth)).
Proof.
  assert (Hs : same_shape demo_ground_truth demo_volume) by (split; reflexivity).
  split; [exact Hs|].
  exact (proj2 (proj2 (proj2 (proj2
           (metrics_from_confusion_matrix demo_ground_truth demo_volume Hs))))).
Defined.

(** X3: on same-shape arrays with at least one element every ratio is a
    finite number between 0 and 1. *)
Theorem metrics_within_unit_interval (gt pred : ndarray xfloat) :
  same_shape gt pred -> data gt <> [] ->
  in_unit (calculate_dice gt pred)
  /\ in_unit (calculate_iou gt pred)
  /\ in_unit (calculate_sensitivity gt pred)
  /\ in_unit (calculate_specificity gt pred)
  /\ in_unit (calculate_pixel_accuracy gt pred).
Proof.
  intros [_ Hlen] Hne.
  destruct (metrics_as_counts gt pred) as (Hd & Hi & Hse & Hsp & Hpa).
  set (a := map (fun x => fltb (of_Z 0) x) (data gt)) in *.
  set (b := map (fun x => fltb (of_Z 0) x) (data pred)) in *.
  assert (Hab : length a = length b) by (subst a b; rewrite !length_map; exact Hlen).
  destruct (confusion_counts a b Hab) as (Hall & Hg & Hp & Heq).
  pose proof (count_true_bounds a) as Ha. pose proof (count_true_bounds b) as Hb.
  pose proof (count_true_bounds (zip_with andb a b)) as Htp.
  pose proof (count_true_bounds (zip_with (fun x y => negb x && negb y) a b)) as Htn.
  pose proof (count_true_bounds (zip_with (fun x y => negb x && y) a b)) as Hfp.
  pose proof (count_true_bounds (zip_with (fun x y => x && negb y) a b)) as Hfn.
  assert (Hunit : forall n d, (0 <= n <= d)%Z -> in_unit (Fin (smoothed n / smoothed d)%Qc)).
  { intros n d Hnd. eexists. split; [reflexivity|].
    apply Qc_div_pos_le_1.
    - apply Qclt_le_weak, smoothed_pos. lia.
    - apply smoothed_le. lia.
    - apply smoothed_pos. lia. }
  rewrite Hd, Hi, Hse, Hsp, Hpa.
  split; [apply Hunit; lia|]. split; [apply Hunit; lia|].
  split; [apply Hunit; lia|]. split; [apply Hunit; lia|].
  assert (Hpos : (0 < Z.of_nat (length a))%Z).
  { subst a. rewrite length_map. destruct (data gt); [congruence|simpl; lia]. }
  change (of_Z ?n /! of_Z ?d) with (xdiv (Fin (Qc_of_Z n)) (Fin (Qc_of_Z d))).
  rewrite xdiv_pos by (rewrite <- Z2Qc_inj_0; apply (proj1 (Z2Qc_inj_lt _ _)); exact Hpos).
  eexists. split; [reflexivity|].
  apply Qc_div_pos_le_1.
  - apply Qc_of_Z_nonneg, count_true_bounds.
  - apply (proj1 (Z2Qc_inj_le _ _)).
    pose proof (count_true_bounds (zip_with Bool.eqb a b)) as Hc.
    rewrite length_zip_with in Hc. lia.
  - rewrite <- Z2Qc_inj_0. apply (proj1 (Z2Qc_inj_lt _ _)). exact Hpos.
Qed.

Lemma metrics_within_unit_interval_witness :
  same_shape ones_2x2x2 zeros_2x2x2 /\ data ones_2x2x2 <> []
  /\ in_unit (calculate_dice ones_2x2x2 zeros_2x2x2).
Proof.
  assert (Hs : same_shape ones_2x2x2 zeros_2x2x2) by (split; reflexivity).
  assert (Hne : data ones_2x2x2 <> []) by (vm_compute; discriminate).
  split; [exact Hs|]. split; [exact Hne|].
  exact (proj1 (metrics_within_unit_interval ones_2x2x2 zeros_2x2x2 Hs Hne)).
Defined.

(** X4: a mask compared with itself scores exactly 1 on dice, IoU,
    sensitivity and specificity, whatever it holds, and exactly 1 on pixel
    accuracy unless it has no element (the quotient is then 0/0). *)
Theorem metrics_of_identical_masks (A : ndarray xfloat) :
  calculate_dice A A = lit 1
  /\ calculate_iou A A = lit 1
  /\ calculate_sensitivity A A = lit 1
  /\ calculate_specificity A A = lit 1
  /\ (data A <> [] -> calculate_pixel_accuracy A A = lit 1)
  /\ (data A = [] -> calculate_pixel_accuracy A A = NaN).
Proof.
  destruct (metrics_as_counts A A) as (Hd & Hi & Hse & Hsp & Hpa).
  set (a := map (fun x => fltb (of_Z 0) x) (data A)) in *.
  destruct (confusion_counts a a eq_refl) as (Hall & Hg & Hp & Heq).
  pose proof (count_true_bounds a) as Ha.
  pose proof (count_true_bounds (zip_with andb a a)) as Htp.
  pose proof (count_true_bounds (zip_with (fun x y => negb x && negb y) a a)) as Htn.
  pose proof (count_true_bounds (zip_with (fun x y => negb x && y) a a)) as Hfp.
  pose proof (count_true_bounds (zip_with (fun x y => x && negb y) a a)) as Hfn.
  assert (Hself : count_true (zip_with andb a a) = count_true a).
  { clear. induction a as [|x a IH]; [reflexivity|].
    rewrite count_zip_cons, count_true_cons, IH. destruct x; reflexivity. }
  assert (Heqb : count_true (zip_with Bool.eqb a a) = Z.of_nat (length a)).
  { clear. induction a as [|x a IH]; [reflexivity|].
    rewrite count_zip_cons, IH. cbn [length]. destruct x; simpl; lia. }
  assert (Hone : forall n m, n = m -> (0 <= m)%Z ->
                   Fin (smoothed n / smoothed m)%Qc = lit 1).
  { intros n m -> Hm. rewrite Qc_div_self by (apply smoothed_pos, Hm).
    apply Fin_eq. reflexivity. }
  rewrite Hd, Hi, Hse, Hsp, Hpa.
  split; [apply Hone; lia|]. split; [apply Hone; lia|].
  split; [apply Hone; lia|]. split; [apply Hone; lia|].
  split.
  - intros Hne. rewrite Heqb.
    assert (Hpos : (0 < Z.of_nat (length a))%Z).
    { subst a. rewrite length_map. destruct (data A); [congruence|simpl; lia]. }
    change (of_Z ?n /! of_Z ?d) with (xdiv (Fin (Qc_of_Z n)) (Fin (Qc_of_Z d))).
    rewrite xdiv_pos by (rewrite <- Z2Qc_inj_0; apply (proj1 (Z2Qc_inj_lt _ _)); exact Hpos).
    rewrite Qc_div_self by (rewrite <- Z2Qc_inj_0; apply (proj1 (Z2Qc_inj_lt _ _)); exact Hpos).
    apply Fin_eq. reflexivity.
  - intros Hnil. subst a. rewrite Hnil. reflexivity.
Qed.

Lemma count_true_and_le_r (a b : list bool) :
  (count_true (zip_with andb a b) <= count_true b)%Z.
Proof.
  revert b. induction a as [|x a IH]; intros [|y b].
  - apply Z.le_refl.
  - cbn [zip_with]. apply count_true_bounds.
  - cbn [zip_with]. apply Z.le_refl.
  - rewrite count_zip_cons, count_true_cons. specialize (IH b). destruct x, y; simpl; lia.
Qed.

(** X5: dice is never below IoU. *)
Theorem dice_at_least_iou (gt pred : ndarray xfloat) :
  same_shape gt pred ->
  exists d i, calculate_dice gt pred = Fin d /\ calculate_iou gt pred = Fin i
              /\ (i ≤ d)%Qc.
Proof.
  intros _.
  destruct (metrics_as_counts gt pred) as (Hd & Hi & _).
  set (a := map (fun x => fltb (of_Z 0) x) (data gt)) in *.
  set (b := map (fun x => fltb (of_Z 0) x) (data pred)) in *.
  set (t := count_true (zip_with andb a b)) in *.
  set (s := (count_true a + count_true b)%Z) in *.
  assert (Ht : (0 <= t)%Z) by apply count_true_bounds.
  assert (Hts : (2 * t <= s)%Z).
  { pose proof (count_true_and_le a b).
    pose proof (count_true_and_le_r a b).
    subst t s. lia. }
  eexists _, _. split; [exact Hd|]. split; [exact Hi|].
  apply Qc_div_le_cross; try (apply smoothed_pos; lia).
  apply Qcle_minus_iff.
  replace (smoothed (2 * t) * smoothed (s - t) + - (smoothed t * smoothed s))%Qc
    with (Qc_of_Z (t * (s - 2 * t))).
  - apply Qc_of_Z_nonneg. nia.
  - unfold smoothed.
    rewrite Z2Qc_inj_mul, !Z2Qc_inj_sub, !Z2Qc_inj_mul, Z2Qc_inj_2. ring.
Qed.

Lemma dice_at_least_iou_witness :
  same_shape demo_ground_truth demo_volume
  /\ exists d i, calculate_dice demo_ground_truth demo_volume = Fin d
                 /\ calculate_iou demo_ground_truth demo_volume = Fin i /\ (i ≤ d)%Qc.
Proof.
  assert (Hs : same_shape demo_ground_truth demo_volume) by (split; reflexivity).
  split; [exact Hs|].
  exact (dice_at_least_iou demo_ground_truth demo_volume Hs).
Defined.

(** ** The metrics dictionary and the volume *)

Section AllMetricsFacts.
Context {F : Type} {ops : FloatOps F}.

(** X6: on same-shape arrays [calculate_all_metrics] returns; its
    dictionary has exactly ten entries, carries the three entries of
    [calculate_volume] unchanged, and the clinical flag is only set on a
    mask graded Excellent. *)
Theorem all_metrics_dictionary (gt pred : ndarray F) (spacing : list F) :
  same_shape gt pred ->
  exists m,
    calculate_all_metrics gt pred spacing = Ok m
    /\ dom m = all_metrics_keys
    /\ (forall k v, calculate_volume pred spacing !! k = Some v -> m !! k = Some v)
    /\ (m !! "meets_clinical_standards" = Some (PBool true) ->
        m !! "quality_grade" = Some (PStr "Excellent")).
Proof.
  intros _. eexists. split; [apply calculate_all_metrics_eq|]. cbv zeta.
  set (dice := fround 6 (calculate_dice gt pred)).
  set (iou := fround 6 (calculate_iou gt pred)).
  split; [|split].
  - unfold all_metrics_keys, dict_update, calculate_volume.
    rewrite !dom_insert_L, dom_union_L, !dom_insert_L, dom_empty_L. set_solver.
  - intros k v Hk.
    assert (Hk' : k ∈ dom (calculate_volume pred spacing)) by (apply elem_of_dom; eauto).
    unfold calculate_volume in Hk'. rewrite !dom_insert_L, dom_empty_L in Hk'.
    rewrite !lookup_insert_ne by (intros <-; set_solver).
    unfold dict_update. apply lookup_union_Some_l. exact Hk.
  - rewrite lookup_insert_ne by discriminate. rewrite lookup_insert_eq.
    intros H. injection H as H. apply andb_true_iff in H as [Hd _].
    rewrite lookup_insert_eq. unfold spec_quality_grade. rewrite Hd. reflexivity.
Qed.
End AllMetricsFacts.

Lemma all_metrics_dictionary_witness :
  same_shape demo_ground_truth demo_ground_truth
  /\ exists m,
       calculate_all_metrics demo_ground_truth demo_ground_truth default_spacing = Ok m
       /\ m !! "quality_grade" = Some (PStr "Excellent").
Proof.
  assert (Hs : same_shape demo_ground_truth demo_ground_truth) by (split; reflexivity).
  split; [exact Hs|].
  destruct (all_metrics_dictionary demo_ground_truth demo_ground_truth default_spacing Hs)
    as (m & Hm & _ & _ & Hflag).
  exists m. split; [exact Hm|]. apply Hflag.
  assert (H0 : match calculate_all_metrics demo_ground_truth demo_ground_truth default_spacing with
               | Ok m => m !! "meets_clinical_standards"
               | Raise _ => None
               end = Some (PBool true)) by (vm_compute; reflexivity).
  rewrite Hm in H0. exact H0.
Defined.

(** Rounding leaves whole numbers alone. *)
Lemma round_digits_of_Z (n : nat) (z : Z) : round_digits n (Qc_of_Z z) = Qc_of_Z z.
Proof.
  unfold round_digits.
  set (scale := (10 ^ Z.of_nat n)%Z).
  assert (Hscale : (0 < scale)%Z) by (subst scale; apply Z.pow_pos_nonneg; lia).
  apply Qc_is_canon. cbn [this Qc_of_Z Q2Qc].
  rewrite Qred_correct.
  assert (Hx : (inject_Z z * inject_Z scale == inject_Z (z * scale))%Q)
    by (rewrite inject_Z_mult; reflexivity).
  assert (Hr : round_half_even (inject_Z z * inject_Z scale) = (z * scale)%Z).
  { unfold round_half_even.
    assert (Hfl : Qfloor (inject_Z z * inject_Z scale) = (z * scale)%Z).
    { rewrite Hx. apply Qfloor_Z. }
    rewrite Hfl.
    assert (Hc : (inject_Z z * inject_Z scale - inject_Z (z * scale) ?= 1 # 2)%Q = Lt).
    { apply (proj1 (Qlt_alt _ _)). rewrite Hx.
      generalize (z * scale)%Z. intros k.
      unfold Qlt, Qminus, Qplus, Qopp, inject_Z. simpl. lia. }
    rewrite Hc. reflexivity. }
  rewrite Hr, inject_Z_mult. field.
  intros H. apply (inject_Z_injective scale 0) in H. lia.
Qed.

Lemma xfround_of_Z (n : nat) (z : Z) : fround n (of_Z z : xfloat) = of_Z z.
Proof. simpl. f_equal. apply round_digits_of_Z. Qed.

Lemma xnp_prod_default_spacing : np_prod (default_spacing : list xfloat) = of_Z 1.
Proof. apply Fin_eq. reflexivity. Qed.

Lemma xmul_one_r (z : Z) : of_Z z *! of_Z 1 = (of_Z z : xfloat).
Proof. rewrite xof_Z_mul. f_equal. lia. Qed.

Section VolumeFacts.
Context {F : Type} {ops : FloatOps F}.

(** X7: with the default spacing of 1 mm, in an arithmetic in which the
    voxel count times 1.0 x 1.0 x 1.0 is the count and rounding the
    count to two decimals gives it back, the reported volume in mm3 is
    the voxel count itself, the volume in mL is [round(count / 1000, 2)],
    and the count lies between 0 and the number of elements. *)
Theorem calculate_volume_unit_spacing (mask : ndarray F) :
  of_Z (foreground_count mask) *! np_prod default_spacing = of_Z (foreground_count mask) ->
  fround 2 (of_Z (foreground_count mask)) = of_Z (foreground_count mask) ->
  let v := calculate_volume mask default_spacing in
  let n := foreground_count mask in
  dom v = ({["volume_ml"; "volume_mm3"; "voxel_count"]} : gset string)
  /\ v !! "voxel_count" = Some (PInt n)
  /\ v !! "volume_mm3" = Some (PFloat (of_Z n))
  /\ v !! "volume_ml" = Some (PFloat (fround 2 (of_Z n /! lit 1000)))
  /\ (0 <= n <= Z.of_nat (size mask))%Z.
Proof.
  intros Hmul Hround v n. subst v. unfold calculate_volume.
  fold (foreground_count mask). fold n. fold n in Hmul, Hround.
  rewrite Hmul, Hround.
  split; [rewrite !dom_insert_L, dom_empty_L; set_solver|].
  split; [apply lookup_insert_eq|].
  split; [rewrite lookup_insert_ne by discriminate; apply lookup_insert_eq|].
  split; [rewrite !lookup_insert_ne by discriminate; apply lookup_insert_eq|].
  subst n. unfold foreground_count, size.
  pose proof (count_true_bounds (map (fun x => fltb (of_Z 0) x) (data mask))) as H.
  rewrite length_map in H. exact H.
Qed.
End VolumeFacts.

Lemma calculate_volume_unit_spacing_witness :
  calculate_volume demo_ground_truth default_spacing !! "volume_mm3"
  = Some (PFloat (of_Z (foreground_count demo_ground_truth))).
Proof.
  assert (Hmul : of_Z (foreground_count demo_ground_truth) *! np_prod default_spacing
                 = (of_Z (foreground_count demo_ground_truth) : xfloat)).
  { rewrite xnp_prod_default_spacing. apply xmul_one_r. }
  assert (Hround : fround 2 (of_Z (foreground_count demo_ground_truth))
                   = (of_Z (foreground_count demo_ground_truth) : xfloat))
    by apply xfround_of_Z.
  exact (proj1 (proj2 (proj2 (calculate_volume_unit_spacing demo_ground_truth Hmul Hround)))).
Defined.

(** ** Thresholding: the postprocessor and the prediction wrapper *)

(** X8: the postprocessor keeps the shape and the number of elements, turns
    every element into 1 when it exceeds 0.5 and into 0 otherwise, and
    leaves an array it produced unchanged when applied again. *)
Theorem postprocess_mask_contract (mask : ndarray xfloat) (n n' : Z) :
  shape (postprocess_mask mask n) = shape mask
  /\ size (postprocess_mask mask n) = size mask
  /\ is_binary (postprocess_mask mask n)
  /\ (forall i x, data mask !! i = Some x ->
        data (postprocess_mask mask n) !! i
        = Some (if fltb (lit (1 # 2)) x then of_Z 1 else of_Z 0))
  /\ postprocess_mask (postprocess_mask mask n) n' = postprocess_mask mask n.
Proof.
  split; [apply postprocess_mask_shape|].
  split; [apply postprocess_mask_shape|].
  split; [apply postprocess_mask_binary|].
  split; [|apply postprocess_mask_idempotent].
  intros i x Hi. unfold postprocess_mask. cbn [data].
  change (map ?f ?l) with (f <$> l). rewrite list_lookup_fmap, Hi. reflexivity.
Qed.

(** X9: [predict] adds the batch and channel axes, runs the network, drops
    every axis of length 1 from its output and thresholds at 0.5.  The mask
    is binary, so the postprocessor that follows in the pipeline changes
    nothing; an exception of the network is passed on. *)
Theorem predict_thresholds_and_squeezes
    (forward : ndarray xfloat -> result (ndarray xfloat)) (volume : ndarray xfloat) :
  match forward (NdArray (1 :: 1 :: shape volume)%nat (data volume)) with
  | Ok output =>
      exists mask,
        predict forward volume = Ok mask
        /\ shape mask = filter (fun k => k <> 1%nat) (shape output)
        /\ size mask = size output
        /\ is_binary mask
        /\ forall n, postprocess_mask mask n = mask
  | Raise e => predict forward volume = Raise e
  end.
Proof.
  unfold predict, unsqueeze0. cbn [shape data].
  destruct (forward _) as [output|e]; [|reflexivity].
  cbn [rbind]. eexists. split; [reflexivity|].
  split; [reflexivity|].
  split; [unfold size; cbn [data squeeze]; apply length_map|].
  split.
  - unfold is_binary. cbn [data]. rewrite Forall_map.
    apply Forall_forall. intros x _. cbv beta.
    destruct (fltb (lit (1 # 2)) x); [right|left]; reflexivity.
  - intros n. unfold postprocess_mask. cbn [shape data]. f_equal.
    rewrite map_map. apply map_ext. intros x. cbv beta.
    destruct (fltb (lit (1 # 2)) x); reflexivity.
Qed.

Section VolumeMetricsFacts.
Context {F : Type} {ops : FloatOps F}.

(** X10: [calculate_volume_metrics] is [calculate_volume] at the spacing of
    the metadata, with that spacing added as a fourth entry; without a
    spacing entry it uses (1.0, 1.0, 1.0); a text in place of the spacing
    raises a type error. *)
Theorem calculate_volume_metrics_cases (mask : ndarray F) (metadata : gmap string pyval) :
  (metadata !! "spacing" = None ->
   calculate_volume_metrics mask metadata
   = Ok (<["spacing" := PTuple default_spacing]> (calculate_volume mask default_spacing)))
  /\ (forall s, metadata !! "spacing" = Some (PTuple s) ->
      calculate_volume_metrics mask metadata
      = Ok (<["spacing" := PTuple s]> (calculate_volume mask s)))
  /\ (forall s, metadata !! "spacing" = Some (PStr s) ->
      calculate_volume_metrics mask metadata = Raise TypeError).
Proof.
  unfold calculate_volume_metrics, calculate_volume.
  split; [|split].
  - intros ->. reflexivity.
  - intros s ->. reflexivity.
  - intros s ->. reflexivity.
Qed.
End VolumeMetricsFacts.

Lemma calculate_volume_metrics_cases_witness :
  calculate_volume_metrics demo_volume (∅ : gmap string (pyval (F:=xfloat)))
  = Ok (<["spacing" := PTuple default_spacing]> (calculate_volume demo_volume default_spacing))
  /\ calculate_volume_metrics demo_volume ({["spacing" := PStr "1mm"]} : gmap string (pyval (F:=xfloat)))
     = Raise TypeError.
Proof.
  split.
  - apply (proj1 (calculate_volume_metrics_cases demo_volume ∅)). reflexivity.
  - apply (proj2 (proj2 (calculate_volume_metrics_cases demo_volume {["spacing" := PStr "1mm"]})) "1mm").
    reflexivity.
Defined.

(** ** More on the slice summarizer *)

Section ContourFacts.
Context {F : Type} {ops : FloatOps F}.

Lemma extract_contours_flat (mask : ndarray F) (d : nat) (rest : list nat)
    (num_slices : option Z) :
  shape mask = d :: rest ->
  default (Z.of_nat d) num_slices <> 0%Z ->
  extract_contours mask num_slices
  = Ok (Contours "json"
          (flat_map (loop_emits mask)
             (visited_indices (Z.of_nat d)
                (Z.max 1 (Z.of_nat d / default (Z.of_nat d) num_slices))))).
Proof.
  intros Hshape Hn. unfold extract_contours. rewrite Hshape.
  destruct (Z.eqb_spec (default (Z.of_nat d) num_slices) 0) as [H0|_]; [contradiction|].
  rewrite py_range_visits by lia.
  rewrite contour_loop_flat_map by (apply visited_indices_below; lia).
  reflexivity.
Qed.

Lemma loop_emits_index (mask : ndarray F) (i : Z) (r : slice_record) :
  r ∈ loop_emits mask i -> slice_index r = i.
Proof.
  unfold loop_emits. cbv zeta.
  destruct (feqb _ _); intros Hr; [inversion Hr|].
  apply list_elem_of_singleton in Hr. subst r. reflexivity.
Qed.

Lemma loop_emits_length (mask : ndarray F) (i : Z) : (length (loop_emits mask i) <= 1)%nat.
Proof. unfold loop_emits. cbv zeta. destruct (feqb _ _); simpl; lia. Qed.

Lemma flat_map_length_le {A B} (f : A -> list B) (l : list A) :
  (forall x, (length (f x) <= 1)%nat) -> (length (flat_map f l) <= length l)%nat.
Proof.
  intros H. induction l as [|x l IH]; simpl; [lia|].
  rewrite length_app. specialize (H x). lia.
Qed.

Lemma visited_indices_length (depth stride : Z) :
  (0 < stride)%Z -> (0 <= depth)%Z ->
  (Z.of_nat (length (visited_indices depth stride)) <= depth)%Z.
Proof.
  intros Hs Hd. unfold visited_indices. rewrite length_map, length_seqZ.
  assert ((depth + stride - 1) / stride <= depth)%Z.
  { apply Z.lt_succ_r. apply Z.div_lt_upper_bound; [lia|]. nia. }
  assert (0 <= (depth + stride - 1) / stride)%Z by (apply Z.div_pos; lia).
  lia.
Qed.

End ContourFacts.

(** X11: what [extract_contours] does with an array and any slice count:
    an array without axes raises an index error; a slice count of zero
    (also the default on a volume of depth 0) raises a division error;
    otherwise, on an array whose elements are all numbers, it returns
    records tagged "json", at most one per slice, with indices inside the
    volume and strictly increasing. *)
Theorem extract_contours_outcomes (mask : ndarray xfloat) (num_slices : option Z) :
  match shape mask with
  | [] => extract_contours mask num_slices = Raise IndexError
  | d :: _ =>
      if (default (Z.of_nat d) num_slices =? 0)%Z
      then extract_contours mask num_slices = Raise ZeroDivisionError
      else
        Forall (fun x => is_finite x = true) (data mask) ->
        exists c,
          extract_contours mask num_slices = Ok c
          /\ format c = "json"
          /\ (length (slices c) <= d)%nat
          /\ Forall (fun r => 0 <= slice_index r < Z.of_nat d)%Z (slices c)
          /\ StronglySorted Z.lt (map slice_index (slices c))
  end.
Proof.
  destruct (shape mask) as [|d rest] eqn:Hshape.
  - unfold extract_contours. rewrite Hshape. reflexivity.
  - destruct (Z.eqb_spec (default (Z.of_nat d) num_slices) 0) as [H0|Hn].
    + unfold extract_contours. rewrite Hshape.
      rewrite (proj2 (Z.eqb_eq _ _) H0). reflexivity.
    + intros _.
      eexists. split; [apply (extract_contours_flat mask d rest num_slices Hshape Hn)|].
      cbn [format slices].
      set (stride := Z.max 1 (Z.of_nat d / default (Z.of_nat d) num_slices)).
      assert (Hstride : (0 < stride)%Z) by (subst stride; lia).
      split; [reflexivity|]. split; [|split].
      * pose proof (flat_map_length_le (loop_emits mask)
                      (visited_indices (Z.of_nat d) stride) (loop_emits_length mask)).
        pose proof (visited_indices_length (Z.of_nat d) stride Hstride). lia.
      * apply Forall_forall. intros r Hr.
        apply (proj1 (list_elem_of_In _ _)), in_flat_map in Hr.
        destruct Hr as [i [Hi Hri]].
        apply (proj2 (list_elem_of_In _ _)) in Hi, Hri.
        rewrite (loop_emits_index mask i r Hri).
        pose proof (visited_indices_below (Z.of_nat d) stride Hstride) as Hb.
        rewrite Forall_forall in Hb. apply Hb, Hi.
      * apply summary_indices_sorted.
        -- apply loop_emits_index.
        -- apply loop_emits_length.
        -- apply visited_indices_sorted, Hstride.
Qed.

Lemma extract_contours_outcomes_witness :
  Forall (fun x => is_finite x = true) (data mask_3x1x2)
  /\ exists c, extract_contours mask_3x1x2 (Some 2%Z) = Ok c
               /\ StronglySorted Z.lt (map slice_index (slices c)).
Proof.
  assert (Hfin : Forall (fun x => is_finite x = true) (data mask_3x1x2))
    by (repeat constructor).
  split; [exact Hfin|].
  destruct (extract_contours_outcomes mask_3x1x2 (Some 2%Z) Hfin)
    as (c & Hc & _ & _ & _ & Hsorted).
  exists c. split; [exact Hc|exact Hsorted].
Defined.

Lemma xnp_any_of_sum (l : list xfloat) :
  feqb (np_sum l) (of_Z 0) = false -> np_any l = true.
Proof.
  intros Hsum. destruct (np_any l) eqn:Hany; [reflexivity|].
  exfalso.
  assert (Hall : Forall (fun x => x = of_Z 0) l).
  { unfold np_any in Hany. apply Forall_forall. intros x Hx.
    assert (Hx' : negb (feqb x (of_Z 0)) = false).
    { destruct (negb (feqb x (of_Z 0))) eqn:E; [|reflexivity].
      assert (existsb (fun x => negb (feqb x (of_Z 0))) l = true).
      { apply existsb_exists. exists x. split; [apply list_elem_of_In, Hx|exact E]. }
      congruence. }
    apply negb_false_iff in Hx'. destruct x as [q|]; [|discriminate Hx'].
    simpl in Hx'. apply bool_decide_eq_true in Hx'. rewrite Hx'. reflexivity. }
  assert (Hz : np_sum l = of_Z 0).
  { unfold np_sum. clear Hsum Hany. induction Hall as [|x l Hx _ IH]; [reflexivity|].
    cbn [foldl]. rewrite Hx, xof_Z_add. exact IH. }
  rewrite Hz in Hsum. vm_compute in Hsum. discriminate Hsum.
Qed.

(** X12: on an array whose elements are all numbers, every record
    [extract_contours] returns has [has_liver] set, whatever the slice
    count; and on a binary mask summarised with the default slice count
    (or one that is at least the depth) a record for slice [i] with area
    [n] is returned exactly when [i] is a slice of the volume whose
    foreground count is [n], not zero. *)
Theorem extract_contours_reports_every_slice (mask : ndarray xfloat) (d : nat)
    (rest : list nat) (num_slices : option Z) :
  shape mask = d :: rest ->
  default (Z.of_nat d) num_slices <> 0%Z ->
  Forall (fun x => is_finite x = true) (data mask) ->
  exists c,
    extract_contours mask num_slices = Ok c
    /\ Forall (fun r => has_liver r = true) (slices c)
    /\ (is_binary mask ->
        (0 < Z.of_nat d <= default (Z.of_nat d) num_slices)%Z ->
        forall i n, SliceRecord i true n ∈ slices c
                    <-> (0 <= i < Z.of_nat d)%Z
                        /\ n = foreground_count (get_slice mask i) /\ n <> 0%Z).
Proof.
  intros Hshape Hne _.
  eexists. split; [apply (extract_contours_flat mask d rest num_slices Hshape Hne)|].
  cbn [slices].
  split.
  - apply Forall_forall. intros r Hr.
    apply (proj1 (list_elem_of_In _ _)), in_flat_map in Hr.
    destruct Hr as [i [_ Hri]]. apply (proj2 (list_elem_of_In _ _)) in Hri.
    unfold loop_emits in Hri. cbv zeta in Hri.
    destruct (feqb _ _) eqn:Hsum; [inversion Hri|].
    apply list_elem_of_singleton in Hri. subst r. cbn [has_liver].
    apply xnp_any_of_sum, Hsum.
  - intros Hbin Hn.
    assert (Hstride : Z.max 1 (Z.of_nat d / default (Z.of_nat d) num_slices) = 1%Z).
    { destruct (Z.eq_dec (default (Z.of_nat d) num_slices) (Z.of_nat d)) as [->|Hgt].
      - rewrite Z.div_same by lia. reflexivity.
      - rewrite Z.div_small by lia. reflexivity. }
    rewrite Hstride.
    assert (Hvis : forall i, i ∈ visited_indices (Z.of_nat d) 1 <-> (0 <= i < Z.of_nat d)%Z).
    { intros i. unfold visited_indices.
      replace ((Z.of_nat d + 1 - 1) / 1)%Z with (Z.of_nat d) by (rewrite Z.div_1_r; lia).
      change (map ?f ?l) with (f <$> l). rewrite list_elem_of_fmap. split.
      - intros (k & -> & Hk). apply elem_of_seqZ in Hk. lia.
      - intros Hi. exists i. split; [lia|]. apply elem_of_seqZ. lia. }
    intros i n. rewrite list_elem_of_In, in_flat_map. split.
    + intros (j & Hj & Hr). apply (proj2 (list_elem_of_In _ _)) in Hj, Hr.
      rewrite loop_emits_binary in Hr by exact Hbin. cbv zeta in Hr.
      destruct (Z.eqb_spec (foreground_count (get_slice mask j)) 0) as [|Hnz];
        [inversion Hr|].
      apply list_elem_of_singleton in Hr. injection Hr as -> ->.
      split; [apply Hvis, Hj|]. split; [reflexivity|exact Hnz].
    + intros (Hi & -> & Hnz). exists i.
      split; [apply list_elem_of_In, Hvis, Hi|]. apply list_elem_of_In.
      rewrite loop_emits_binary by exact Hbin. cbv zeta.
      destruct (Z.eqb_spec (foreground_count (get_slice mask i)) 0) as [|_];
        [contradiction|].
      apply list_elem_of_singleton. reflexivity.
Qed.

Lemma extract_contours_reports_every_slice_witness :
  default (Z.of_nat 3) (Some 2%Z) <> 0%Z
  /\ Forall (fun x => is_finite x = true) (data mask_3x1x2)
  /\ exists c, extract_contours mask_3x1x2 (Some 2%Z) = Ok c
               /\ Forall (fun r => has_liver r = true) (slices c).
Proof.
  assert (Hn : default (Z.of_nat 3) (Some 2%Z) <> 0%Z) by discriminate.
  assert (Hfin : Forall (fun x => is_finite x = true) (data mask_3x1x2))
    by (repeat constructor).
  split; [exact Hn|]. split; [exact Hfin|].
  destruct (extract_contours_reports_every_slice mask_3x1x2 3 [1; 2]%nat (Some 2%Z)
              eq_refl Hn Hfin) as (c & Hc & Hall & _).
  exists c. split; [exact Hc|exact Hall].
Defined.

(** ** More on the result store and the two entry points *)

Section StoreFacts.
Context {F : Type} {ops : FloatOps F}.






Lemma stored_twice (self : LiverSegmentationInference (F:=F)) (id : string)
    (mask1 mask2 : ndarray F) (c1 c2 : contours) (m1 m2 : gmap string pyval) (st : State) :
  stored self id mask2 c2 m2 (stored self id mask1 c1 m1 st)
  = stored self id mask2 c2 m2 st.
Proof.
  destruct (result_files_distinct self id) as (Hmc & Hmm & Hcm).
  unfold stored. cbn [ticks uuid_draws dirs files].
  destruct (dir_exists st (result_dir self id)) eqn:Hd.
  - rewrite (dir_exists_dirs st) by reflexivity. rewrite Hd. f_equal.
    apply map_eq. intros p. rewrite !lookup_insert.
    repeat (match goal with |- context [decide ?P] => destruct (decide P) end); congruence.
  - rewrite dir_exists_added, bool_decide_eq_true_2 by reflexivity. cbn [orb]. f_equal.
    apply map_eq. intros p. rewrite !lookup_insert.
    repeat (match goal with |- context [decide ?P] => destruct (decide P) end); congruence.
Qed.


(** X14: for a plain directory name, with the output root there and
    nothing in the way, storing twice under one id overwrites: the second
    call returns the same locations, and the state is the one the second
    call alone would have produced. *)
Theorem save_results_overwrites (self : LiverSegmentationInference (F:=F)) (id : string)
    (mask1 mask2 : ndarray F) (c1 c2 : contours) (m1 m2 : gmap string pyval) (st : State) :
  plain_name id = true ->
  dir_exists st (output_dir self) = true ->
  store_free st self id = true ->
  exists paths st1 st2,
    save_results self id mask1 c1 m1 st = (Ok paths, st1)
    /\ save_results self id mask2 c2 m2 st1 = (Ok paths, st2)
    /\ save_results self id mask2 c2 m2 st = (Ok paths, st2)
    /\ files st2 !! result_file self id "mask.npy" = Some (NpyFile mask2)
    /\ files st2 !! result_file self id "contours.json" = Some (JsonContours c2)
    /\ files st2 !! result_file self id "metrics.json" = Some (JsonDict m2).
Proof.
  intros Hplain Hout Hfree.
  assert (Hpar : dir_exists st (path_parent (result_dir self id)) = true).
  { rewrite (result_dir_plain self id Hplain), path_parent_join. exact Hout. }
  pose proof (save_results_eq self id mask1 c1 m1 st Hpar Hfree) as H1.
  set (st1 := stored self id mask1 c1 m1 st) in *.
  assert (Hrd1 : dir_exists st1 (result_dir self id) = true).
  { subst st1. rewrite stored_dirs, bool_decide_eq_true_2 by reflexivity. reflexivity. }
  assert (Hpar1 : dir_exists st1 (path_parent (result_dir self id)) = true).
  { subst st1. rewrite stored_dirs, Hpar. apply orb_true_r. }
  assert (Hfree1 : store_free st1 self id = true).
  { apply store_free_spec in Hfree as (_ & Hm & Hc & Hj). apply store_free_spec.
    split; [left; exact Hrd1|]. subst st1. rewrite !stored_dirs, Hm, Hc, Hj.
    unfold result_file.
    rewrite !bool_decide_eq_false_2 by apply path_join_ne_self. auto. }
  pose proof (save_results_eq self id mask2 c2 m2 st1 Hpar1 Hfree1) as H2.
  pose proof (save_results_eq self id mask2 c2 m2 st Hpar Hfree) as H3.
  destruct (result_files_distinct self id) as (Hmc & Hmm & Hcm).
  eexists _, st1, _. split; [exact H1|]. split; [exact H2|]. split.
  - rewrite H3. f_equal. subst st1. symmetry. apply stored_twice.
  - apply stored_files.
Qed.

End StoreFacts.


Lemma save_results_overwrites_witness :
  plain_name "seg_0" = true
  /\ dir_exists demo_state (output_dir demo_pipeline) = true
  /\ store_free demo_state demo_pipeline "seg_0" = true
  /\ exists paths st1 st2,
       save_results demo_pipeline "seg_0" mask_3x1x2 (Contours "json" []) ∅ demo_state
       = (Ok paths, st1)
       /\ save_results demo_pipeline "seg_0" zeros_2x2x2 (Contours "json" []) ∅ st1
          = (Ok paths, st2)
       /\ files st2 !! result_file demo_pipeline "seg_0" "mask.npy"
          = Some (NpyFile zeros_2x2x2).
Proof.
  assert (Hplain : plain_name "seg_0" = true) by (vm_compute; reflexivity).
  assert (Hout : dir_exists demo_state (output_dir demo_pipeline) = true)
    by (vm_compute; reflexivity).
  assert (Hfree : store_free demo_state demo_pipeline "seg_0" = true)
    by (vm_compute; reflexivity).
  split; [exact Hplain|]. split; [exact Hout|]. split; [exact Hfree|].
  destruct (save_results_overwrites demo_pipeline "seg_0" mask_3x1x2 zeros_2x2x2
              (Contours "json" []) (Contours "json" []) ∅ ∅ demo_state Hplain Hout Hfree)
    as (paths & st1 & st2 & H1 & H2 & _ & Hm & _).
  exists paths, st1, st2. split; [exact H1|]. split; [exact H2|exact Hm].
Defined.


Section RunFacts.
Context {F : Type} {ops : FloatOps F}.

(** [segment_from_numpy], written out stage by stage. *)
Lemma segment_from_numpy_run (env : PipelineEnv (F:=F)) (self : LiverSegmentationInference)
    (volume : ndarray F) (spacing : pyval) (st : State) :
  segment_from_numpy env self volume spacing st
  = match model_predict env (normalize_hounsfield_units volume (lit 40) (lit 400)) with
    | Raise e => (Raise e, tick st)
    | Ok raw =>
        let mask := postprocess_mask raw 1000 in
        match calculate_volume_metrics mask {["spacing" := spacing]} with
        | Raise e => (Raise e, tick st)
        | Ok metrics =>
            match extract_contours mask None with
            | Raise e => (Raise e, tick st)
            | Ok contours =>
                (Ok (numpy_result mask contours metrics
                       (elapsed_ms (clock env (ticks st)) (clock env (S (ticks st))))),
                 tick (tick st))
            end
        end
    end.
Proof.
  unfold segment_from_numpy, bind, lift, ret, time_time. cbn [ticks uuid_draws dirs files].
  fold (tick st).
  destruct (model_predict env _) as [raw|e]; [|reflexivity].
  destruct (calculate_volume_metrics _ _) as [metrics|e]; [|reflexivity].
  destruct (extract_contours _ _) as [contours|e]; reflexivity.
Qed.

(** [segment_from_dicom], written out stage by stage. *)
Lemma segment_from_dicom_run (env : PipelineEnv (F:=F)) (self : LiverSegmentationInference)
    (dicom_path : path) (ground_truth : option (ndarray F)) (st : State) :
  segment_from_dicom env self dicom_path ground_truth st
  = match load_dicom (loader_env env) (preprocessor self) dicom_path with
    | Raise e => (Raise e, tick st)
    | Ok (volume, metadata) =>
        match model_predict env volume with
        | Raise e => (Raise e, tick (tick st))
        | Ok raw =>
            let mask := postprocess_mask raw 1000 in
            let st3 := tick (tick (tick st)) in
            match match ground_truth with
                  | Some gt => calculate_all_metrics gt mask default_spacing
                  | None => calculate_volume_metrics mask metadata
                  end with
            | Raise e => (Raise e, st3)
            | Ok metrics =>
                match extract_contours mask None with
                | Raise e => (Raise e, st3)
                | Ok contours =>
                    let result_id := next_result_id env st3 in
                    match save_results self result_id mask contours metrics (draw st3) with
                    | (Raise e, st4) => (Raise e, st4)
                    | (Ok output_paths, st4) =>
                        (Ok (dicom_result result_id mask contours metrics
                               (elapsed_ms (clock env (S (ticks st)))
                                           (clock env (S (S (ticks st)))))
                               (elapsed_ms (clock env (ticks st)) (clock env (ticks st4)))
                               output_paths metadata),
                         tick st4)
                    end
                end
            end
        end
    end.
Proof.
  unfold segment_from_dicom, bind, lift, ret, time_time, generate_result_id.
  cbn [ticks uuid_draws dirs files]. fold (tick st).
  destruct (load_dicom _ _ _) as [[volume metadata]|e]; [|reflexivity].
  cbn [ticks uuid_draws dirs files]. fold (tick (tick st)).
  destruct (model_predict env volume) as [raw|e]; [|reflexivity].
  cbn [ticks uuid_draws dirs files tick]. 
  destruct (match ground_truth with Some _ => _ | None => _ end) as [metrics|e]; [|reflexivity].
  destruct (extract_contours _ _) as [contours|e]; [|reflexivity].
  unfold next_result_id, draw, tick. cbn [ticks uuid_draws dirs files].
  destruct (save_results _ _ _ _ _ _) as [[paths|e] st4]; reflexivity.
Qed.

(** X15: [segment_from_numpy] never touches the output tree and draws no
    id, whether it returns or raises; it reads the clock once or twice. *)
Theorem segment_from_numpy_writes_nothing (env : PipelineEnv (F:=F))
    (self : LiverSegmentationInference) (volume : ndarray F) (spacing : pyval)
    (st : State) :
  let st' := (segment_from_numpy env self volume spacing st).2 in
  files st' = files st /\ dirs st' = dirs st /\ uuid_draws st' = uuid_draws st
  /\ (ticks st < ticks st' <= ticks st + 2)%nat.
Proof.
  rewrite segment_from_numpy_run.
  destruct (model_predict env _) as [raw|e]; [|cbn; repeat split; lia].
  cbv zeta. destruct (calculate_volume_metrics _ _) as [metrics|e]; [|cbn; repeat split; lia].
  destruct (extract_contours _ _) as [contours|e]; cbn; repeat split; lia.
Qed.

(** X16: when [segment_from_dicom] returns, the three stored files hold the
    very mask, slice summary and metrics of the returned dictionary, under
    the returned id, and the returned locations are those of these files;
    the mask is binary and the summary is the one of that mask; the call
    has read the clock four times and drawn one id. *)
Theorem segment_from_dicom_persists_result (env : PipelineEnv (F:=F))
    (self : LiverSegmentationInference) (dicom_path : path)
    (ground_truth : option (ndarray F)) (st st' : State) (r : gmap string resval) :
  segment_from_dicom env self dicom_path ground_truth st = (Ok r, st') ->
  exists id mask c m ti tt md,
    r = dicom_result id mask c m ti tt
          (<["metrics_json" := path_str (result_file self id "metrics.json")]>
          (<["contours_json" := path_str (result_file self id "contours.json")]>
          (<["mask_npy" := path_str (result_file self id "mask.npy")]> ∅))) md
    /\ id = next_result_id env st
    /\ files st' !! result_file self id "mask.npy" = Some (NpyFile mask)
    /\ files st' !! result_file self id "contours.json" = Some (JsonContours c)
    /\ files st' !! result_file self id "metrics.json" = Some (JsonDict m)
    /\ is_binary mask
    /\ extract_contours mask None = Ok c
    /\ ticks st' = (ticks st + 4)%nat
    /\ uuid_draws st' = S (uuid_draws st).
Proof.
  rewrite segment_from_dicom_run.
  destruct (load_dicom _ _ _) as [[volume metadata]|e]; [|discriminate].
  destruct (model_predict env volume) as [raw|e]; [|discriminate].
  cbv zeta.
  destruct (match ground_truth with Some _ => _ | None => _ end) as [metrics|e];
    [|discriminate].
  destruct (extract_contours _ _) as [contours|e] eqn:Hc; [|discriminate].
  set (st3 := tick (tick (tick st))).
  destruct (save_results self (next_result_id env st3) (postprocess_mask raw 1000)
              contours metrics (draw st3)) as [[paths|e] st4] eqn:Hs; [|discriminate].
  apply save_results_ok_inv in Hs as [-> ->].
  intros H. injection H as <- <-.
  eexists _, _, _, _, _, _, _. split; [reflexivity|].
  split; [reflexivity|]. cbn [files tick].
  destruct (stored_files self (next_result_id env st3) (postprocess_mask raw 1000)
              contours metrics (draw st3)) as (Hfm & Hfc & Hfj).
  split; [exact Hfm|]. split; [exact Hfc|]. split; [exact Hfj|].
  split; [apply postprocess_mask_binary|]. split; [exact Hc|].
  cbn. split; [lia|reflexivity].
Qed.

(** X17: what a [segment_from_dicom] call that raises leaves behind.  A
    failure of the loader is passed on after one clock reading.  A
    failure before the result is stored, that is before an id is drawn,
    leaves every file and directory as it was.  A failure while storing
    is the one [save_results] raised, and there is no roll-back: the
    result directory, [mask.npy] and [contours.json] stay if they were
    written before the step that failed; nothing else changes. *)
Theorem segment_from_dicom_failure_leftovers (env : PipelineEnv (F:=F))
    (self : LiverSegmentationInference) (dicom_path : path)
    (ground_truth : option (ndarray F)) (st st' : State) (e : exn) :
  segment_from_dicom env self dicom_path ground_truth st = (Raise e, st') ->
  (forall e', load_dicom (loader_env env) (preprocessor self) dicom_path = Raise e' ->
      e = e' /\ st' = tick st)
  /\ (uuid_draws st' = uuid_draws st -> same_output_tree st st')
  /\ (uuid_draws st' <> uuid_draws st ->
      exists mask c m,
        save_results self (next_result_id env st) mask c m (draw (tick (tick (tick st))))
        = (Raise e, st')
        /\ (dirs st' = dirs st
            \/ dirs st' = {[result_dir self (next_result_id env st)]} ∪ dirs st)
        /\ (files st' = files st
            \/ files st'
               = <[result_file self (next_result_id env st) "mask.npy" := NpyFile mask]>
                   (files st)
            \/ files st'
               = <[result_file self (next_result_id env st) "contours.json"
                     := JsonContours c]>
                   (<[result_file self (next_result_id env st) "mask.npy" := NpyFile mask]>
                      (files st)))).
Proof.
  rewrite segment_from_dicom_run. unfold same_output_tree.
  destruct (load_dicom _ _ _) as [[volume metadata]|e0].
  2:{ intros H. injection H as <- <-. split.
      - intros e' He'. injection He' as <-. split; reflexivity.
      - split; [split; reflexivity|]. intros Hne. exfalso. apply Hne. reflexivity. }
  intros H. split; [intros e' He'; discriminate He'|].
  destruct (model_predict env volume) as [raw|e1].
  2:{ injection H as _ <-. split; [split; reflexivity|].
      intros Hne. exfalso. apply Hne. reflexivity. }
  cbv zeta in H.
  destruct (match ground_truth with Some _ => _ | None => _ end) as [metrics|e2].
  2:{ injection H as _ <-. split; [split; reflexivity|].
      intros Hne. exfalso. apply Hne. reflexivity. }
  destruct (extract_contours _ _) as [contours|e3].
  2:{ injection H as _ <-. split; [split; reflexivity|].
      intros Hne. exfalso. apply Hne. reflexivity. }
  change (next_result_id env (tick (tick (tick st)))) with (next_result_id env st) in H.
  destruct (save_results self (next_result_id env st) (postprocess_mask raw 1000)
              contours metrics (draw (tick (tick (tick st))))) as [[paths|e4] st4] eqn:Hs;
    [discriminate H|].
  injection H as <- <-.
  destruct (save_results_raise_inv _ _ _ _ _ _ _ _ Hs) as (_ & Hu & Hdirs & Hfiles).
  split.
  - intros Hsame. exfalso. rewrite Hu in Hsame. cbn in Hsame. lia.
  - intros _. exists (postprocess_mask raw 1000), contours, metrics.
    split; [exact Hs|]. split; [exact Hdirs|exact Hfiles].
Qed.
End RunFacts.

Lemma segment_from_dicom_persists_result_witness :
  exists r st' id mask,
    demo_dicom_run None = (Ok r, st')
    /\ r !! "result_id" = Some (RStr id)
    /\ r !! "mask" = Some (RArray mask)
    /\ files st' !! result_file demo_pipeline id "mask.npy" = Some (NpyFile mask).
Proof.
  destruct (demo_dicom_run_returns None (or_introl eq_refl)) as (r & st' & E).
  pose proof (segment_from_dicom_persists_result demo_env demo_pipeline ["scan.dcm"]
                None demo_state st' r) as Hthm.
  pose proof (Hthm E) as (id & mask & c & m & ti & tt & md & -> & _ & Hmask & _).
  eexists _, st', id, mask. split; [exact E|].
  split; [reflexivity|]. split; [reflexivity|exact Hmask].
Defined.

Lemma segment_from_dicom_failure_leftovers_witness :
  exists st' mask,
    segment_from_dicom demo_env demo_pipeline ["scan.dcm"] None blocked_state
    = (Raise IsADirectoryError, st')
    /\ uuid_draws st' <> uuid_draws blocked_state
    /\ files blocked_state = ∅
    /\ files st'
       = <[result_file demo_pipeline (next_result_id demo_env blocked_state) "mask.npy"
             := NpyFile mask]> (files blocked_state).
Proof.
  assert (He : (segment_from_dicom demo_env demo_pipeline ["scan.dcm"] None blocked_state).1
               = Raise IsADirectoryError) by (vm_compute; reflexivity).
  assert (Hu : uuid_draws
                 (segment_from_dicom demo_env demo_pipeline ["scan.dcm"] None blocked_state).2
               = 1%nat) by (vm_compute; reflexivity).
  assert (Hf : is_regular_file
                 (segment_from_dicom demo_env demo_pipeline ["scan.dcm"] None blocked_state).2
                 (result_file demo_pipeline (next_result_id demo_env blocked_state) "mask.npy")
               = true) by (vm_compute; reflexivity).
  assert (Hc : is_regular_file
                 (segment_from_dicom demo_env demo_pipeline ["scan.dcm"] None blocked_state).2
                 (result_file demo_pipeline (next_result_id demo_env blocked_state)
                    "contours.json")
               = false) by (vm_compute; reflexivity).
  destruct (segment_from_dicom demo_env demo_pipeline ["scan.dcm"] None blocked_state)
    as [[r|e] st'] eqn:Hrun; [discriminate He|].
  cbn [fst snd] in He, Hu, Hf, Hc. injection He as ->.
  assert (Hne : uuid_draws st' <> uuid_draws blocked_state) by (rewrite Hu; discriminate).
  destruct (proj2 (proj2 (segment_from_dicom_failure_leftovers demo_env demo_pipeline
                            ["scan.dcm"] None blocked_state st' IsADirectoryError Hrun)) Hne)
    as (mask & c & m & _ & _ & Hfiles).
  exists st', mask. split; [reflexivity|]. split; [exact Hne|]. split; [reflexivity|].
  destruct Hfiles as [Hfiles|[Hfiles|Hfiles]].
  - exfalso. unfold is_regular_file in Hf. rewrite Hfiles in Hf.
    apply bool_decide_eq_true in Hf. destruct Hf as [x Hx].
    change (files blocked_state) with (∅ : gmap path (file_content (F:=xfloat))) in Hx.
    rewrite lookup_empty in Hx. discriminate Hx.
  - exact Hfiles.
  - exfalso. unfold is_regular_file in Hc. rewrite Hfiles in Hc.
    apply bool_decide_eq_false in Hc. apply Hc. rewrite lookup_insert_eq. eauto.
Defined.

(** ** Timing *)

Lemma xtrunc_nonneg_floor (q : Qc) : (0 ≤ q)%Qc -> xtrunc (Fin q) = Qfloor q.
Proof.
  intros Hq. unfold xtrunc, Qfloor. destruct q as [[n d] Hcanon]. cbn [this Qnum Qden] in *.
  apply Z.quot_div_nonneg; [|lia].
  unfold Qcle, Qle in Hq. cbn [this Qnum Qden] in Hq.
  change (Qnum 0%Qc) with 0%Z in Hq. change (QDen 0%Qc) with 1%Z in Hq. lia.
Qed.

Lemma xtrunc_monotone (x y : Qc) :
  (0 ≤ x)%Qc -> (x ≤ y)%Qc -> (0 <= xtrunc (Fin x) <= xtrunc (Fin y))%Z.
Proof.
  intros Hx Hxy.
  rewrite (xtrunc_nonneg_floor x Hx), (xtrunc_nonneg_floor y) by (etrans; eassumption).
  split.
  - change 0%Z with (Qfloor 0). apply Qfloor_resp_le. exact Hx.
  - apply Qfloor_resp_le. exact Hxy.
Qed.

Lemma xelapsed_ms (a b : Qc) :
  elapsed_ms (Fin a) (Fin b) = xtrunc (Fin ((b - a) * Q2Qc 1000)%Qc).
Proof. reflexivity. Qed.

Lemma Qc_scaled_difference_le (a b c d : Qc) :
  (a ≤ b)%Qc -> (b ≤ c)%Qc -> (c ≤ d)%Qc ->
  (0 ≤ (c - b) * Q2Qc 1000)%Qc /\ ((c - b) * Q2Qc 1000 ≤ (d - a) * Q2Qc 1000)%Qc.
Proof.
  intros Hab Hbc Hcd.
  assert (Hk : (0 ≤ Q2Qc 1000)%Qc) by (apply Qclt_le_weak; reflexivity).
  split.
  - apply Qcmult_nonneg_nonneg; [|exact Hk].
    apply (proj1 (Qcle_minus_iff b c)). exact Hbc.
  - apply Qcmult_le_mono_nonneg_r; [exact Hk|].
    unfold Qcminus. etrans.
    + apply Qcplus_le_mono_r. exact Hcd.
    + apply Qcplus_le_mono_l. apply Qcopp_le_compat. exact Hab.
Qed.

(** X18: with a clock that does not run backwards, the inference time
    [segment_from_dicom] reports is not negative and not above the total
    time it reports. *)
Theorem inference_time_within_total_time (env : PipelineEnv (F:=xfloat))
    (self : LiverSegmentationInference) (dicom_path : path)
    (ground_truth : option (ndarray xfloat)) (st st' : State) (r : gmap string resval) :
  monotone_clock env ->
  segment_from_dicom env self dicom_path ground_truth st = (Ok r, st') ->
  exists ti tt,
    r !! "inference_time_ms" = Some (RInt ti)
    /\ r !! "total_time_ms" = Some (RInt tt)
    /\ (0 <= ti <= tt)%Z.
Proof.
  intros Hclock. rewrite segment_from_dicom_run.
  destruct (load_dicom _ _ _) as [[volume metadata]|e]; [|discriminate].
  destruct (model_predict env volume) as [raw|e]; [|discriminate].
  cbv zeta.
  destruct (match ground_truth with Some _ => _ | None => _ end) as [metrics|e];
    [|discriminate].
  destruct (extract_contours _ _) as [contours|e]; [|discriminate].
  set (st3 := tick (tick (tick st))).
  destruct (save_results self (next_result_id env st3) (postprocess_mask raw 1000)
              contours metrics (draw st3)) as [[paths|e] st4] eqn:Hs; [|discriminate].
  apply save_results_ok_inv in Hs as [-> ->].
  intros H. injection H as <- _. unfold stored. cbn [ticks st3 draw tick].
  eexists _, _. split; [reflexivity|]. split; [reflexivity|].
  subst st3. cbn [ticks draw tick].
  destruct (Hclock (ticks st)) as (a0 & a1 & H0 & H1 & H01).
  destruct (Hclock (S (ticks st))) as (a1' & a2 & H1' & H2 & H12).
  destruct (Hclock (S (S (ticks st)))) as (a2' & a3 & H2' & H3 & H23).
  rewrite H1 in H1'. injection H1' as <-. rewrite H2 in H2'. injection H2' as <-.
  rewrite H0, H1, H2, H3. cbn [xlift2].
  destruct (Qc_scaled_difference_le a0 a1 a2 a3 H01 H12 H23) as [Hnn Hle].
  apply xtrunc_monotone; assumption.
Qed.

Lemma inference_time_within_total_time_witness :
  monotone_clock demo_env
  /\ exists r st' ti tt,
       demo_dicom_run None = (Ok r, st')
       /\ r !! "inference_time_ms" = Some (RInt ti)
       /\ r !! "total_time_ms" = Some (RInt tt)
       /\ (0 <= ti <= tt)%Z.
Proof.
  assert (Hclock : monotone_clock demo_env).
  { intros n. eexists _, _. split; [reflexivity|]. split; [reflexivity|].
    unfold Qcle. cbn [this Q2Qc]. rewrite !Qred_correct.
    unfold Qle. cbn. lia. }
  split; [exact Hclock|].
  destruct (demo_dicom_run_returns None (or_introl eq_refl)) as (r & st' & E).
  pose proof (inference_time_within_total_time demo_env demo_pipeline ["scan.dcm"]
                None demo_state st' r Hclock) as Hthm.
  pose proof (Hthm E) as (ti & tt & Hti & Htt & Hle).
  exists r, st', ti, tt. repeat split; try assumption; lia.
Defined.

(** ** Intensity windowing *)

Lemma xfltb_spec (a b : Qc) : fltb (Fin a) (Fin b) = bool_decide (a < b)%Qc.
Proof. reflexivity. Qed.

Lemma clip1_finite (lo hi q : Qc) :
  (lo ≤ hi)%Qc ->
  exists y, clip1 (Fin lo) (Fin hi) (Fin q) = Fin y
            /\ (lo ≤ y)%Qc /\ (y ≤ hi)%Qc
            /\ ((q ≤ lo)%Qc -> y = lo)
            /\ ((hi ≤ q)%Qc -> y = hi)
            /\ ((lo ≤ q)%Qc -> (q ≤ hi)%Qc -> y = q).
Proof.
  intros Hlh. unfold clip1. rewrite xfltb_spec.
  destruct (bool_decide_reflect (q < lo)%Qc) as [Hq|Hq].
  - rewrite xfltb_spec.
    destruct (bool_decide_reflect (hi < lo)%Qc) as [Hc|_].
    { exfalso. exact (Qclt_not_le _ _ Hc Hlh). }
    exists lo. split; [reflexivity|]. split; [apply Qcle_refl|]. split; [exact Hlh|].
    split; [reflexivity|]. split.
    + intros Hhq. apply Qcle_antisym; [exact Hlh|].
      apply Qclt_le_weak. eapply Qcle_lt_trans; eassumption.
    + intros Hlq. exfalso. exact (Qclt_not_le _ _ Hq Hlq).
  - apply Qcnot_lt_le in Hq. rewrite xfltb_spec.
    destruct (bool_decide_reflect (hi < q)%Qc) as [Hh|Hh].
    + exists hi. split; [reflexivity|]. split; [exact Hlh|]. split; [apply Qcle_refl|].
      split.
      * intros Hql. exfalso. apply (Qclt_not_le _ _ Hh). etrans; eassumption.
      * split; [reflexivity|]. intros _ Hqh. exfalso. exact (Qclt_not_le _ _ Hh Hqh).
    + apply Qcnot_lt_le in Hh.
      exists q. split; [reflexivity|]. split; [exact Hq|]. split; [exact Hh|].
      split; [intros Hql; apply Qcle_antisym; assumption|].
      split; [intros Hhq; apply Qcle_antisym; assumption|reflexivity].
Qed.

(** X19: [clip_hounsfield_units] with finite bounds [min_hu <= max_hu] keeps
    the shape, puts every finite element between the bounds, leaves the
    elements already there as they are, and changes nothing when applied
    a second time. *)
Theorem clip_hounsfield_units_range (volume : ndarray xfloat) (min_hu max_hu : Qc) :
  (min_hu ≤ max_hu)%Qc ->
  let out := clip_hounsfield_units volume (Fin min_hu) (Fin max_hu) in
  shape out = shape volume
  /\ size out = size volume
  /\ (forall i q, data volume !! i = Some (Fin q) ->
        exists y, data out !! i = Some (Fin y)
                  /\ (min_hu ≤ y)%Qc /\ (y ≤ max_hu)%Qc
                  /\ ((min_hu ≤ q)%Qc -> (q ≤ max_hu)%Qc -> y = q))
  /\ clip_hounsfield_units out (Fin min_hu) (Fin max_hu) = out.
Proof.
  intros Hlh out. subst out. unfold clip_hounsfield_units, np_clip. cbn [shape data].
  split; [reflexivity|]. split; [unfold size; cbn [data]; apply length_map|].
  split.
  - intros i q Hi. change (map ?f ?l) with (f <$> l). rewrite list_lookup_fmap, Hi.
    destruct (clip1_finite min_hu max_hu q Hlh) as (y & Hy & Hly & Hyh & _ & _ & Hin).
    exists y. cbn. rewrite Hy. repeat split; assumption.
  - f_equal. rewrite map_map. apply map_ext. intros x.
    destruct x as [q|]; [|reflexivity].
    destruct (clip1_finite min_hu max_hu q Hlh) as (y & Hy & Hly & Hyh & _).
    rewrite Hy.
    destruct (clip1_finite min_hu max_hu y Hlh) as (y' & Hy' & _ & _ & _ & _ & Hin).
    rewrite Hy'. f_equal. apply Hin; assumption.
Qed.

Lemma clip_hounsfield_units_range_witness :
  (Q2Qc (-200) ≤ Q2Qc 300)%Qc
  /\ clip_hounsfield_units
       (clip_hounsfield_units demo_volume (Fin (Q2Qc (-200))) (Fin (Q2Qc 300)))
       (Fin (Q2Qc (-200))) (Fin (Q2Qc 300))
     = clip_hounsfield_units demo_volume (Fin (Q2Qc (-200))) (Fin (Q2Qc 300)).
Proof.
  assert (H : (Q2Qc (-200) ≤ Q2Qc 300)%Qc) by (apply Qclt_le_weak; reflexivity).
  split; [exact H|].
  exact (proj2 (proj2 (proj2 (clip_hounsfield_units_range demo_volume _ _ H)))).
Defined.

Lemma window_bounds (c w : Qc) :
  Fin c -! (Fin w /! lit 2) = Fin (c - w / Q2Qc 2)%Qc
  /\ Fin c +! (Fin w /! lit 2) = Fin (c + w / Q2Qc 2)%Qc.
Proof. split; reflexivity. Qed.

Lemma window_width_eq (c w : Qc) :
  (c + w / Q2Qc 2 - (c - w / Q2Qc 2))%Qc = w.
Proof.
  assert (Hh : (/ Q2Qc 2 + / Q2Qc 2)%Qc = 1%Qc) by (apply Qc_is_canon; reflexivity).
  unfold Qcdiv.
  transitivity (w * (/ Q2Qc 2 + / Q2Qc 2))%Qc; [ring|].
  rewrite Hh. ring.
Qed.

Lemma normalize_hounsfield_units_shape (volume : ndarray xfloat) (c w : Qc) :
  (0 < w)%Qc ->
  let out := normalize_hounsfield_units volume (Fin c) (Fin w) in
  shape out = shape volume
  /\ size out = size volume
  /\ forall i x, data out !! i = Some x -> is_finite x = true -> in_unit x.
Proof.
  intros Hw out. subst out. unfold normalize_hounsfield_units.
  destruct (window_bounds c w) as [-> ->].
  set (lo := (c - w / Q2Qc 2)%Qc). set (hi := (c + w / Q2Qc 2)%Qc).
  unfold np_clip. cbn [shape data].
  split; [reflexivity|]. split; [unfold size; cbn [data]; rewrite !length_map; reflexivity|].
  intros i x Hi Hfin. rewrite map_map in Hi.
  change (map ?f ?l) with (f <$> l) in Hi. rewrite list_lookup_fmap in Hi.
  destruct (data volume !! i) as [v|]; [|discriminate Hi].
  cbn [fmap option_fmap option_map] in Hi. injection Hi as <-.
  assert (Hwidth : (hi - lo)%Qc = w) by apply window_width_eq.
  assert (Hlh : (lo ≤ hi)%Qc).
  { apply (proj2 (Qcle_minus_iff lo hi)). change (hi + - lo)%Qc with (hi - lo)%Qc.
    rewrite Hwidth. apply Qclt_le_weak, Hw. }
  destruct v as [q|].
  2:{ exfalso. revert Hfin. unfold clip1. cbn. discriminate. }
  clear Hfin.
  destruct (clip1_finite lo hi q Hlh) as (y & Hy & Hly & Hyh & _).
  rewrite Hy. cbn [xlift2]. rewrite Hwidth, xdiv_pos by exact Hw.
  assert (Hnn : (0 ≤ y - lo)%Qc) by (apply (proj1 (Qcle_minus_iff lo y)); exact Hly).
  assert (Hle : (y - lo ≤ w)%Qc).
  { rewrite <- Hwidth. unfold Qcminus. apply Qcplus_le_mono_r. exact Hyh. }
  destruct (Qc_div_pos_le_1 (y - lo) w Hnn Hle Hw) as [H0 H1].
  exists ((y - lo) / w)%Qc. repeat split; assumption.
Qed.

(** X20: [normalize_hounsfield_units] with a finite window of positive
    width keeps the shape and maps every finite element into [0, 1]:
    to 0 at and below the lower end of the window, to 1 at and above the
    upper end, and linearly in between. *)
Theorem normalize_hounsfield_units_range (volume : ndarray xfloat) (c w : Qc) :
  (0 < w)%Qc ->
  let out := normalize_hounsfield_units volume (Fin c) (Fin w) in
  let lo := (c - w / Q2Qc 2)%Qc in
  let hi := (c + w / Q2Qc 2)%Qc in
  shape out = shape volume
  /\ size out = size volume
  /\ (forall i q, data volume !! i = Some (Fin q) ->
        exists r, data out !! i = Some (Fin r)
                  /\ (0 ≤ r)%Qc /\ (r ≤ 1)%Qc
                  /\ ((q ≤ lo)%Qc -> r = 0%Qc)
                  /\ ((hi ≤ q)%Qc -> r = 1%Qc)
                  /\ ((lo ≤ q)%Qc -> (q ≤ hi)%Qc -> r = ((q - lo) / w)%Qc)).
Proof.
  intros Hw out lo hi. subst out. unfold normalize_hounsfield_units.
  destruct (window_bounds c w) as [-> ->]. fold lo hi.
  unfold np_clip. cbn [shape data].
  split; [reflexivity|]. split; [unfold size; cbn [data]; rewrite !length_map; reflexivity|].
  intros i q Hi. rewrite map_map.
  change (map ?f ?l) with (f <$> l). rewrite list_lookup_fmap, Hi. cbn [fmap option_fmap option_map].
  assert (Hwidth : (hi - lo)%Qc = w) by apply window_width_eq.
  assert (Hlh : (lo ≤ hi)%Qc).
  { apply (proj2 (Qcle_minus_iff lo hi)). change (hi + - lo)%Qc with (hi - lo)%Qc.
    rewrite Hwidth. apply Qclt_le_weak, Hw. }
  destruct (clip1_finite lo hi q Hlh) as (y & Hy & Hly & Hyh & Hlow & Hhigh & Hin).
  rewrite Hy.
  change (Fin y -! Fin lo) with (Fin (y - lo)%Qc).
  change (Fin hi -! Fin lo) with (Fin (hi - lo)%Qc). rewrite Hwidth.
  change (Fin (y - lo)%Qc /! Fin w) with (xdiv (Fin (y - lo)%Qc) (Fin w)).
  rewrite xdiv_pos by exact Hw.
  exists ((y - lo) / w)%Qc. split; [reflexivity|].
  assert (Hnn : (0 ≤ y - lo)%Qc) by (apply (proj1 (Qcle_minus_iff lo y)); exact Hly).
  assert (Hle : (y - lo ≤ w)%Qc).
  { rewrite <- Hwidth. unfold Qcminus. apply Qcplus_le_mono_r. exact Hyh. }
  destruct (Qc_div_pos_le_1 (y - lo) w Hnn Hle Hw) as [H0 H1].
  split; [exact H0|]. split; [exact H1|].
  split; [|split].
  - intros Hq. rewrite (Hlow Hq). unfold Qcminus. rewrite Qcplus_opp_r.
    unfold Qcdiv. apply Qcmult_0_l.
  - intros Hq. rewrite (Hhigh Hq), Hwidth. apply Qc_div_self, Hw.
  - intros Hq1 Hq2. rewrite (Hin Hq1 Hq2). reflexivity.
Qed.

Lemma normalize_hounsfield_units_range_witness :
  (0 < Q2Qc 400)%Qc
  /\ shape (normalize_hounsfield_units demo_volume (Fin (Q2Qc 40)) (Fin (Q2Qc 400)))
     = shape demo_volume.
Proof.
  assert (H : (0 < Q2Qc 400)%Qc) by reflexivity.
  split; [exact H|].
  exact (proj1 (normalize_hounsfield_units_range demo_volume (Q2Qc 40) (Q2Qc 400) H)).
Defined.

(** ** Loading a series *)

Section SeriesFacts.
Context {F : Type} {ops : FloatOps F}.

Lemma find_dicom_files_ok (env : LoaderEnv (F:=F)) (files acc res : list path) :
  find_dicom_files env files acc = Ok res ->
  res = acc ++ List.filter (header_parses env) files.
Proof.
  revert acc. induction files as [|file rest IH]; intros acc H; cbn in H.
  - injection H as <-. cbn. rewrite app_nil_r. reflexivity.
  - cbn [List.filter]. unfold header_parses at 1.
    destruct (is_file env file); cbn [andb].
    + destruct (dcmread env file true) as [ds|e]; cbn [is_ok].
      * rewrite (IH _ H), <- app_assoc. reflexivity.
      * destruct e; try discriminate H; exact (IH _ H).
    + exact (IH _ H).
Qed.

Lemma load_slices_ok (env : LoaderEnv (F:=F)) (files : list path)
    (acc res : list (ndarray F)) :
  load_slices env files acc = Ok res ->
  exists dss, Forall2 (fun f ds => dcmread env f false = Ok ds) files dss
              /\ res = acc ++ map to_hu dss.
Proof.
  revert acc. induction files as [|file rest IH]; intros acc H; cbn in H.
  - injection H as <-. exists []. split; [constructor|]. cbn. rewrite app_nil_r. reflexivity.
  - destruct (dcmread env file false) as [ds|e] eqn:E; [|discriminate H].
    cbn in H. destruct (IH _ H) as (dss & Hall & ->).
    exists (ds :: dss). split; [constructor; assumption|].
    cbn. rewrite <- app_assoc. reflexivity.
Qed.

Lemma np_stack_ok (sl : list (ndarray F)) (v : ndarray F) :
  np_stack sl = Ok v ->
  exists s0 rest, sl = s0 :: rest /\ shape v = length sl :: shape s0
                  /\ data v = concat (map data sl).
Proof.
  unfold np_stack. destruct sl as [|s0 rest]; [discriminate|].
  destruct (forallb _ _); [|discriminate].
  intros H. injection H as <-. exists s0, rest. repeat split.
Qed.

Lemma to_hu_shape (ds : Dataset (F:=F)) : shape (to_hu ds) = shape (pixel_array ds).
Proof. unfold to_hu. destruct (RescaleSlope ds), (RescaleIntercept ds); reflexivity. Qed.

Lemma to_hu_size (ds : Dataset (F:=F)) : size (to_hu ds) = size (pixel_array ds).
Proof.
  unfold to_hu, size.
  destruct (RescaleSlope ds), (RescaleIntercept ds); cbn [data];
    rewrite ?length_map; reflexivity.
Qed.

Lemma Ok_inj {A} (a b : A) : Ok a = Ok b -> a = b.
Proof. intros H. injection H as H. exact H. Qed.

Lemma except_ImportError_ok {A} (body : result A) (handler : unit -> result A) (x : A) :
  except_ImportError body handler = Ok x ->
  body = Ok x \/ (body = Raise ImportError /\ handler tt = Ok x).
Proof.
  unfold except_ImportError. destruct body as [y|e]; [left; assumption|].
  destruct e; try discriminate. right. split; [reflexivity|assumption].
Qed.

(** X21: a pair returned by [load_dicom_series] is either the synthetic
    fallback or built from the directory: the files kept are the regular
    files whose header parses, in sorted order; there is at least one; the
    metadata are those of the first; and the volume has one slice per
    kept file, each of the shape of the first file's pixel array. *)
Theorem load_dicom_series_volume (env : LoaderEnv (F:=F))
    (self : DicomPreprocessor (F:=F)) (directory : path)
    (volume : ndarray F) (metadata : gmap string pyval) :
  load_dicom_series env self directory = Ok (volume, metadata) ->
  (volume, metadata) = mock_pair env self
  \/ exists first rest ds,
       List.filter (header_parses env) (sorted_children env directory) = first :: rest
       /\ dcmread env first false = Ok ds
       /\ extract_metadata self ds = Ok metadata
       /\ shape volume = S (length rest) :: shape (pixel_array ds).
Proof.
  intros H. unfold load_dicom_series in H.
  apply except_ImportError_ok in H as [H|[_ H]].
  2:{ left. unfold mock_pair. symmetry. apply Ok_inj. exact H. }
  right.
  destruct (import_pydicom env); [|discriminate H]. cbn [rbind] in H.
  destruct (find_dicom_files env (sorted_children env directory) []) as [kept|e] eqn:Ef;
    [|discriminate H].
  cbn [rbind] in H. apply find_dicom_files_ok in Ef. cbn [app] in Ef.
  destruct kept as [|first rest]; [discriminate H|].
  destruct (dcmread env first false) as [ds|e] eqn:Ed; [|discriminate H].
  cbn [rbind] in H.
  destruct (extract_metadata self ds) as [md|e] eqn:Em; [|discriminate H].
  cbn [rbind] in H.
  destruct (load_slices env (first :: rest) []) as [sl|e] eqn:El; [|discriminate H].
  cbn [rbind] in H.
  destruct (np_stack sl) as [v|e] eqn:Es; [|discriminate H].
  cbn [rbind] in H. injection H as <- <-.
  exists first, rest, ds. split; [symmetry; exact Ef|]. split; [exact Ed|].
  split; [exact Em|].
  apply load_slices_ok in El as (dss & Hall & ->). cbn [app] in Es.
  apply np_stack_ok in Es as (s0 & tl & Hsl & Hsh & _).
  unfold normalize_hounsfield_units, np_clip. cbn [shape].
  rewrite Hsh. inversion Hall as [|f d fs dss' Hd Hrest]; subst.
  rewrite Ed in Hd. injection Hd as <-.
  cbn [map] in Hsl. injection Hsl as <- <-.
  cbn [length map]. rewrite length_map, <- (Forall2_length _ _ _ Hrest), to_hu_shape.
  reflexivity.
Qed.

Lemma find_dicom_files_with_iterdir (env : LoaderEnv (F:=F)) listing files acc :
  find_dicom_files (with_iterdir env listing) files acc = find_dicom_files env files acc.
Proof.
  revert acc. induction files as [|file rest IH]; intros acc; [reflexivity|].
  cbn. destruct (is_file env file); [|apply IH].
  destruct (dcmread env file true) as [ds|e]; [apply IH|].
  destruct e; try reflexivity; apply IH.
Qed.

Lemma load_slices_with_iterdir (env : LoaderEnv (F:=F)) listing files acc :
  load_slices (with_iterdir env listing) files acc = load_slices env files acc.
Proof.
  revert acc. induction files as [|file rest IH]; intros acc; [reflexivity|].
  cbn. destruct (dcmread env file false) as [ds|e]; [apply IH|reflexivity].
Qed.

Lemma create_mock_volume_with_iterdir (env : LoaderEnv (F:=F)) listing sh :
  create_mock_volume (with_iterdir env listing) sh = create_mock_volume env sh.
Proof. destruct sh as [[z h] w]. reflexivity. Qed.

Lemma sorted_children_with_iterdir (env : LoaderEnv (F:=F)) listing directory :
  listing directory ≡ₚ iterdir env directory ->
  sorted_children (with_iterdir env listing) directory = sorted_children env directory.
Proof.
  intros Hp. unfold sorted_children. cbn [iterdir with_iterdir]. f_equal.
  apply (StronglySorted_unique String.le).
  - apply StronglySorted_merge_sort; apply _.
  - apply StronglySorted_merge_sort; apply _.
  - rewrite !merge_sort_Permutation. exact Hp.
Qed.

(** X22: the order in which the file system enumerates a directory does
    not matter to [load_dicom]: with any rearrangement of every listing it
    returns the same volume and metadata, or raises the same exception. *)
Theorem load_dicom_listing_order (env : LoaderEnv (F:=F))
    (self : DicomPreprocessor (F:=F)) (listing : path -> list string) (p : path) :
  (forall d, listing d ≡ₚ iterdir env d) ->
  load_dicom (with_iterdir env listing) self p = load_dicom env self p.
Proof.
  intros Hp. unfold load_dicom. cbn [is_file is_dir with_iterdir].
  assert (Hm : mock_data (with_iterdir env listing) self = mock_data env self).
  { unfold mock_data. rewrite create_mock_volume_with_iterdir. reflexivity. }
  destruct (is_file env p).
  - unfold load_single_dicom. rewrite Hm. reflexivity.
  - destruct (is_dir env p); [|reflexivity].
    unfold load_dicom_series.
    rewrite Hm, (sorted_children_with_iterdir _ _ _ (Hp p)), find_dicom_files_with_iterdir.
    change (import_pydicom (with_iterdir env listing)) with (import_pydicom env).
    destruct (import_pydicom env); [|reflexivity]. cbn [rbind].
    destruct (find_dicom_files env (sorted_children env p) []) as [kept|e]; [|reflexivity].
    cbn [rbind]. destruct kept as [|first rest]; [reflexivity|].
    change (dcmread (with_iterdir env listing)) with (dcmread env).
    rewrite load_slices_with_iterdir. reflexivity.
Qed.

(** X23: [extract_metadata] raises a type error when the slice
    thickness is present without being one number, or the pixel spacing
    is present as an empty or a single value; it raises an index error
    when the pixel spacing is a sequence of fewer than two numbers;
    otherwise the dictionary has the eight keys of the synthetic
    metadata, the absent attributes take their defaults, and entries of
    the pixel spacing after the second are ignored. *)
Theorem extract_metadata_outcomes (self : DicomPreprocessor (F:=F)) (ds : Dataset (F:=F)) :
  match default (DsNumber (lit 1)) (SliceThickness ds),
        default (DsMulti [lit 1; lit 1]) (PixelSpacing ds) with
  | DsNumber thickness, DsMulti (y :: x :: _) =>
      exists md,
        extract_metadata self ds = Ok md
        /\ dom md = metadata_keys
        /\ dom md = dom (create_mock_metadata self)
        /\ md !! "spacing" = Some (PTuple [thickness; y; x])
        /\ md !! "window_center"
           = Some (PFloat (default (window_center self) (WindowCenter ds)))
        /\ md !! "window_width"
           = Some (PFloat (default (window_width self) (WindowWidth ds)))
        /\ md !! "patient_id" = Some (PStr (default "UNKNOWN" (PatientID ds)))
        /\ md !! "modality" = Some (PStr (default "CT" (Modality ds)))
        /\ md !! "rows" = Some (PInt (default 512%Z (Rows ds)))
        /\ md !! "columns" = Some (PInt (default 512%Z (Columns ds)))
  | DsNumber _, DsMulti _ => extract_metadata self ds = Raise IndexError
  | _, _ => extract_metadata self ds = Raise TypeError
  end.
Proof.
  assert (Hdom : forall (a b c d e f g h : pyval (F:=F)),
    dom (<["window_width" := a]> (<["window_center" := b]> (<["spacing" := c]>
        (<["columns" := d]> (<["rows" := e]> (<["modality" := f]>
        (<["study_date" := g]> (<["patient_id" := h]> (∅ : gmap string pyval)))))))))
    = metadata_keys).
  { intros. rewrite !dom_insert_L, dom_empty_L. unfold metadata_keys. set_solver. }
  unfold extract_metadata, getattr.
  destruct (default (DsNumber (lit 1)) (SliceThickness ds)) as [|thickness|lt];
    destruct (default (DsMulti [lit 1; lit 1]) (PixelSpacing ds)) as [|p|[|y [|x tl]]];
    cbn [py_float subscript py_index lookup list_lookup rbind]; try reflexivity.
  eexists. split; [reflexivity|]. split; [apply Hdom|].
  split; [unfold create_mock_metadata; rewrite !Hdom; reflexivity|].
  repeat split;
    repeat (first [ rewrite lookup_insert_eq; reflexivity
                  | rewrite lookup_insert_ne by discriminate ]).
Qed.

End SeriesFacts.

(** ** The synthetic volume and the single-file loader *)

Lemma clip1_unit (q : Qc) :
  exists y, clip1 (of_Z 0) (of_Z 1) (Fin q) = Fin y
            /\ (0 ≤ y)%Qc /\ (y ≤ 1)%Qc
            /\ ((0 ≤ q)%Qc -> (q ≤ 1)%Qc -> y = q)
            /\ ((1 ≤ q)%Qc -> y = 1%Qc).
Proof.
  assert (H01 : (0 ≤ 1)%Qc) by (apply Qclt_le_weak; reflexivity).
  change (of_Z 0) with (Fin (Qc_of_Z 0)). change (of_Z 1) with (Fin (Qc_of_Z 1)).
  rewrite Z2Qc_inj_0, Z2Qc_inj_1.
  destruct (clip1_finite 0 1 q H01) as (y & Hy & H0 & H1 & _ & Hhi & Hin).
  exists y. split; [exact Hy|]. repeat split; assumption.
Qed.

(** X24: [create_mock_volume] has the requested shape; every finite draw
    ends up between 0 and 1, and a draw already in that range is never
    darkened and brightened by at most 0.2. *)
Theorem create_mock_volume_range (env : LoaderEnv (F:=xfloat)) (z h w : nat) :
  let out := create_mock_volume env (z, h, w) in
  shape out = [z; h; w]
  /\ size out = length (random_normal env [z; h; w])
  /\ forall i q, random_normal env [z; h; w] !! i = Some (Fin q) ->
       exists r, data out !! i = Some (Fin r)
                 /\ (0 ≤ r)%Qc /\ (r ≤ 1)%Qc
                 /\ ((0 ≤ q)%Qc -> (q ≤ 1)%Qc ->
                     (q ≤ r)%Qc /\ (r ≤ q + Q2Qc (2 # 10))%Qc).
Proof.
  intros out. subst out. unfold create_mock_volume, np_clip. cbn [shape data].
  split; [reflexivity|].
  split.
  { unfold size. cbn [data]. rewrite length_map, length_imap, length_map. reflexivity. }
  intros i q Hi.
  change (map ?f ?l) with (f <$> l).
  rewrite list_lookup_fmap, list_lookup_imap, list_lookup_fmap, Hi.
  cbn [fmap option_fmap option_map].
  destruct (clip1_unit q) as (y & -> & Hy0 & Hy1 & Hyin & _).
  assert (H02 : (0 ≤ Q2Qc (2 # 10))%Qc) by (apply Qclt_le_weak; reflexivity).
  match goal with |- context [if ?b then _ else _] => destruct b end.
  - change (Fin y +! lit (2 # 10)) with (Fin (y + Q2Qc (2 # 10))%Qc).
    destruct (clip1_unit (y + Q2Qc (2 # 10))%Qc) as (r & -> & Hr0 & Hr1 & Hrin & Hrhi).
    exists r. split; [reflexivity|]. split; [exact Hr0|]. split; [exact Hr1|].
    intros Hq0 Hq1. rewrite (Hyin Hq0 Hq1) in *.
    assert (Hq2 : (q ≤ q + Q2Qc (2 # 10))%Qc).
    { rewrite <- (Qcplus_0_r q) at 1. apply Qcplus_le_compat; [apply Qcle_refl|exact H02]. }
    destruct (Qclt_le_dec 1 (q + Q2Qc (2 # 10))%Qc) as [Hbig|Hsmall].
    + rewrite (Hrhi (Qclt_le_weak _ _ Hbig)). split; [exact Hq1|apply Qclt_le_weak, Hbig].
    + rewrite Hrin; [split; [exact Hq2|apply Qcle_refl]| |exact Hsmall].
      etrans; eassumption.
  - destruct (clip1_unit y) as (r & -> & Hr0 & Hr1 & Hrin & _).
    exists r. split; [reflexivity|]. split; [exact Hr0|]. split; [exact Hr1|].
    intros Hq0 Hq1. rewrite (Hrin Hy0 Hy1), (Hyin Hq0 Hq1).
    split; [apply Qcle_refl|].
    rewrite <- (Qcplus_0_r q) at 1. apply Qcplus_le_compat; [apply Qcle_refl|exact H02].
Qed.

Lemma create_mock_volume_range_witness :
  random_normal series_loader [3; 3; 3]%nat !! 13%nat = Some (Fin (Q2Qc (3 # 10)))
  /\ exists r, data (create_mock_volume series_loader (3, 3, 3)%nat) !! 13%nat = Some (Fin r)
               /\ (0 ≤ r)%Qc /\ (r ≤ 1)%Qc.
Proof.
  assert (H : random_normal series_loader [3; 3; 3]%nat !! 13%nat
              = Some (Fin (Q2Qc (3 # 10)))) by reflexivity.
  split; [exact H|].
  destruct (proj2 (proj2 (create_mock_volume_range series_loader 3 3 3)) 13%nat _ H)
    as (r & Hr & H0 & H1 & _).
  exists r. repeat split; assumption.
Defined.

Section SingleFile.
Context {F : Type} {ops : FloatOps F}.

Lemma extract_metadata_raises (self : DicomPreprocessor (F:=F)) (ds : Dataset (F:=F)) e :
  extract_metadata self ds = Raise e -> e = TypeError \/ e = IndexError.
Proof.
  unfold extract_metadata, getattr.
  destruct (default (DsNumber (lit 1)) (SliceThickness ds)) as [|thickness|lt];
    destruct (default (DsMulti [lit 1; lit 1]) (PixelSpacing ds)) as [|p|[|y [|x tl]]];
    cbn [py_float subscript py_index lookup list_lookup rbind];
    intros H; try discriminate H; injection H as <-; auto.
Qed.

Lemma load_single_dicom_cases (env : LoaderEnv (F:=F)) (self : DicomPreprocessor (F:=F))
    (file_path : path) :
  load_single_dicom env self file_path =
  if pydicom_available env then
    match dcmread env file_path false with
    | Ok ds =>
        match extract_metadata self ds with
        | Ok md =>
            Ok (normalize_hounsfield_units (to_hu ds) (window_center self)
                  (window_width self), md)
        | Raise e => Raise e
        end
    | Raise ImportError => Ok (mock_pair env self)
    | Raise e => Raise e
    end
  else Ok (mock_pair env self).
Proof.
  unfold load_single_dicom, import_pydicom, except_ImportError, mock_data, mock_pair.
  destruct (pydicom_available env); [|reflexivity]. cbn [rbind].
  destruct (dcmread env file_path false) as [ds|e]; cbn [rbind].
  - destruct (extract_metadata self ds) as [md|e] eqn:E; cbn [rbind]; [reflexivity|].
    destruct (extract_metadata_raises _ _ _ E) as [-> | ->]; reflexivity.
  - destruct e; reflexivity.
Qed.
End SingleFile.

(** X25: what [load_single_dicom] returns.  Without the imaging backend,
    or when reading the file raises [ImportError], it is the synthetic
    pair; any other exception of the reader, and the type or index error
    of the metadata, is passed on; otherwise the metadata are those of
    the file and the volume has the shape of the pixel array with every
    element that is a number between 0 and 1. *)
Theorem load_single_dicom_outcomes (env : LoaderEnv (F:=xfloat))
    (self : DicomPreprocessor (F:=xfloat)) (file_path : path) (c w : Qc) :
  window_center self = Fin c -> window_width self = Fin w -> (0 < w)%Qc ->
  if pydicom_available env then
    match dcmread env file_path false with
    | Ok ds =>
        match extract_metadata self ds with
        | Ok md =>
            exists volume,
              load_single_dicom env self file_path = Ok (volume, md)
              /\ shape volume = shape (pixel_array ds)
              /\ size volume = size (pixel_array ds)
              /\ forall i x, data volume !! i = Some x -> is_finite x = true -> in_unit x
        | Raise e =>
            (e = TypeError \/ e = IndexError)
            /\ load_single_dicom env self file_path = Raise e
        end
    | Raise ImportError => load_single_dicom env self file_path = Ok (mock_pair env self)
    | Raise e => load_single_dicom env self file_path = Raise e
    end
  else load_single_dicom env self file_path = Ok (mock_pair env self).
Proof.
  intros Hc Hw Hpos. rewrite load_single_dicom_cases.
  destruct (pydicom_available env); [|reflexivity].
  destruct (dcmread env file_path false) as [ds|e]; [|destruct e; reflexivity].
  destruct (extract_metadata self ds) as [md|e] eqn:E.
  2:{ split; [exact (extract_metadata_raises _ _ _ E)|reflexivity]. }
  eexists. split; [reflexivity|]. rewrite Hc, Hw.
  destruct (normalize_hounsfield_units_shape (to_hu ds) c w Hpos) as (Hsh & Hsz & Hel).
  split; [rewrite Hsh; apply to_hu_shape|].
  split; [rewrite Hsz; apply to_hu_size|].
  intros i x Hx Hfin. apply (Hel i x Hx Hfin).
Qed.

Lemma load_single_dicom_outcomes_witness :
  window_center (default_preprocessor (F:=xfloat)) = Fin (Q2Qc 40)
  /\ window_width (default_preprocessor (F:=xfloat)) = Fin (Q2Qc 400)
  /\ (0 < Q2Qc 400)%Qc
  /\ exists volume md,
       load_single_dicom (demo_loader true) default_preprocessor ["scan.dcm"]
       = Ok (volume, md)
       /\ shape volume = [2; 1; 2]%nat.
Proof.
  assert (Hc : window_center (default_preprocessor (F:=xfloat)) = Fin (Q2Qc 40))
    by reflexivity.
  assert (Hw : window_width (default_preprocessor (F:=xfloat)) = Fin (Q2Qc 400))
    by reflexivity.
  assert (Hp : (0 < Q2Qc 400)%Qc) by reflexivity.
  split; [exact Hc|]. split; [exact Hw|]. split; [exact Hp|].
  pose proof (load_single_dicom_outcomes (demo_loader true) default_preprocessor
                ["scan.dcm"] _ _ Hc Hw Hp) as H.
  cbn [pydicom_available demo_loader] in H.
  change (dcmread (demo_loader true) ["scan.dcm"] false) with (Ok demo_dataset) in H.
  cbv iota beta in H.
  assert (E : is_ok (extract_metadata default_preprocessor demo_dataset) = true)
    by (vm_compute; reflexivity).
  destruct (extract_metadata default_preprocessor demo_dataset) as [md|e].
  - destruct H as (volume & Hl & Hsh & _). exists volume, md. split; [exact Hl|exact Hsh].
  - discriminate E.
Defined.

(** ** Batches *)

Section Batch.
Context {F : Type} {ops : FloatOps F}.

(** X26: [predict_batch] returns one mask per volume, in order, each the
    one [predict] gives; it raises exactly when some volume fails, with
    the exception of the first that does, and then returns no mask. *)
Theorem predict_batch_outcomes (forward : ndarray F -> result (ndarray F))
    (volumes : list (ndarray F)) :
  (forall masks,
     predict_batch forward volumes = Ok masks
     <-> Forall2 (fun v m => predict forward v = Ok m) volumes masks)
  /\ (forall e,
     predict_batch forward volumes = Raise e
     <-> exists done v rest,
           volumes = done ++ v :: rest
           /\ Forall (fun v => is_ok (predict forward v) = true) done
           /\ predict forward v = Raise e).
Proof.
  induction volumes as [|vol rest [IHok IHerr]].
  - split.
    + intros masks. cbn. split.
      * intros H. injection H as <-. constructor.
      * intros H. inversion H. reflexivity.
    + intros e. cbn. split; [discriminate|].
      intros (done & v & tl & H & _). destruct done; discriminate H.
  - split.
    + intros masks. cbn [predict_batch].
      destruct (predict forward vol) as [m|e] eqn:Ev; cbn [rbind].
      * destruct (predict_batch forward rest) as [ms|e] eqn:Er; cbn [rbind].
        -- split.
           ++ intros H. injection H as <-. constructor; [exact Ev|].
              apply (proj1 (IHok ms) eq_refl).
           ++ intros H. inversion H as [|v0 m0 vs ms0 Hm Hrest]; subst.
              rewrite Ev in Hm. injection Hm as <-.
              apply (proj2 (IHok _)) in Hrest. injection Hrest as <-. reflexivity.
        -- split; [discriminate|].
           intros H. inversion H as [|v0 m0 vs ms0 Hm Hrest]; subst.
           apply (proj2 (IHok _)) in Hrest. discriminate Hrest.
      * split; [discriminate|].
        intros H. inversion H as [|v0 m0 vs ms0 Hm Hrest]; subst.
        rewrite Ev in Hm. discriminate Hm.
    + intros e. cbn [predict_batch].
      destruct (predict forward vol) as [m|e'] eqn:Ev; cbn [rbind].
      * destruct (predict_batch forward rest) as [ms|e'] eqn:Er; cbn [rbind].
        -- split; [discriminate|].
           intros (done & v & tl & Hv & Hdone & Hfail).
           destruct done as [|d done]; cbn in Hv; injection Hv as <- ->.
           ++ rewrite Ev in Hfail. discriminate Hfail.
           ++ apply Forall_cons in Hdone as [_ Hdone].
              assert (Ok ms = Raise e) as Habs; [|discriminate Habs].
              apply (proj2 (IHerr e)). exists done, v, tl. repeat split; assumption.
        -- split.
           ++ intros H. injection H as ->.
              destruct (proj1 (IHerr e) eq_refl) as (done & v & tl & -> & Hdone & Hfail).
              exists (vol :: done), v, tl. split; [reflexivity|].
              split; [|exact Hfail]. constructor; [rewrite Ev; reflexivity|exact Hdone].
           ++ intros (done & v & tl & Hv & Hdone & Hfail).
              destruct done as [|d done]; cbn in Hv; injection Hv as <- ->.
              ** rewrite Ev in Hfail. discriminate Hfail.
              ** apply Forall_cons in Hdone as [_ Hdone].
                 apply (proj2 (IHerr e)). exists done, v, tl. repeat split; assumption.
      * split.
        -- intros H. injection H as ->. exists [], vol, rest. repeat split; [constructor|exact Ev].
        -- intros (done & v & tl & Hv & Hdone & Hfail).
           destruct done as [|d done]; cbn in Hv; injection Hv as <- ->.
           ++ rewrite Ev in Hfail. injection Hfail as ->. reflexivity.
           ++ apply Forall_cons in Hdone as [Hd _]. rewrite Ev in Hd. discriminate Hd.
Qed.
End Batch.

Lemma metrics_of_identical_masks_witness :
  data demo_volume <> [] /\ calculate_pixel_accuracy demo_volume demo_volume = lit 1.
Proof.
  assert (H : data demo_volume <> []) by discriminate.
  split; [exact H|].
  exact (proj1 (proj2 (proj2 (proj2 (proj2 (metrics_of_identical_masks demo_volume))))) H).
Defined.

Lemma postprocess_mask_contract_witness :
  data demo_volume !! 0%nat = Some (xq 100)
  /\ data (postprocess_mask demo_volume 1000) !! 0%nat
     = Some (if fltb (lit (1 # 2)) (xq 100) then of_Z 1 else of_Z 0).
Proof.
  assert (H : data demo_volume !! 0%nat = Some (xq 100)) by reflexivity.
  split; [exact H|].
  exact (proj1 (proj2 (proj2 (proj2 (postprocess_mask_contract demo_volume 1000 0))))
           0%nat (xq 100) H).
Defined.

Lemma load_dicom_series_volume_witness :
  exists volume metadata,
    load_dicom_series series_loader default_preprocessor ["series"] = Ok (volume, metadata)
    /\ ((volume, metadata) = mock_pair series_loader default_preprocessor
        \/ exists first rest ds,
             List.filter (header_parses series_loader)
               (sorted_children series_loader ["series"]) = first :: rest
             /\ dcmread series_loader first false = Ok ds
             /\ extract_metadata default_preprocessor ds = Ok metadata
             /\ shape volume = S (length rest) :: shape (pixel_array ds)).
Proof.
  assert (E : is_ok (load_dicom_series series_loader default_preprocessor ["series"]) = true)
    by (vm_compute; reflexivity).
  destruct (load_dicom_series series_loader default_preprocessor ["series"])
    as [[volume metadata]|e] eqn:H; [|discriminate E].
  exists volume, metadata. split; [reflexivity|].
  exact (load_dicom_series_volume series_loader default_preprocessor ["series"]
           volume metadata H).
Defined.

Lemma load_dicom_listing_order_witness :
  let listing := fun d : path =>
    if bool_decide (d = ["series"]) then ["1.dcm"; "2.dcm"; "notes.txt"] else [] in
  (forall d, listing d ≡ₚ iterdir series_loader d)
  /\ load_dicom (with_iterdir series_loader listing) default_preprocessor ["series"]
     = load_dicom series_loader default_preprocessor ["series"].
Proof.
  intros listing.
  assert (H : forall d, listing d ≡ₚ iterdir series_loader d).
  { intros d. subst listing. cbn [iterdir series_loader].
    destruct (bool_decide (d = ["series"])); [|reflexivity].
    apply (Permutation_cons_append ["2.dcm"; "notes.txt"] "1.dcm"). }
  split; [exact H|].
  exact (load_dicom_listing_order series_loader default_preprocessor listing ["series"] H).
Defined.

Lemma predict_batch_outcomes_witness :
  exists masks,
    predict_batch identity_forward [demo_volume; demo_ground_truth] = Ok masks
    /\ Forall2 (fun v m => predict identity_forward v = Ok m)
         [demo_volume; demo_ground_truth] masks.
Proof.
  assert (E : is_ok (predict_batch identity_forward [demo_volume; demo_ground_truth]) = true)
    by (vm_compute; reflexivity).
  destruct (predict_batch identity_forward [demo_volume; demo_ground_truth])
    as [masks|e] eqn:H; [|discriminate E].
  exists masks. split; [reflexivity|].
  exact (proj1 (proj1 (predict_batch_outcomes identity_forward
                         [demo_volume; demo_ground_truth]) masks) H).
Defined.

(** ** Resampling and augmentation *)

Section Resample.
Context {F : Type} {ops : FloatOps F}.

(** X27: [resample_volume] does not resample: whenever it returns, it
    returns the volume it was given.  It returns exactly when both
    spacings have three entries and none of the first three target
    entries is zero; otherwise it raises [IndexError] or
    [ZeroDivisionError]. *)
Theorem resample_volume_outcomes (self : DicomPreprocessor (F:=F)) (volume : ndarray F)
    (current_spacing : list F) (target : option (list F)) :
  let ts := default (target_spacing self) target in
  (forall v, resample_volume self volume current_spacing target = Ok v -> v = volume)
  /\ (forall e, resample_volume self volume current_spacing target = Raise e ->
        e = IndexError \/ e = ZeroDivisionError)
  /\ (is_ok (resample_volume self volume current_spacing target) = true
      <-> (3 <= length current_spacing)%nat /\ (3 <= length ts)%nat
          /\ Forall (fun t => feqb t (of_Z 0) = false) (take 3 ts)).
Proof.
  intros ts. unfold resample_volume.
  change (match target with Some t => t | None => target_spacing self end) with ts.
  generalize ts. clear ts. intros ts.
  split; [|split].
  - intros v. destruct (zoom_factors _ _ _); cbn [rbind]; [|discriminate].
    intros H. injection H as <-. reflexivity.
  - intros e.
    destruct current_spacing as [|c0 [|c1 [|c2 cs]]], ts as [|t0 [|t1 [|t2 tl]]];
      cbn; unfold py_truediv;
      repeat (match goal with |- context [feqb ?t (of_Z 0)] => destruct (feqb t (of_Z 0)) end; cbn);
      intros H; try discriminate H; injection H as <-; auto.
  - destruct current_spacing as [|c0 [|c1 [|c2 cs]]], ts as [|t0 [|t1 [|t2 tl]]];
      cbn; unfold py_truediv;
      repeat (match goal with
              | |- context [feqb ?t (of_Z 0)] => destruct (feqb t (of_Z 0)) eqn:?; cbn
              end);
      first
        [ split;
          [ discriminate
          | intros (Hc & Ht & Hall);
            first [ cbn in Hc, Ht; lia
                  | cbn in Hall; repeat (apply Forall_cons in Hall as [? Hall]);
                    congruence ] ]
        | split;
          [ intros _; split; [lia|]; split; [lia|]; repeat constructor; assumption
          | reflexivity ] ].
Qed.
End Resample.

Lemma resample_volume_outcomes_witness :
  resample_volume default_preprocessor demo_volume [xq 1; xq 1; xq 1] None = Ok demo_volume
  /\ demo_volume = demo_volume.
Proof.
  assert (H : resample_volume default_preprocessor demo_volume [xq 1; xq 1; xq 1] None
              = Ok demo_volume) by reflexivity.
  split; [exact H|].
  exact (proj1 (resample_volume_outcomes default_preprocessor demo_volume
                  [xq 1; xq 1; xq 1] None) demo_volume H).
Defined.

Lemma clip1_unit_finite (v : xfloat) :
  is_finite (clip1 (of_Z 0) (of_Z 1) v) = true -> in_unit (clip1 (of_Z 0) (of_Z 1) v).
Proof.
  destruct v as [q|]; [|discriminate].
  intros _. destruct (clip1_unit q) as (y & -> & H0 & H1 & _).
  exists y. repeat split; assumption.
Qed.

(** X28: [augment_volume] takes at most five draws from the random
    source.  Without flipping and rotation the shape and the number of
    elements are kept, and the only draw is the one for the noise; with
    everything off the result is the input.  With a positive noise level
    every element of the result that is a number lies between 0 and 1. *)
Theorem augment_volume_contract (env : AugmentEnv (F:=xfloat)) (volume : ndarray xfloat)
    (flip rotate : bool) (noise_level : xfloat) (draws : nat) :
  let out := (augment_volume env volume flip rotate noise_level draws).1 in
  let draws' := (augment_volume env volume flip rotate noise_level draws).2 in
  (draws <= draws' <= draws + 5)%nat
  /\ (flip = false -> rotate = false ->
        shape out = shape volume /\ size out = size volume
        /\ draws' = (draws + if fltb (of_Z 0) noise_level then 1 else 0)%nat)
  /\ (flip = false -> rotate = false -> fltb (of_Z 0) noise_level = false ->
        out = volume)
  /\ (fltb (of_Z 0) noise_level = true ->
        forall i x, data out !! i = Some x -> is_finite x = true -> in_unit x).
Proof.
  intros out draws'. subst out draws'. unfold augment_volume.
  destruct (fltb (of_Z 0) noise_level) eqn:En.
  - destruct flip; [destruct (fltb _ (random_rand env draws))|];
      (destruct rotate; [destruct (fltb _ (random_rand env _))|]);
      cbn [fst snd];
      (split; [lia|]);
      (split;
       [intros Hf Hr;
        first [ discriminate Hf | discriminate Hr
              | unfold np_clip, size; cbn [shape data];
                split; [reflexivity|]; split; [|lia];
                rewrite length_map, length_zip_with, length_map, length_seq;
                unfold size; lia ]|]);
      (split; [intros _ _ Hn; discriminate Hn|]);
      intros _ i x Hx Hfin; unfold np_clip in Hx; cbn [data] in Hx;
      change (map ?f ?l) with (f <$> l) in Hx; rewrite list_lookup_fmap in Hx;
      match type of Hx with
      | _ <$> ?o = _ => destruct o as [v|]; [|discriminate Hx]
      end;
      cbn [fmap option_fmap option_map] in Hx; injection Hx as <-;
      apply clip1_unit_finite, Hfin.
  - destruct flip; [destruct (fltb _ (random_rand env draws))|];
      (destruct rotate; [destruct (fltb _ (random_rand env _))|]);
      cbn [fst snd];
      (split; [lia|]);
      (split;
       [intros Hf Hr;
        first [ discriminate Hf | discriminate Hr
              | split; [reflexivity|]; split; [reflexivity|lia] ]|]);
      (split; [intros Hf Hr _; first [discriminate Hf | discriminate Hr | reflexivity]|]);
      intros Hn; discriminate Hn.
Qed.

Lemma augment_volume_contract_witness :
  fltb (of_Z 0) (xq (1 # 10)) = true
  /\ data (augment_volume demo_augment_env demo_volume true true (xq (1 # 10)) 0).1 !! 1%nat
     = Some (of_Z 0)
  /\ in_unit (of_Z 0).
Proof.
  assert (Hn : fltb (of_Z 0) (xq (1 # 10)) = true) by reflexivity.
  assert (Hx : data (augment_volume demo_augment_env demo_volume true true
                       (xq (1 # 10)) 0).1 !! 1%nat = Some (of_Z 0))
    by (vm_compute; reflexivity).
  split; [exact Hn|]. split; [exact Hx|].
  exact (proj2 (proj2 (proj2 (augment_volume_contract demo_augment_env demo_volume
                                true true (xq (1 # 10)) 0))) Hn 1%nat (of_Z 0) Hx eq_refl).
Defined.
